(** * Oura daily e-mail service: a shallow embedding and its properties

    The development follows the three source files of the repository:
    [email_service.py] (the report formatter and the mail sender),
    [oura_client.py] (the per-category fetch) and [main.py] (configuration,
    the one-shot run, the scheduler and the command dispatch).

    Python values are modelled by the inductive type [pyval]; Python
    exceptions by the error monad [result].  Strings are byte strings: a
    Python [str] is represented by its UTF-8 encoding. *)

From Stdlib Require Import ZArith List String Ascii Bool Lia DecimalString.
Import ListNotations.
Local Open Scope string_scope.
Local Open Scope Z_scope.
Set Warnings "-register-all".

(** ** Exceptions and the error monad *)

Inductive exn : Type :=
| RequestException (msg : string)   (* requests.exceptions.RequestException *)
| AttributeError
| TypeError
| KeyError
| IndexError
| ValueError
| OverflowError
| SystemExit (code : Z)
| OtherException (name : string).

Inductive result (A : Type) : Type :=
| Ok (a : A)
| Raise (e : exn).
Arguments Ok {A} a.
Arguments Raise {A} e.

Definition rbind {A B : Type} (m : result A) (k : A -> result B) : result B :=
  match m with
  | Ok a => k a
  | Raise e => Raise e
  end.

Declare Scope result_scope.
Delimit Scope result_scope with result.
Notation "x <- m ;; k" := (rbind m (fun x => k))
  (at level 61, m at next level, right associativity) : result_scope.

(** ** Calendar data, as [datetime] has it *)

Record datetime : Type := mkDatetime {
  dt_year : Z; dt_month : Z; dt_day : Z;
  dt_hour : Z; dt_minute : Z; dt_second : Z; dt_microsecond : Z
}.

(** The proleptic Gregorian calendar of the [datetime] module: the helper
    functions [_is_leap], [_days_in_month], [_days_before_year],
    [_days_before_month], [_ymd2ord] and [_ord2ymd]. *)
Definition is_leap (y : Z) : bool :=
  (y mod 4 =? 0) && (negb (y mod 100 =? 0) || (y mod 400 =? 0)).

Definition days_in_month (y m : Z) : Z :=
  if m =? 2 then (if is_leap y then 29 else 28)
  else if (m =? 4) || (m =? 6) || (m =? 9) || (m =? 11) then 30
  else 31.

Definition days_before_year (y : Z) : Z :=
  let y1 := y - 1 in y1 * 365 + y1 / 4 - y1 / 100 + y1 / 400.

Definition days_before_month_common (m : Z) : Z :=
  nth (Z.to_nat m) [0; 0; 31; 59; 90; 120; 151; 181; 212; 243; 273; 304; 334] 0.

Definition days_before_month (y m : Z) : Z :=
  days_before_month_common m + (if (2 <? m) && is_leap y then 1 else 0).

Definition ymd2ord (y m d : Z) : Z :=
  days_before_year y + days_before_month y m + d.

(** The end of [_ord2ymd]: month and day from the 0-based day of the year. *)
Definition yday_to_md (leapyear : bool) (n : Z) : Z * Z :=
  let month := Z.shiftr (n + 50) 5 in
  let preceding :=
    days_before_month_common month + (if (2 <? month) && leapyear then 1 else 0) in
  if n <? preceding
  then
    let month := month - 1 in
    let preceding :=
      preceding - (if (month =? 2) && leapyear then 29
                   else days_in_month 1 month) in
    (month, n - preceding + 1)
  else (month, n - preceding + 1).

Definition ord2ymd (n0 : Z) : Z * Z * Z :=
  let n := n0 - 1 in
  let n400 := n / 146097 in
  let n := n mod 146097 in
  let year := n400 * 400 + 1 in
  let n100 := n / 36524 in
  let n := n mod 36524 in
  let n4 := n / 1461 in
  let n := n mod 1461 in
  let n1 := n / 365 in
  let n := n mod 365 in
  let year := year + n100 * 100 + n4 * 4 + n1 in
  if (n1 =? 4) || (n100 =? 4) then (year - 1, 12, 31)
  else
    let leapyear := (n1 =? 3) && (negb (n4 =? 24) || (n100 =? 3)) in
    let '(month, day) := yday_to_md leapyear n in
    (year, month, day).

Definition valid_date (y m d : Z) : bool :=
  (1 <=? y) && (y <=? 9999) && (1 <=? m) && (m <=? 12)
  && (1 <=? d) && (d <=? days_in_month y m).

(** [dt + timedelta(days=k)]: the date moves through its ordinal, the time
    of day is kept; a result outside years 1..9999 is an [OverflowError]. *)
Definition add_days (dt : datetime) (k : Z) : result datetime :=
  let n := ymd2ord (dt_year dt) (dt_month dt) (dt_day dt) + k in
  if (1 <=? n) && (n <=? 3652059)
  then let '(y, m, d) := ord2ymd n in
       Ok (mkDatetime y m d (dt_hour dt) (dt_minute dt) (dt_second dt)
                      (dt_microsecond dt))
  else Raise OverflowError.

(** The calendar day before and after a date, by the rules of the
    calendar: the spec's "D - 1 day" and "D + 1 day". *)
Definition day_before (dt : datetime) : datetime :=
  let y := dt_year dt in
  let m := dt_month dt in
  let d := dt_day dt in
  let '(y', m', d') :=
    if 1 <? d then (y, m, d - 1)
    else if 1 <? m then (y, m - 1, days_in_month y (m - 1))
    else (y - 1, 12, 31) in
  mkDatetime y' m' d' (dt_hour dt) (dt_minute dt) (dt_second dt) (dt_microsecond dt).

Definition day_after (dt : datetime) : datetime :=
  let y := dt_year dt in
  let m := dt_month dt in
  let d := dt_day dt in
  let '(y', m', d') :=
    if d <? days_in_month y m then (y, m, d + 1)
    else if m <? 12 then (y, m + 1, 1)
    else (y + 1, 1, 1) in
  mkDatetime y' m' d' (dt_hour dt) (dt_minute dt) (dt_second dt) (dt_microsecond dt).

Definition valid_datetime (dt : datetime) : bool :=
  valid_date (dt_year dt) (dt_month dt) (dt_day dt).

(** A date with a day before and a day after it in the calendar. *)
Definition inside_calendar (y m d : Z) : bool :=
  valid_date y m d
  && negb ((y =? 1) && (m =? 1) && (d =? 1))
  && negb ((y =? 9999) && (m =? 12) && (d =? 31)).

(** [date.toordinal()]: the number of the day, day 1 being 1 January of
    year 1. *)
Definition toordinal (dt : datetime) : Z :=
  ymd2ord (dt_year dt) (dt_month dt) (dt_day dt).

(** The order of naive datetimes and their differences, in microseconds:
    the time of day and the moment counted from the start of day 0. *)
Definition day_us : Z := 86400000000.

Definition time_us (h m s us : Z) : Z := ((h * 60 + m) * 60 + s) * 1000000 + us.

Definition time_of (dt : datetime) : Z :=
  time_us (dt_hour dt) (dt_minute dt) (dt_second dt) (dt_microsecond dt).

Definition timestamp (dt : datetime) : Z := toordinal dt * day_us + time_of dt.

Definition valid_time (dt : datetime) : bool :=
  (0 <=? dt_hour dt) && (dt_hour dt <? 24) && (0 <=? dt_minute dt) && (dt_minute dt <? 60)
  && (0 <=? dt_second dt) && (dt_second dt <? 60)
  && (0 <=? dt_microsecond dt) && (dt_microsecond dt <? 1000000).

Definition date_of (dt : datetime) : Z * Z * Z := (dt_year dt, dt_month dt, dt_day dt).

Definition on_date (y m d : Z) : datetime := mkDatetime y m d 0 0 0 0.

(** ** The part of the Python runtime the code relies on but does not contain

    Floating-point arithmetic and printing, [repr] of a string and the two
    parsers of the [datetime] module are library code; the embedding takes
    them as an interface over the type [pyfloat] of floating-point values.  Every general theorem below holds for every
    implementation of the interface. *)

Class PyLib (pyfloat : Type) : Type := {
  float_repr : pyfloat -> string;            (* str(x) *)
  float_fixed2 : pyfloat -> string;          (* format(x, '+.2f') *)
  float_of_int : Z -> option pyfloat;        (* float(n); None: OverflowError *)
  float_floordiv : pyfloat -> Z -> pyfloat;  (* x // n, n a non-zero int *)
  float_mod : pyfloat -> Z -> pyfloat;       (* x % n, n a non-zero int *)
  float_gt0 : pyfloat -> bool;               (* x > 0 *)
  float_nonzero : pyfloat -> bool;           (* bool(x) *)
  str_repr : string -> string;               (* repr(s) *)
  fromisoformat : string -> option datetime; (* None: ValueError *)
  strptime_ymd : string -> option datetime   (* strptime(s, '%Y-%m-%d') *)
}.

(** ** Decimal rendering of integers *)

Definition str_int (z : Z) : string := NilZero.string_of_int (Z.to_int z).

Definition pad2 (z : Z) : string :=
  if z <? 10 then "0" ++ str_int z else str_int z.

Section Formatter.
Context {pyfloat : Type} {L : PyLib pyfloat}.

(** ** Python values (what [json.loads] produces) *)

Inductive pyval : Type :=
| PNone
| PBool (b : bool)
| PInt (z : Z)
| PFloat (f : pyfloat)
| PStr (s : string)
| PList (l : list pyval)
| PDict (d : list (string * pyval)).

Definition dict : Type := list (string * pyval).

(** [d.get(k)]: the first binding of [k]. *)
Fixpoint lookup (k : string) (d : dict) : option pyval :=
  match d with
  | [] => None
  | (k', v) :: d' => if String.eqb k k' then Some v else lookup k d'
  end.

(** [d[k] = v]: an existing key keeps its place, a new one goes last. *)
Fixpoint dict_set (k : string) (v : pyval) (d : dict) : dict :=
  match d with
  | [] => [(k, v)]
  | (k', v') :: d' =>
      if String.eqb k k' then (k', v) :: d' else (k', v') :: dict_set k v d'
  end.

(** [bool(v)] *)
Definition truthy (v : pyval) : bool :=
  match v with
  | PNone => false
  | PBool b => b
  | PInt z => negb (z =? 0)
  | PFloat f => float_nonzero f
  | PStr s => negb (String.eqb s "")
  | PList l => match l with [] => false | _ => true end
  | PDict d => match d with [] => false | _ => true end
  end.

(** [v.get(k, default)]: only a dict has the method; a key bound to [None]
    yields [None], not the default. *)
Definition py_get (v : pyval) (k : string) (default : pyval) : result pyval :=
  match v with
  | PDict d => Ok (match lookup k d with Some x => x | None => default end)
  | _ => Raise AttributeError
  end.

(** [v[k]] for a string key. *)
Definition py_getitem (v : pyval) (k : string) : result pyval :=
  match v with
  | PDict d => match lookup k d with Some x => Ok x | None => Raise KeyError end
  | _ => Raise TypeError
  end.

(** [v[0]] *)
Definition py_index0 (v : pyval) : result pyval :=
  match v with
  | PList (x :: _) => Ok x
  | PList [] => Raise IndexError
  | PStr (String c _) => Ok (PStr (String c EmptyString))
  | PStr EmptyString => Raise IndexError
  | PDict _ => Raise KeyError
  | _ => Raise TypeError
  end.

(** The items a [for] loop over [v] visits. *)
Definition py_iter (v : pyval) : result (list pyval) :=
  match v with
  | PList l => Ok l
  | PStr s => Ok (map (fun c => PStr (String c EmptyString)) (list_ascii_of_string s))
  | PDict d => Ok (map (fun kv => PStr (fst kv)) d)
  | _ => Raise TypeError
  end.

(** [v == s] for a string literal [s]. *)
Definition py_eq_str (v : pyval) (s : string) : bool :=
  match v with
  | PStr s' => String.eqb s' s
  | _ => false
  end.

(** ** [str] and [repr] *)

Definition join (sep : string) (l : list string) : string := String.concat sep l.

Fixpoint py_repr (v : pyval) : string :=
  match v with
  | PNone => "None"
  | PBool true => "True"
  | PBool false => "False"
  | PInt z => str_int z
  | PFloat f => float_repr f
  | PStr s => str_repr s
  | PList l => "[" ++ join ", " (map py_repr l) ++ "]"
  | PDict d =>
      "{" ++ join ", " (map (fun kv => str_repr (fst kv) ++ ": " ++ py_repr (snd kv)) d) ++ "}"
  end.

(** [str(v)], which is what an f-string field without a format does. *)
Definition py_str (v : pyval) : string :=
  match v with
  | PStr s => s
  | _ => py_repr v
  end.

(** ** Numbers: [int], [bool] (a subclass of [int]) and [float] *)

Inductive num : Type :=
| NInt (z : Z)
| NFloat (f : pyfloat).

Definition as_num (v : pyval) : result num :=
  match v with
  | PInt z => Ok (NInt z)
  | PBool b => Ok (NInt (if b then 1 else 0))
  | PFloat f => Ok (NFloat f)
  | _ => Raise TypeError
  end.

(** [n // k] and [n % k] for a positive int literal [k]: floor division. *)
Definition num_floordiv (n : num) (k : Z) : num :=
  match n with
  | NInt z => NInt (z / k)
  | NFloat f => NFloat (float_floordiv f k)
  end.

Definition num_mod (n : num) (k : Z) : num :=
  match n with
  | NInt z => NInt (z mod k)
  | NFloat f => NFloat (float_mod f k)
  end.

Definition num_gt0 (n : num) : bool :=
  match n with
  | NInt z => 0 <? z
  | NFloat f => float_gt0 f
  end.

Definition num_str (n : num) : string :=
  match n with
  | NInt z => str_int z
  | NFloat f => float_repr f
  end.

(** ** email_service.py *)

(** [format_duration], lines 13-21. *)
Definition format_duration (seconds : pyval) : result string :=
  match seconds with
  | PNone => Ok "N/A"
  | _ =>
      (s <- as_num seconds ;;
       let hours := num_floordiv s 3600 in
       let minutes := num_floordiv (num_mod s 3600) 60 in
       if num_gt0 hours
       then Ok (num_str hours ++ "h " ++ num_str minutes ++ "m")
       else Ok (num_str minutes ++ "m"))%result
  end.


(** [strftime('%-I:%M %p')] and [strftime('%b %-d')] in the C locale. *)
Definition strftime_clock (dt : datetime) : string :=
  let h := dt_hour dt mod 12 in
  str_int (if h =? 0 then 12 else h) ++ ":" ++ pad2 (dt_minute dt) ++ " "
  ++ (if dt_hour dt <? 12 then "AM" else "PM").

Definition month_abbr (m : Z) : string :=
  nth (Z.to_nat (m - 1))
      ["Jan"; "Feb"; "Mar"; "Apr"; "May"; "Jun";
       "Jul"; "Aug"; "Sep"; "Oct"; "Nov"; "Dec"] "".

Definition strftime_month_day (dt : datetime) : string :=
  month_abbr (dt_month dt) ++ " " ++ str_int (dt_day dt).

(** [s.replace('Z', '+00:00')] *)
Fixpoint replace_Z (s : string) : string :=
  match s with
  | EmptyString => EmptyString
  | String c s' =>
      if Ascii.eqb c "Z"%char then "+00:00" ++ replace_Z s'
      else String c (replace_Z s')
  end.

(** [format_time], lines 24-32.  The bare [except] also catches the
    [AttributeError] of [replace] on a value that is not a string. *)
Definition format_time (iso_string : pyval) : pyval :=
  if negb (truthy iso_string) then PStr "N/A"
  else match iso_string with
       | PStr s =>
           match fromisoformat (replace_Z s) with
           | Some dt => PStr (strftime_clock dt)
           | None => iso_string
           end
       | _ => iso_string
       end.

(** [format_date_short], lines 35-43. *)
Definition format_date_short (date_str : pyval) : pyval :=
  if negb (truthy date_str) then PStr "N/A"
  else match date_str with
       | PStr s =>
           match strptime_ymd s with
           | Some dt => PStr (strftime_month_day dt)
           | None => date_str
           end
       | _ => date_str
       end.

(** [safe_get], lines 46-58; the default is passed explicitly. *)
Fixpoint safe_get (data : pyval) (keys : list string) (default : pyval) : pyval :=
  match keys with
  | [] => data
  | key :: keys' =>
      let step :=
        match data with
        | PDict d => Some (match lookup key d with Some x => x | None => PNone end)
        | PList (PDict d0 :: _) =>
            Some (match lookup key d0 with Some x => x | None => PNone end)
        | PList (_ :: _) => Some PNone
        | _ => None
        end in
      match step with
      | None => default
      | Some PNone => default
      | Some r => safe_get r keys' default
      end
  end.

(** [format(n, ',')] for an int: groups of three digits from the right. *)
Fixpoint group3 (rev_digits : list ascii) : list ascii :=
  match rev_digits with
  | a :: b :: c :: ((_ :: _) as rest) => a :: b :: c :: ","%char :: group3 rest
  | l => l
  end.

Definition fmt_thousands (z : Z) : string :=
  let digits := list_ascii_of_string (str_int (Z.abs z)) in
  (if z <? 0 then "-" else "")
  ++ string_of_list_ascii (rev (group3 (rev digits))).

(** [format(v, '+.2f')] for an int, a bool or a float. *)
Definition fmt_plus_2f (n : num) : result string :=
  match n with
  | NInt z => match float_of_int z with
              | Some f => Ok (float_fixed2 f)
              | None => Raise OverflowError
              end
  | NFloat f => Ok (float_fixed2 f)
  end.

Definition nl : string := String (ascii_of_nat 10) EmptyString.

(** The expression [slot.get("data", [{}])[0] if slot.get("data") else {}]
    of lines 70, 85, 88 and 91. *)
Definition first_record (slot : pyval) : result pyval :=
  (c <- py_get slot "data" PNone ;;
   if truthy c
   then (v <- py_get slot "data" (PList [PDict []]) ;; py_index0 v)
   else Ok (PDict []))%result.

(** The [for] loop of lines 76-79: the first period tagged "long_sleep". *)
Fixpoint find_long_sleep (periods : list pyval) : result (option pyval) :=
  match periods with
  | [] => Ok None
  | period :: rest =>
      (t <- py_get period "type" PNone ;;
       if py_eq_str t "long_sleep" then Ok (Some period)
       else find_long_sleep rest)%result
  end.

(** Lines 74-82: the sleep period the report is about. *)
Definition select_period (sleep_periods : pyval) : result pyval :=
  (c <- py_get sleep_periods "data" PNone ;;
   if truthy c
   then
     (data <- py_getitem sleep_periods "data" ;;
      items <- py_iter data ;;
      found <- find_long_sleep items ;;
      let period_data := match found with Some p => p | None => PDict [] end in
      data' <- py_getitem sleep_periods "data" ;;
      if negb (truthy period_data) && truthy data'
      then (data'' <- py_getitem sleep_periods "data" ;; py_index0 data'')
      else Ok period_data)
   else Ok (PDict []))%result.

(** Lines 108-123: what the SLEEP section shows of the selected period. *)
Record period_view : Type := mkPeriodView {
  bedtime_start : pyval; bedtime_end : pyval;
  time_in_bed : string; total_sleep : string; latency_min : num;
  deep_duration : string; rem_duration : string; light_duration : string;
  avg_hr : pyval; lowest_hr : pyval; avg_hrv : pyval;
  avg_breath : pyval; restless : pyval
}.

Definition duration_field (rec : pyval) (key : string) : result string :=
  (v <- py_get rec key (PInt 0) ;; format_duration v)%result.

Definition period_details (period_data : pyval) : result period_view :=
  (bs <- py_get period_data "bedtime_start" (PStr "") ;;
   be <- py_get period_data "bedtime_end" (PStr "") ;;
   tib <- duration_field period_data "time_in_bed" ;;
   ts <- duration_field period_data "total_sleep_duration" ;;
   latency_sec <- py_get period_data "latency" (PInt 0) ;;
   lm <- (if truthy latency_sec
          then (n <- as_num latency_sec ;; Ok (num_floordiv n 60))
          else Ok (NInt 0)) ;;
   dd <- duration_field period_data "deep_sleep_duration" ;;
   rd <- duration_field period_data "rem_sleep_duration" ;;
   ld <- duration_field period_data "light_sleep_duration" ;;
   ahr <- py_get period_data "average_heart_rate" (PStr "N/A") ;;
   lhr <- py_get period_data "lowest_heart_rate" (PStr "N/A") ;;
   ahrv <- py_get period_data "average_hrv" (PStr "N/A") ;;
   ab <- py_get period_data "average_breath" (PStr "N/A") ;;
   rs <- py_get period_data "restless_periods" (PStr "N/A") ;;
   Ok (mkPeriodView (format_time bs) (format_time be) tib ts lm dd rd ld
                    ahr lhr ahrv ab rs))%result.

(** Lines 126-128. *)
Definition temp_deviation (readiness_data : pyval) : result pyval :=
  (temp_dev <- py_get readiness_data "temperature_deviation" (PStr "N/A") ;;
   match temp_dev with
   | PInt _ | PBool _ | PFloat _ =>
       n <- as_num temp_dev ;;
       s <- fmt_plus_2f n ;;
       Ok (PStr (s ++ "°C"))
   | _ => Ok temp_dev
   end)%result.

(** Lines 131-137. *)
Record activity_view : Type := mkActivityView {
  steps : pyval; active_cal : pyval;
  low_activity : string; med_activity : string; high_activity : string
}.

Definition activity_details (activity_data : pyval) : result activity_view :=
  (st <- py_get activity_data "steps" (PStr "N/A") ;;
   let st' := match st with
              | PInt z => PStr (fmt_thousands z)
              | PBool b => PStr (fmt_thousands (if b then 1 else 0))
              | _ => st
              end in
   ac <- py_get activity_data "active_calories" (PStr "N/A") ;;
   lo <- duration_field activity_data "low_activity_time" ;;
   me <- duration_field activity_data "medium_activity_time" ;;
   hi <- duration_field activity_data "high_activity_time" ;;
   Ok (mkActivityView st' ac lo me hi))%result.

(** Lines 140-144. *)
Record stress_view : Type := mkStressView {
  stress_summary : pyval; recovery_time : string; stress_time : string
}.

Definition stress_details (stress_data : pyval) : result stress_view :=
  (su <- py_get stress_data "day_summary" (PStr "N/A") ;;
   recovery_high <- py_get stress_data "recovery_high" (PInt 0) ;;
   stress_high <- py_get stress_data "stress_high" (PInt 0) ;;
   rt <- (if truthy recovery_high then format_duration recovery_high else Ok "0m") ;;
   stt <- (if truthy stress_high then format_duration stress_high else Ok "0m") ;;
   Ok (mkStressView su rt stt))%result.

(** Lines 192-201: the WORKOUTS section appended to the report. *)
Fixpoint workout_lines (ws : list pyval) : result string :=
  match ws with
  | [] => Ok ""
  | w :: rest =>
      (w_type <- py_get w "activity" (PStr "Unknown") ;;
       w_cal <- py_get w "calories" (PStr "N/A") ;;
       w_duration <- duration_field w "duration" ;;
       more <- workout_lines rest ;;
       Ok ("  " ++ py_str w_type ++ ": " ++ w_duration ++ ", " ++ py_str w_cal
           ++ " cal" ++ nl ++ more))%result
  end.

Definition workouts_section (workout_list : pyval) : result string :=
  if truthy workout_list
  then (ws <- py_iter workout_list ;;
        body <- workout_lines ws ;;
        Ok (nl ++ "WORKOUTS" ++ nl ++ body))%result
  else Ok (nl ++ "WORKOUTS" ++ nl ++ "  None logged" ++ nl).

(** The f-string of lines 150-190, one list item per line of the template. *)
Definition report_body (date : pyval) (sleep_score activity_score readiness_score : pyval)
    (date_short activity_date_short : pyval) (p : period_view)
    (sleep_contrib readiness_contrib : pyval) (temp_dev : pyval)
    (a : activity_view) (st : stress_view) : result string :=
  (sc_deep <- py_get sleep_contrib "deep_sleep" (PStr "N/A") ;;
   sc_rem <- py_get sleep_contrib "rem_sleep" (PStr "N/A") ;;
   sc_timing <- py_get sleep_contrib "timing" (PStr "N/A") ;;
   sc_eff <- py_get sleep_contrib "efficiency" (PStr "N/A") ;;
   sc_rest <- py_get sleep_contrib "restfulness" (PStr "N/A") ;;
   sc_lat <- py_get sleep_contrib "latency" (PStr "N/A") ;;
   sc_total <- py_get sleep_contrib "total_sleep" (PStr "N/A") ;;
   rc_hrv <- py_get readiness_contrib "hrv_balance" (PStr "N/A") ;;
   rc_sleep <- py_get readiness_contrib "sleep_balance" (PStr "N/A") ;;
   rc_prev <- py_get readiness_contrib "previous_night" (PStr "N/A") ;;
   rc_rec <- py_get readiness_contrib "recovery_index" (PStr "N/A") ;;
   Ok (join nl [
     "Oura Daily Report — " ++ py_str date;
     "";
     "SCORES";
     "  Sleep: " ++ py_str sleep_score ++ " | Activity: " ++ py_str activity_score
       ++ " | Readiness: " ++ py_str readiness_score;
     "";
     "SLEEP (" ++ py_str date_short ++ ")";
     "  Bedtime: " ++ py_str (bedtime_start p) ++ " → " ++ py_str (bedtime_end p)
       ++ " (" ++ time_in_bed p ++ " in bed)";
     "  Total sleep: " ++ total_sleep p;
     "  Latency: " ++ num_str (latency_min p) ++ " min";
     "  ";
     "  Stages:";
     "    Deep: " ++ deep_duration p ++ " (score: " ++ py_str sc_deep ++ ")";
     "    REM: " ++ rem_duration p ++ " (score: " ++ py_str sc_rem ++ ")";
     "    Light: " ++ light_duration p;
     "  ";
     "  Contributors:";
     "    Timing: " ++ py_str sc_timing ++ " | Efficiency: " ++ py_str sc_eff
       ++ " | Restfulness: " ++ py_str sc_rest;
     "    Latency: " ++ py_str sc_lat ++ " | Total: " ++ py_str sc_total;
     "  ";
     "  Physiology:";
     "    Avg HR: " ++ py_str (avg_hr p) ++ " bpm | Lowest: " ++ py_str (lowest_hr p) ++ " bpm";
     "    Avg HRV: " ++ py_str (avg_hrv p) ++ " ms";
     "    Avg breath: " ++ py_str (avg_breath p) ++ "/min";
     "    Restless periods: " ++ py_str (restless p);
     "";
     "READINESS";
     "  Score: " ++ py_str readiness_score;
     "  Temp deviation: " ++ py_str temp_dev;
     "  Contributors:";
     "    HRV balance: " ++ py_str rc_hrv ++ " | Sleep balance: " ++ py_str rc_sleep;
     "    Previous night: " ++ py_str rc_prev ++ " | Recovery index: " ++ py_str rc_rec;
     "";
     "ACTIVITY (" ++ py_str activity_date_short ++ ")";
     "  Steps: " ++ py_str (steps a);
     "  Active calories: " ++ py_str (active_cal a);
     "  Low activity: " ++ low_activity a ++ " | Medium: " ++ med_activity a
       ++ " | High: " ++ high_activity a;
     "";
     "STRESS (" ++ py_str activity_date_short ++ ")";
     "  Day summary: " ++ py_str (stress_summary st);
     "  Recovery time: " ++ recovery_time st ++ " | Stress time: " ++ stress_time st;
     ""
   ]))%result.

(** [format_oura_report], lines 61-203. *)
Definition format_oura_report (oura_data : dict) : result string :=
  (let data := PDict oura_data in
   date <- py_get data "date" (PStr "Unknown") ;;
   activity_date <- py_get data "activity_date" date ;;
   daily_sleep <- py_get data "daily_sleep" (PDict []) ;;
   sleep_data <- first_record daily_sleep ;;
   sleep_periods <- py_get data "sleep_periods" (PDict []) ;;
   period_data <- select_period sleep_periods ;;
   daily_activity <- py_get data "daily_activity" (PDict []) ;;
   activity_data <- first_record daily_activity ;;
   daily_readiness <- py_get data "daily_readiness" (PDict []) ;;
   readiness_data <- first_record daily_readiness ;;
   daily_stress <- py_get data "daily_stress" (PDict []) ;;
   stress_data <- first_record daily_stress ;;
   workouts <- py_get data "workouts" (PDict []) ;;
   workout_list <- (if truthy workouts then py_get workouts "data" (PList [])
                    else Ok (PList [])) ;;
   sleep_score <- py_get sleep_data "score" (PStr "N/A") ;;
   activity_score <- py_get activity_data "score" (PStr "N/A") ;;
   readiness_score <- py_get readiness_data "score" (PStr "N/A") ;;
   sleep_contrib <- py_get sleep_data "contributors" (PDict []) ;;
   readiness_contrib <- py_get readiness_data "contributors" (PDict []) ;;
   p <- period_details period_data ;;
   temp_dev <- temp_deviation readiness_data ;;
   a <- activity_details activity_data ;;
   st <- stress_details stress_data ;;
   let date_short := format_date_short date in
   let activity_date_short := format_date_short activity_date in
   report <- report_body date sleep_score activity_score readiness_score
               date_short activity_date_short p sleep_contrib readiness_contrib
               temp_dev a st ;;
   tail <- workouts_section workout_list ;;
   Ok (report ++ tail))%result.

(** The wrapper of lines 212-233, before and after the embedded report. *)
Definition html_head : string :=
  join nl [
    "";
    "<!DOCTYPE html>";
    "<html>";
    "<head>";
    "    <style>";
    "        body { ";
    "            font-family: monospace;";
    "            font-size: 14px;";
    "            line-height: 1.5;";
    "            color: #333;";
    "        }";
    "        pre {";
    "            white-space: pre-wrap;";
    "            font-family: monospace;";
    "        }";
    "    </style>";
    "</head>";
    "<body>";
    "    <pre>" ].

Definition html_tail : string :=
  join nl [ "</pre>"; "</body>"; "</html>"; "" ].

(** [format_html_report], lines 206-234. *)
Definition format_html_report (oura_data : dict) : result string :=
  (text_report <- format_oura_report oura_data ;;
   Ok (join "" [html_head; text_report; html_tail]))%result.

(** ** The world outside: clock, environment, the Oura API and SMTP *)

(** One SMTP library call of [send_email]. *)
Record email : Type := mkEmail {
  em_subject : string; em_from : option string; em_to : string;
  em_text : string; em_html : option string
}.

Inductive smtp_op : Type :=
| SmtpConnect (server : string) (port : Z)     (* smtplib.SMTP(server, port) *)
| SmtpSslConnect (server : string) (port : Z)  (* smtplib.SMTP_SSL(server, port) *)
| SmtpStartTls
| SmtpLogin (user password : option string)
| SmtpSendmail (sender : option string) (recipient : string) (msg : email)
| SmtpQuit.

(** [clock] gives the successive readings of [datetime.now()]; [api] what an
    authenticated GET of an endpoint with the two date parameters does: it
    returns the parsed JSON body, which is whatever value the server sent, or
    raises; [smtp] what each SMTP call does;
    [environ] is the process environment after [load_dotenv()]. *)
Record world : Type := mkWorld {
  clock : nat -> datetime;
  api : string -> string -> string -> result pyval;
  smtp : smtp_op -> result unit;
  environ : string -> option string
}.

(** What a run has done so far. *)
Record state : Type := mkState {
  ticks : nat;                                  (* clock readings consumed *)
  requests : list (string * string * string);   (* GETs issued, oldest first *)
  smtp_log : list smtp_op;                      (* SMTP calls made, oldest first *)
  stdout : list string                          (* lines printed, oldest first *)
}.

Definition initial_state : state := mkState 0 [] [] [].

Definition M (A : Type) : Type := state -> result A * state.

Definition ret {A : Type} (a : A) : M A := fun s => (Ok a, s).

Definition raise {A : Type} (e : exn) : M A := fun s => (Raise e, s).

Definition bind {A B : Type} (m : M A) (k : A -> M B) : M B :=
  fun s => match m s with
           | (Ok a, s') => k a s'
           | (Raise e, s') => (Raise e, s')
           end.

Definition lift {A : Type} (r : result A) : M A := fun s => (r, s).

Declare Scope m_scope.
Delimit Scope m_scope with M.
Notation "x <- m ;; k" := (bind m (fun x => k))
  (at level 61, m at next level, right associativity) : m_scope.
Notation "m ;;; k" := (bind m (fun _ => k))
  (at level 61, right associativity) : m_scope.

Definition print (line : string) : M unit :=
  fun s => (Ok tt, mkState (ticks s) (requests s) (smtp_log s) (stdout s ++ [line])).

(** [isinstance(e, Exception)]: [SystemExit] derives from [BaseException]. *)
Definition is_Exception (e : exn) : bool :=
  match e with
  | SystemExit _ => false
  | _ => true
  end.

(** [str(e)] for an exception: its message. *)
Definition str_exn (e : exn) : string :=
  match e with
  | RequestException msg => msg
  | OtherException msg => msg
  | SystemExit code => str_int code
  | _ => ""
  end.

(** [strftime('%Y-%m-%d')], [str(dt)] and [dt.isoformat()]. *)
Definition pad4 (z : Z) : string :=
  (if z <? 10 then "000" else if z <? 100 then "00" else if z <? 1000 then "0" else "")
  ++ str_int z.

Definition pad6 (z : Z) : string :=
  (if z <? 10 then "00000" else if z <? 100 then "0000" else if z <? 1000 then "000"
   else if z <? 10000 then "00" else if z <? 100000 then "0" else "") ++ str_int z.

Definition strftime_ymd (dt : datetime) : string :=
  pad4 (dt_year dt) ++ "-" ++ pad2 (dt_month dt) ++ "-" ++ pad2 (dt_day dt).

Definition datetime_str (sep : string) (dt : datetime) : string :=
  strftime_ymd dt ++ sep ++ pad2 (dt_hour dt) ++ ":" ++ pad2 (dt_minute dt) ++ ":"
  ++ pad2 (dt_second dt)
  ++ (if dt_microsecond dt =? 0 then "" else "." ++ pad6 (dt_microsecond dt)).

Definition isoformat (dt : datetime) : string := datetime_str "T" dt.
Definition str_datetime (dt : datetime) : string := datetime_str " " dt.

Section Run.
Variable w : world.

(** [datetime.now()] *)
Definition now : M datetime :=
  fun s => (Ok (clock w (ticks s)),
            mkState (S (ticks s)) (requests s) (smtp_log s) (stdout s)).

(** ** oura_client.py *)

(** [_make_request], lines 23-28, with the two date parameters every caller
    passes.  The body is returned as [response.json()] gives it: the [dict]
    of the annotation is not checked. *)
Definition make_request (endpoint start_date end_date : string) : M pyval :=
  fun s => (api w endpoint start_date end_date,
            mkState (ticks s) (requests s ++ [(endpoint, start_date, end_date)])
                    (smtp_log s) (stdout s)).

Definition get_daily_sleep := make_request "v2/usercollection/daily_sleep".
Definition get_sleep_periods := make_request "v2/usercollection/sleep".
Definition get_daily_activity := make_request "v2/usercollection/daily_activity".
Definition get_daily_readiness := make_request "v2/usercollection/daily_readiness".
Definition get_daily_stress := make_request "v2/usercollection/daily_stress".
Definition get_workouts := make_request "v2/usercollection/workout".
Definition get_sleep_time := make_request "v2/usercollection/sleep_time".

(** One [try: data[slot] = call except RequestException as e:
    data[slot] = {"error": str(e)}] block of lines 178-213. *)
Definition error_marker (msg : string) : pyval := PDict [("error", PStr msg)].

Definition fetch_slot (slot : string) (call : M pyval) (data : dict) : M dict :=
  fun s => match call s with
           | (Ok v, s') => (Ok (dict_set slot v data), s')
           | (Raise (RequestException msg), s') =>
               (Ok (dict_set slot (error_marker msg) data), s')
           | (Raise e, s') => (Raise e, s')
           end.

(** [get_todays_data], lines 149-215. *)
Definition get_todays_data : M dict :=
  (n1 <- now ;;
   d1 <- lift (add_days n1 (-1)) ;;
   let yesterday := strftime_ymd d1 in
   n2 <- now ;;
   let today := strftime_ymd n2 in
   n3 <- now ;;
   d3 <- lift (add_days n3 1) ;;
   let tomorrow := strftime_ymd d3 in
   n4 <- now ;;
   let data : dict :=
     [ ("date", PStr today);
       ("activity_date", PStr yesterday);
       ("fetched_at", PStr (isoformat n4));
       ("daily_sleep", PNone);
       ("sleep_periods", PNone);
       ("daily_activity", PNone);
       ("daily_readiness", PNone);
       ("daily_stress", PNone);
       ("workouts", PNone);
       ("sleep_time", PNone) ] in
   data <- fetch_slot "daily_sleep" (get_daily_sleep today tomorrow) data ;;
   data <- fetch_slot "sleep_periods" (get_sleep_periods today tomorrow) data ;;
   data <- fetch_slot "daily_readiness" (get_daily_readiness today tomorrow) data ;;
   data <- fetch_slot "daily_activity" (get_daily_activity yesterday today) data ;;
   data <- fetch_slot "daily_stress" (get_daily_stress yesterday today) data ;;
   data <- fetch_slot "workouts" (get_workouts yesterday today) data ;;
   data <- fetch_slot "sleep_time" (get_sleep_time yesterday today) data ;;
   ret data)%M.

(** ** email_service.py: the sender *)

Record EmailService : Type := mkEmailService {
  smtp_server : string; smtp_port : Z;
  sender_email : option string; sender_password : option string;
  use_tls : bool
}.

Definition smtp_call (op : smtp_op) : M unit :=
  fun s => (smtp w op,
            mkState (ticks s) (requests s) (smtp_log s ++ [op]) (stdout s)).

(** Lines 273-285: the message, with the HTML part when one is given. *)
Definition mime_message (self : EmailService) (recipient subject body_text : string)
    (body_html : option string) : email :=
  mkEmail subject (sender_email self) recipient body_text
          (match body_html with
           | Some h => if String.eqb h "" then None else Some h
           | None => None
           end).

(** Lines 288-296: the SMTP calls of the [try] block, in order. *)
Definition smtp_session (self : EmailService) (recipient : string) (msg : email)
  : list smtp_op :=
  (if use_tls self
   then [SmtpConnect (smtp_server self) (smtp_port self); SmtpStartTls]
   else [SmtpSslConnect (smtp_server self) (smtp_port self)])
  ++ [SmtpLogin (sender_email self) (sender_password self);
      SmtpSendmail (sender_email self) recipient msg;
      SmtpQuit].

Fixpoint smtp_calls (ops : list smtp_op) : M unit :=
  match ops with
  | [] => ret tt
  | op :: rest => (smtp_call op ;;; smtp_calls rest)%M
  end.

(** [send_email], lines 254-300. *)
Definition send_email (self : EmailService) (recipient subject body_text : string)
    (body_html : option string) : M bool :=
  let msg := mime_message self recipient subject body_text body_html in
  fun s => match (smtp_calls (smtp_session self recipient msg) ;;; ret true)%M s with
           | (Ok b, s') => (Ok b, s')
           | (Raise e, s') =>
               if is_Exception e
               then (print ("Failed to send email: " ++ str_exn e) ;;; ret false)%M s'
               else (Raise e, s')
           end.

(** [send_oura_data], lines 302-322. *)
Definition send_oura_data (self : EmailService) (recipient : string)
    (oura_data : dict) : M bool :=
  (date <- lift (py_get (PDict oura_data) "date" (PStr "Unknown")) ;;
   let subject := "🌙 Oura Daily Report — " ++ py_str date in
   body_text <- lift (format_oura_report oura_data) ;;
   body_html <- lift (format_html_report oura_data) ;;
   send_email self recipient subject body_text (Some body_html))%M.

End Run.

(** ** main.py *)

(** [int(s)] for a decimal literal in an ASCII string: surrounding white
    space (the space and the characters 9 to 13, which is what [int] skips
    in an ASCII string), a sign, and digits separated by single
    underscores. *)
Definition is_space (c : ascii) : bool :=
  let n := nat_of_ascii c in
  (Nat.eqb n 32) || ((Nat.leb 9 n) && (Nat.leb n 13)).

Definition is_digit (c : ascii) : bool :=
  let n := nat_of_ascii c in (Nat.leb 48 n) && (Nat.leb n 57).

Definition digit_value (c : ascii) : Z := Z.of_nat (nat_of_ascii c) - 48.

Fixpoint lstrip (l : list ascii) : list ascii :=
  match l with
  | c :: l' => if is_space c then lstrip l' else l
  | [] => []
  end.

Definition strip (l : list ascii) : list ascii := rev (lstrip (rev (lstrip l))).

Fixpoint digits_value (l : list ascii) (acc : Z) (after_digit : bool) : option Z :=
  match l with
  | [] => if after_digit then Some acc else None
  | c :: l' =>
      if is_digit c then digits_value l' (10 * acc + digit_value c) true
      else if Ascii.eqb c "_"%char
           then (if after_digit then digits_value l' acc false else None)
           else None
  end.

Definition int_of_string (s : string) : result Z :=
  let body := strip (list_ascii_of_string s) in
  let parsed :=
    match body with
    | c :: l' =>
        if Ascii.eqb c "-"%char then option_map Z.opp (digits_value l' 0 false)
        else if Ascii.eqb c "+"%char then digits_value l' 0 false
        else digits_value body 0 false
    | [] => None
    end in
  match parsed with
  | Some z => Ok z
  | None => Raise ValueError
  end.

Record config : Type := mkConfig {
  cfg_oura_token : option string;
  cfg_smtp_server : string;
  cfg_smtp_port : Z;
  cfg_sender_email : option string;
  cfg_sender_password : option string;
  cfg_recipient_email : string;
  cfg_schedule_time : string
}.

(** [not v] for the value of [os.getenv(name)]: unset or empty. *)
Definition unset_or_empty (v : option string) : bool :=
  match v with
  | None => true
  | Some s => String.eqb s ""
  end.

Definition getenv_default (env : string -> option string) (name default : string) : string :=
  match env name with
  | Some v => v
  | None => default
  end.

(** Lines 34-40: the names of the required variables that are not set. *)
Definition missing_variables (cfg : config) : list string :=
  (if unset_or_empty (cfg_oura_token cfg) then ["OURA_ACCESS_TOKEN"] else [])
  ++ (if unset_or_empty (cfg_sender_email cfg) then ["SENDER_EMAIL"] else [])
  ++ (if unset_or_empty (cfg_sender_password cfg) then ["SENDER_PASSWORD"] else []).

Section Main.
Variable w : world.
(** [json.dumps(data, indent=2)] and the polling loop that the [schedule]
    package drives for a job registered at a time of day: library code.
    [every_day_at] below is the loop the package's documentation describes. *)
Variable json_dumps : pyval -> string.
Variable schedule_loop : string -> M bool -> M unit.

(** [load_config], lines 19-47. *)
Definition load_config : M config :=
  (let env := environ w in
   smtp_port <- lift (int_of_string (getenv_default env "SMTP_PORT" "587")) ;;
   let cfg :=
     mkConfig (env "OURA_ACCESS_TOKEN")
              (getenv_default env "SMTP_SERVER" "smtp.gmail.com")
              smtp_port
              (env "SENDER_EMAIL")
              (env "SENDER_PASSWORD")
              (getenv_default env "RECIPIENT_EMAIL" "cooperpenniman@gmail.com")
              (getenv_default env "SCHEDULE_TIME" "10:00") in
   let missing := missing_variables cfg in
   match missing with
   | _ :: _ =>
       print ("Error: Missing required environment variables: " ++ join ", " missing) ;;;
       print "Please update your .env file" ;;;
       raise (SystemExit 1)
   | [] => ret cfg
   end)%M.

(** [send_daily_report], lines 50-76. *)
Definition send_daily_report (cfg : config) : M bool :=
  (t0 <- now w ;;
   print ("[" ++ str_datetime t0 ++ "] Starting daily report...") ;;;
   let email_service :=
     mkEmailService (cfg_smtp_server cfg) (cfg_smtp_port cfg)
                    (cfg_sender_email cfg) (cfg_sender_password cfg) true in
   print "Fetching Oura data..." ;;;
   data <- get_todays_data w ;;
   print ("Sending email to " ++ cfg_recipient_email cfg ++ "...") ;;;
   success <- send_oura_data w email_service (cfg_recipient_email cfg) data ;;
   t1 <- now w ;;
   (if success
    then print ("[" ++ str_datetime t1 ++ "] Email sent successfully!")
    else print ("[" ++ str_datetime t1 ++ "] Failed to send email")) ;;;
   ret success)%M.

(** [run_scheduler], lines 79-95. *)
Definition run_scheduler (cfg : config) : M unit :=
  (print "Oura Ring Daily Email Service" ;;;
   print "==============================" ;;;
   print ("Scheduled time: " ++ cfg_schedule_time cfg) ;;;
   print ("Recipient: " ++ cfg_recipient_email cfg) ;;;
   print ("Press Ctrl+C to stop" ++ nl) ;;;
   schedule_loop (cfg_schedule_time cfg) (send_daily_report cfg))%M.

(** [run_once], lines 98-100. *)
Definition run_once (cfg : config) : M bool := send_daily_report cfg.

(** [test_oura_connection], lines 103-116. *)
Definition test_oura_connection (cfg : config) : M bool :=
  (print "Testing Oura API connection..." ;;;
   fun s =>
     match (data <- get_todays_data w ;;
            print (nl ++ "✅ Successfully connected to Oura API!") ;;;
            print (nl ++ "Data preview:") ;;;
            print (json_dumps (PDict data)) ;;;
            ret true) s with
     | (Ok b, s') => (Ok b, s')
     | (Raise e, s') =>
         if is_Exception e
         then (print (nl ++ "❌ Failed to connect: " ++ str_exn e) ;;; ret false) s'
         else (Raise e, s')
     end)%M.

(** The [__main__] block, lines 119-142; [argv] is [sys.argv]. *)
Definition main (argv : list string) : M unit :=
  (cfg <- load_config ;;
   match argv with
   | _ :: command :: _ =>
       if String.eqb command "test" then (test_oura_connection cfg ;;; ret tt)
       else if String.eqb command "now" then (run_once cfg ;;; ret tt)
       else if String.eqb command "schedule" then run_scheduler cfg
       else
         print ("Unknown command: " ++ command) ;;;
         print "Usage: python main.py [test|now|schedule]" ;;;
         print "  test     - Test Oura API connection" ;;;
         print "  now      - Send email immediately" ;;;
         print "  schedule - Run scheduler for daily emails"
   | _ => run_scheduler cfg
   end)%M.

End Main.

(** ** The [schedule] package

    [main.py] imports [schedule]; the package is not part of the
    repository.  What follows is the behaviour its documentation gives to
    the one use the service makes of it, [every().day.at(t).do(job)] and
    then [run_pending()] once in each pass of an endless loop, with the
    clock readings of its release 1.2.2: the job is due when [datetime.now()]
    has reached its next run; a job that has run is scheduled again for the
    next moment the time of day [t] comes; an exception of the job is not
    caught.  [time.sleep(60)] is the passing of time between two readings
    of the clock. *)
Section Schedule.
Variable w : world.

Record at_time : Type := mkAtTime { at_hour : Z; at_minute : Z; at_second : Z }.

Definition at_us (t : at_time) : Z := time_us (at_hour t) (at_minute t) (at_second t) 0.

(** The pattern [^[0-2]\d:[0-5]\d(:[0-5]\d)?$] of [at] for a daily job; [$]
    also matches before a final newline, which [int] then skips. *)
Definition without_final_newline (l : list ascii) : list ascii :=
  match rev l with
  | c :: r => if Ascii.eqb c (ascii_of_nat 10) then rev r else l
  | [] => l
  end.

Definition at_fields (h1 h2 m1 m2 s1 s2 : ascii) : result at_time :=
  if is_digit h1 && (digit_value h1 <=? 2) && is_digit h2
     && is_digit m1 && (digit_value m1 <=? 5) && is_digit m2
     && is_digit s1 && (digit_value s1 <=? 5) && is_digit s2
  then
    let hour := 10 * digit_value h1 + digit_value h2 in
    if hour <=? 23
    then Ok (mkAtTime hour (10 * digit_value m1 + digit_value m2)
                      (10 * digit_value s1 + digit_value s2))
    else Raise (OtherException ("Invalid number of hours (" ++ str_int hour
                                ++ " is not between 0 and 23)"))
  else Raise (OtherException
                "Invalid time format for a daily job (valid format is HH:MM(:SS)?)").

(** [Job.at(time_str)] for a daily job. *)
Definition parse_at (time_str : string) : result at_time :=
  let invalid :=
    Raise (OtherException
             "Invalid time format for a daily job (valid format is HH:MM(:SS)?)") in
  match without_final_newline (list_ascii_of_string time_str) with
  | [h1; h2; c1; m1; m2] =>
      if Ascii.eqb c1 ":"%char then at_fields h1 h2 m1 m2 "0"%char "0"%char else invalid
  | [h1; h2; c1; m1; m2; c2; s1; s2] =>
      if Ascii.eqb c1 ":"%char && Ascii.eqb c2 ":"%char
      then at_fields h1 h2 m1 m2 s1 s2 else invalid
  | _ => invalid
  end.

(** [moment.replace(hour=.., minute=.., second=.., microsecond=0)] *)
Definition move_to_at_time (t : at_time) (moment : datetime) : datetime :=
  mkDatetime (dt_year moment) (dt_month moment) (dt_day moment)
             (at_hour t) (at_minute t) (at_second t) 0.

(** [Job._schedule_next_run]: the time of day [t] of today, or of tomorrow
    when today's has been reached. *)
Definition schedule_next_run (t : at_time) : M datetime :=
  (n <- now w ;;
   let next_run := move_to_at_time t n in
   if timestamp next_run <=? timestamp n
   then lift (add_days next_run 1)
   else ret next_run)%M.

(** [fuel] passes of [while True: schedule.run_pending(); time.sleep(60)]
    for the one job: [should_run] reads the clock; [Job.run] reads it for
    the deadline check, calls the job, reads the clock for [last_run] and
    schedules the next run. *)
Fixpoint run_pending_loop (fuel : nat) (t : at_time) (next_run : datetime)
    (job : M bool) : M unit :=
  match fuel with
  | O => ret tt
  | S fuel' =>
      (n <- now w ;;
       if timestamp next_run <=? timestamp n
       then (now w ;;;
             job ;;;
             now w ;;;
             next_run' <- schedule_next_run t ;;
             run_pending_loop fuel' t next_run' job)
       else run_pending_loop fuel' t next_run job)%M
  end.

(** [schedule.every().day.at(time_str).do(job)], then the loop. *)
Definition every_day_at (fuel : nat) (time_str : string) (job : M bool) : M unit :=
  (t <- lift (parse_at time_str) ;;
   next_run <- schedule_next_run t ;;
   run_pending_loop fuel t next_run job)%M.

End Schedule.

End Formatter.

Arguments pyval : clear implicits.
Arguments dict : clear implicits.
Arguments world : clear implicits.
Arguments num : clear implicits.
Arguments period_view : clear implicits.
Arguments activity_view : clear implicits.
Arguments stress_view : clear implicits.

(** ** A reference implementation of the library interface

    It covers payloads without floating-point numbers and ASCII input:
    [strptime] follows the regular expression CPython builds for
    ['%Y-%m-%d'], [fromisoformat] the format
    [YYYY-MM-DD[*HH[:MM[:SS[.fff[fff]]]][+HH:MM]]], [repr] the quoting
    rules for printable ASCII and the common escapes. *)
Module RefLib.

Definition num2 (a b : ascii) : option Z :=
  if is_digit a && is_digit b then Some (10 * digit_value a + digit_value b) else None.

Definition in_range (lo hi : Z) (a : ascii) : bool :=
  is_digit a && (lo <=? digit_value a) && (digit_value a <=? hi).

(** The day group [3[01]|[12]\d|0[1-9]|[1-9]| [1-9]]: the first alternative
    that matches, with what follows it. *)
Definition match_day (l : list ascii) : option (Z * list ascii) :=
  match l with
  | a :: b :: r =>
      if Ascii.eqb a "3"%char && in_range 0 1 b then Some (30 + digit_value b, r)
      else if in_range 1 2 a && is_digit b then Some (10 * digit_value a + digit_value b, r)
      else if Ascii.eqb a "0"%char && in_range 1 9 b then Some (digit_value b, r)
      else if in_range 1 9 a then Some (digit_value a, b :: r)
      else if Ascii.eqb a " "%char && in_range 1 9 b then Some (digit_value b, r)
      else None
  | [a] => if in_range 1 9 a then Some (digit_value a, []) else None
  | [] => None
  end.

Definition dash_then_day (l : list ascii) : option (Z * list ascii) :=
  match l with
  | c :: r => if Ascii.eqb c "-"%char then match_day r else None
  | [] => None
  end.

(** The month group [1[0-2]|0[1-9]|[1-9]] followed by the rest of the
    pattern; a later alternative is tried when the rest fails. *)
Definition match_month_day (l : list ascii) : option (Z * Z * list ascii) :=
  let alt (m : option (Z * list ascii)) :=
    match m with
    | Some (mo, r) => match dash_then_day r with
                      | Some (d, r') => Some (mo, d, r')
                      | None => None
                      end
    | None => None
    end in
  let first_some (x y : option (Z * Z * list ascii)) :=
    match x with Some _ => x | None => y end in
  match l with
  | a :: r =>
      let two :=
        match r with
        | b :: r' =>
            first_some
              (alt (if Ascii.eqb a "1"%char && in_range 0 2 b
                    then Some (10 + digit_value b, r') else None))
              (alt (if Ascii.eqb a "0"%char && in_range 1 9 b
                    then Some (digit_value b, r') else None))
        | [] => None
        end in
      first_some two (alt (if in_range 1 9 a then Some (digit_value a, r) else None))
  | [] => None
  end.

Definition strptime_ymd (s : string) : option datetime :=
  match list_ascii_of_string s with
  | y1 :: y2 :: y3 :: y4 :: dash :: r =>
      if is_digit y1 && is_digit y2 && is_digit y3 && is_digit y4
         && Ascii.eqb dash "-"%char
      then
        let y := 1000 * digit_value y1 + 100 * digit_value y2
                 + 10 * digit_value y3 + digit_value y4 in
        match match_month_day r with
        | Some (m, d, []) =>
            if valid_date y m d then Some (mkDatetime y m d 0 0 0 0) else None
        | _ => None
        end
      else None
  | _ => None
  end.

(** The UTC offset [+HH:MM] or [-HH:MM]; it does not change the wall-clock
    fields. *)
Definition valid_offset (l : list ascii) : bool :=
  match l with
  | [] => true
  | [sg; h1; h2; c; m1; m2] =>
      (Ascii.eqb sg "+"%char || Ascii.eqb sg "-"%char) && Ascii.eqb c ":"%char
      && match num2 h1 h2, num2 m1 m2 with
         | Some h, Some m => (h <? 24) && (m <? 60)
         | _, _ => false
         end
  | _ => false
  end.

Fixpoint all_digits (l : list ascii) : bool :=
  match l with
  | [] => true
  | c :: r => is_digit c && all_digits r
  end.

Fixpoint span_digits (l : list ascii) : list ascii * list ascii :=
  match l with
  | c :: r => if is_digit c then let '(ds, rest) := span_digits r in (c :: ds, rest)
              else ([], l)
  | [] => ([], [])
  end.

Definition digits_number (ds : list ascii) : Z :=
  fold_left (fun acc c => 10 * acc + digit_value c) ds 0.

(** The time of day [HH[:MM[:SS[.fff[fff]]]]] and what follows it. *)
Definition parse_time (l : list ascii) : option (Z * Z * Z * Z * list ascii) :=
  match l with
  | h1 :: h2 :: r =>
      match num2 h1 h2 with
      | None => None
      | Some h =>
          match r with
          | c1 :: m1 :: m2 :: r1 =>
              if Ascii.eqb c1 ":"%char then
                match num2 m1 m2 with
                | None => None
                | Some mi =>
                    match r1 with
                    | c2 :: s1 :: s2 :: r2 =>
                        if Ascii.eqb c2 ":"%char then
                          match num2 s1 s2 with
                          | None => None
                          | Some se =>
                              match r2 with
                              | dot :: r3 =>
                                  if Ascii.eqb dot "."%char then
                                    let '(ds, rest) := span_digits r3 in
                                    if Nat.eqb (List.length ds) 3
                                    then Some (h, mi, se, 1000 * digits_number ds, rest)
                                    else if Nat.eqb (List.length ds) 6
                                    then Some (h, mi, se, digits_number ds, rest)
                                    else None
                                  else Some (h, mi, se, 0, r2)
                              | [] => Some (h, mi, se, 0, [])
                              end
                          end
                        else Some (h, mi, 0, 0, r1)
                    | _ => Some (h, mi, 0, 0, r1)
                    end
                end
              else Some (h, 0, 0, 0, r)
          | _ => Some (h, 0, 0, 0, r)
          end
      end
  | _ => None
  end.

Definition fromisoformat (s : string) : option datetime :=
  match list_ascii_of_string s with
  | y1 :: y2 :: y3 :: y4 :: d1 :: m1 :: m2 :: d2 :: a1 :: a2 :: r =>
      if is_digit y1 && is_digit y2 && is_digit y3 && is_digit y4
         && Ascii.eqb d1 "-"%char && Ascii.eqb d2 "-"%char
      then
        match num2 m1 m2, num2 a1 a2 with
        | Some m, Some d =>
            let y := 1000 * digit_value y1 + 100 * digit_value y2
                     + 10 * digit_value y3 + digit_value y4 in
            if valid_date y m d then
              match r with
              | [] => Some (mkDatetime y m d 0 0 0 0)
              | _ :: t =>
                  match parse_time t with
                  | Some (h, mi, se, us, rest) =>
                      if (h <? 24) && (mi <? 60) && (se <? 60) && valid_offset rest
                      then Some (mkDatetime y m d h mi se us)
                      else None
                  | None => None
                  end
              end
            else None
        | _, _ => None
        end
      else None
  | _ => None
  end.

(** [repr(s)]: single quotes unless the string has one and no double
    quote; backslash, the quote and control characters are escaped. *)
Definition dquote : ascii := ascii_of_nat 34.
Definition squote : ascii := ascii_of_nat 39.
Definition backslash : ascii := ascii_of_nat 92.

Definition hex_digit (n : nat) : ascii :=
  if Nat.ltb n 10 then ascii_of_nat (48 + n) else ascii_of_nat (87 + n).

Definition escape_char (quote c : ascii) : list ascii :=
  let n := nat_of_ascii c in
  if Ascii.eqb c backslash then [backslash; backslash]
  else if Ascii.eqb c quote then [backslash; quote]
  else if Nat.eqb n 10 then [backslash; "n"%char]
  else if Nat.eqb n 13 then [backslash; "r"%char]
  else if Nat.eqb n 9 then [backslash; "t"%char]
  else if Nat.ltb n 32 || Nat.eqb n 127
       then [backslash; "x"%char; hex_digit (Nat.div n 16); hex_digit (Nat.modulo n 16)]
       else [c].

Definition str_repr (s : string) : string :=
  let cs := list_ascii_of_string s in
  let quote :=
    if existsb (Ascii.eqb squote) cs && negb (existsb (Ascii.eqb dquote) cs)
    then dquote else squote in
  string_of_list_ascii (quote :: flat_map (escape_char quote) cs ++ [quote]).

End RefLib.

#[export] Instance ref_lib : PyLib Empty_set := {|
  float_repr := fun f : Empty_set => match f with end;
  float_fixed2 := fun f : Empty_set => match f with end;
  float_of_int := fun _ => None;
  float_floordiv := fun (f : Empty_set) _ => f;
  float_mod := fun (f : Empty_set) _ => f;
  float_gt0 := fun f : Empty_set => match f with end;
  float_nonzero := fun f : Empty_set => match f with end;
  str_repr := RefLib.str_repr;
  fromisoformat := RefLib.fromisoformat;
  strptime_ymd := RefLib.strptime_ymd
|}.


(** ** Vocabulary of the statements *)

(** The seven fetches of [get_todays_data] as a plan: slot, endpoint and
    date window, in the order of the source. *)
Definition fetch_plan (yesterday today tomorrow : string)
  : list (string * (string * string * string)) :=
  [ ("daily_sleep", ("v2/usercollection/daily_sleep", today, tomorrow));
    ("sleep_periods", ("v2/usercollection/sleep", today, tomorrow));
    ("daily_readiness", ("v2/usercollection/daily_readiness", today, tomorrow));
    ("daily_activity", ("v2/usercollection/daily_activity", yesterday, today));
    ("daily_stress", ("v2/usercollection/daily_stress", yesterday, today));
    ("workouts", ("v2/usercollection/workout", yesterday, today));
    ("sleep_time", ("v2/usercollection/sleep_time", yesterday, today)) ].

(** The date windows requested, in the order of the requests. *)
Definition date_windows (yesterday today tomorrow : string)
  : list (string * string * string) :=
  [ ("v2/usercollection/daily_sleep", today, tomorrow);
    ("v2/usercollection/sleep", today, tomorrow);
    ("v2/usercollection/daily_readiness", today, tomorrow);
    ("v2/usercollection/daily_activity", yesterday, today);
    ("v2/usercollection/daily_stress", yesterday, today);
    ("v2/usercollection/workout", yesterday, today);
    ("v2/usercollection/sleep_time", yesterday, today) ].

Definition category_slots : list string :=
  [ "daily_sleep"; "sleep_periods"; "daily_readiness"; "daily_activity";
    "daily_stress"; "workouts"; "sleep_time" ].

Section PlanRuns.
Context {pyfloat : Type} {L : PyLib pyfloat}.
Variable w : (world pyfloat).

Definition with_requests (s : state) (rs : list (string * string * string)) : state :=
  mkState (ticks s) rs (smtp_log s) (stdout s).

(** Running a plan: what the chain of [try]/[except] blocks computes. *)
Fixpoint run_plan (plan : list (string * (string * string * string)))
    (data : dict pyfloat) (s : state) : result (dict pyfloat) * state :=
  match plan with
  | [] => (Ok data, s)
  | (slot, (ep, a, b)) :: rest =>
      let s' := with_requests s (requests s ++ [(ep, a, b)]) in
      match api w ep a b with
      | Ok v => run_plan rest (dict_set slot v data) s'
      | Raise (RequestException msg) =>
          run_plan rest (dict_set slot (error_marker msg) data) s'
      | Raise e => (Raise e, s')
      end
  end.

Definition empty_payload (yesterday today fetched_at : string)
  : dict pyfloat :=
  [ ("date", PStr today);
    ("activity_date", PStr yesterday);
    ("fetched_at", PStr fetched_at);
    ("daily_sleep", PNone);
    ("sleep_periods", PNone);
    ("daily_activity", PNone);
    ("daily_readiness", PNone);
    ("daily_stress", PNone);
    ("workouts", PNone);
    ("sleep_time", PNone) ].

Definition tick (n : nat) (s : state) : state :=
  mkState (n + ticks s) (requests s) (smtp_log s) (stdout s).

End PlanRuns.

(** A sleep period record, and one tagged as the main overnight sleep. *)
Definition is_dict {pyfloat : Type} (v : pyval pyfloat) : bool :=
  match v with
  | PDict _ => true
  | _ => false
  end.

Definition tagged_long_sleep {pyfloat : Type} (p : pyval pyfloat) : bool :=
  match p with
  | PDict d => match lookup "type" d with
               | Some t => py_eq_str t "long_sleep"
               | None => false
               end
  | _ => false
  end.

(** The SLEEP fields of a period that has none of them. *)
Definition absent_period_view {pyfloat : Type} : period_view pyfloat :=
  mkPeriodView (PStr "N/A") (PStr "N/A") "0m" "0m" (NInt 0) "0m" "0m" "0m"
               (PStr "N/A") (PStr "N/A") (PStr "N/A") (PStr "N/A") (PStr "N/A").

(** A piece of text occurs in another. *)
Definition occurs (piece text : string) : Prop :=
  exists before after : string, text = before ++ piece ++ after.

(** [pd.get(key, default)] *)
Definition field_or {pyfloat : Type} (pd : dict pyfloat) (key : string)
    (default : pyval pyfloat) : pyval pyfloat :=
  match lookup key pd with
  | Some v => v
  | None => default
  end.

(** The SLEEP fields are those of the period record [pd]: the bed times as
    [format_time] shows them, the durations as [format_duration] shows them
    (0 seconds for a duration that is absent), the latency in whole minutes,
    and the physiology values as they are ("N/A" when absent). *)
Definition reads_record {pyfloat : Type} {L : PyLib pyfloat} (pd : dict pyfloat)
    (view : period_view pyfloat) : Prop :=
  bedtime_start view = format_time (field_or pd "bedtime_start" (PStr ""))
  /\ bedtime_end view = format_time (field_or pd "bedtime_end" (PStr ""))
  /\ format_duration (field_or pd "time_in_bed" (PInt 0)) = Ok (time_in_bed view)
  /\ format_duration (field_or pd "total_sleep_duration" (PInt 0)) = Ok (total_sleep view)
  /\ (forall z, field_or pd "latency" (PInt 0) = PInt z -> latency_min view = NInt (z / 60))
  /\ format_duration (field_or pd "deep_sleep_duration" (PInt 0)) = Ok (deep_duration view)
  /\ format_duration (field_or pd "rem_sleep_duration" (PInt 0)) = Ok (rem_duration view)
  /\ format_duration (field_or pd "light_sleep_duration" (PInt 0)) = Ok (light_duration view)
  /\ avg_hr view = field_or pd "average_heart_rate" (PStr "N/A")
  /\ lowest_hr view = field_or pd "lowest_heart_rate" (PStr "N/A")
  /\ avg_hrv view = field_or pd "average_hrv" (PStr "N/A")
  /\ avg_breath view = field_or pd "average_breath" (PStr "N/A")
  /\ restless view = field_or pd "restless_periods" (PStr "N/A").

(** The lines of the SLEEP section that show the period alone. *)
Definition period_lines {pyfloat : Type} {L : PyLib pyfloat} (view : period_view pyfloat)
  : list string :=
  [ "  Bedtime: " ++ py_str (bedtime_start view) ++ " → " ++ py_str (bedtime_end view)
      ++ " (" ++ time_in_bed view ++ " in bed)";
    "  Total sleep: " ++ total_sleep view;
    "  Latency: " ++ num_str (latency_min view) ++ " min";
    "    Light: " ++ light_duration view;
    "    Avg HR: " ++ py_str (avg_hr view) ++ " bpm | Lowest: " ++ py_str (lowest_hr view)
      ++ " bpm";
    "    Avg HRV: " ++ py_str (avg_hrv view) ++ " ms";
    "    Avg breath: " ++ py_str (avg_breath view) ++ "/min";
    "    Restless periods: " ++ py_str (restless view) ].

(** The report has each of these lines, and the two stage lines that show a
    duration of the period next to a score of the daily sleep record. *)
Definition shows_period {pyfloat : Type} {L : PyLib pyfloat} (view : period_view pyfloat)
    (text : string) : Prop :=
  (forall line, In line (period_lines view) -> occurs (nl ++ line ++ nl) text)
  /\ (exists score,
         occurs (nl ++ ("    Deep: " ++ deep_duration view ++ " (score: " ++ score ++ ")") ++ nl)
                text)
  /\ (exists score,
         occurs (nl ++ ("    REM: " ++ rem_duration view ++ " (score: " ++ score ++ ")") ++ nl)
                text).

(** The payload of a day on which every category is unavailable. *)
Definition unavailable_payload {pyfloat : Type} (yesterday today fetched_at : string)
    (r1 r2 r3 r4 r5 r6 r7 : string) : dict pyfloat :=
  [ ("date", PStr today);
    ("activity_date", PStr yesterday);
    ("fetched_at", PStr fetched_at);
    ("daily_sleep", error_marker r1);
    ("sleep_periods", error_marker r2);
    ("daily_activity", error_marker r4);
    ("daily_readiness", error_marker r3);
    ("daily_stress", error_marker r5);
    ("workouts", error_marker r6);
    ("sleep_time", error_marker r7) ].

(** The required variables, and those of them the environment lacks. *)
Definition required_variables : list string :=
  ["OURA_ACCESS_TOKEN"; "SENDER_EMAIL"; "SENDER_PASSWORD"].

Definition lacking (env : string -> option string) : list string :=
  filter (fun name => unset_or_empty (env name)) required_variables.

Definition missing_diagnostic (names : list string) : list string :=
  [ "Error: Missing required environment variables: " ++ join ", " names;
    "Please update your .env file" ].


(** ** Sample worlds and payloads, over the reference library *)

Definition new_year_clock : nat -> datetime := fun _ => mkDatetime 2025 1 1 10 0 0 0.

Definition complete_env (name : string) : option string :=
  if String.eqb name "OURA_ACCESS_TOKEN" then Some "token"
  else if String.eqb name "SENDER_EMAIL" then Some "ring@example.org"
  else if String.eqb name "SENDER_PASSWORD" then Some "secret"
  else None.

(** Only the token is set. *)
Definition token_only_env (name : string) : option string :=
  if String.eqb name "OURA_ACCESS_TOKEN" then Some "token" else None.

(** Nothing is set but a port that is not a number. *)
Definition bad_port_env (name : string) : option string :=
  if String.eqb name "SMTP_PORT" then Some "abc" else None.

(** Everything required is set, and the port is not a number. *)
Definition complete_bad_port_env (name : string) : option string :=
  if String.eqb name "SMTP_PORT" then Some "abc" else complete_env name.

Definition empty_response : dict Empty_set := [("data", PList [])].

(** The activity endpoint is rate-limited, the others answer. *)
Definition activity_down_api (ep start_date end_date : string)
  : result (pyval Empty_set) :=
  if String.eqb ep "v2/usercollection/daily_activity"
  then Raise (RequestException "429 Client Error: Too Many Requests")
  else Ok (PDict empty_response).

(** No endpoint can be reached. *)
Definition all_down_api (ep start_date end_date : string)
  : result (pyval Empty_set) :=
  Raise (RequestException ("Connection refused: " ++ ep)).

Definition world_of (api : string -> string -> string -> result (pyval Empty_set))
    (env : string -> option string) : world Empty_set :=
  mkWorld new_year_clock api (fun _ => Ok tt) env.

Definition activity_down_world : world Empty_set :=
  world_of activity_down_api complete_env.

Definition all_down_world : world Empty_set := world_of all_down_api complete_env.

Definition activity_down_payload : dict Empty_set :=
  [ ("date", PStr "2025-01-01");
    ("activity_date", PStr "2024-12-31");
    ("fetched_at", PStr "2025-01-01T10:00:00");
    ("daily_sleep", PDict empty_response);
    ("sleep_periods", PDict empty_response);
    ("daily_activity", PDict [("error", PStr "429 Client Error: Too Many Requests")]);
    ("daily_readiness", PDict empty_response);
    ("daily_stress", PDict empty_response);
    ("workouts", PDict empty_response);
    ("sleep_time", PDict empty_response) ].

Definition after_fetch : state :=
  mkState 4 (date_windows "2024-12-31" "2025-01-01" "2025-01-02") [] [].

Definition sample_config : config :=
  mkConfig (Some "token") "smtp.gmail.com" 587 (Some "ring@example.org")
           (Some "secret") "reader@example.org" "10:00".

Definition no_dumps : (pyval Empty_set) -> string := fun _ => "".
Definition no_loop : string -> M bool -> M unit := fun _ _ => ret tt.

(** A rest period and the night's sleep. *)
Definition rest_period : pyval Empty_set :=
  PDict [("type", PStr "rest"); ("total_sleep_duration", PInt 1200)].

Definition night_period : pyval Empty_set :=
  PDict [("type", PStr "long_sleep"); ("total_sleep_duration", PInt 27600)].

(** A day of which only the sleep periods are known: a rest period, then
    the night. *)
Definition two_period_payload : dict Empty_set :=
  [ ("date", PStr "2024-12-27");
    ("sleep_periods", PDict [("data", PList [rest_period; night_period])]) ].

Definition two_period_report : string :=
  join nl [
    "Oura Daily Report — 2024-12-27";
    "";
    "SCORES";
    "  Sleep: N/A | Activity: N/A | Readiness: N/A";
    "";
    "SLEEP (Dec 27)";
    "  Bedtime: N/A → N/A (0m in bed)";
    "  Total sleep: 7h 40m";
    "  Latency: 0 min";
    "  ";
    "  Stages:";
    "    Deep: 0m (score: N/A)";
    "    REM: 0m (score: N/A)";
    "    Light: 0m";
    "  ";
    "  Contributors:";
    "    Timing: N/A | Efficiency: N/A | Restfulness: N/A";
    "    Latency: N/A | Total: N/A";
    "  ";
    "  Physiology:";
    "    Avg HR: N/A bpm | Lowest: N/A bpm";
    "    Avg HRV: N/A ms";
    "    Avg breath: N/A/min";
    "    Restless periods: N/A";
    "";
    "READINESS";
    "  Score: N/A";
    "  Temp deviation: N/A";
    "  Contributors:";
    "    HRV balance: N/A | Sleep balance: N/A";
    "    Previous night: N/A | Recovery index: N/A";
    "";
    "ACTIVITY (Dec 27)";
    "  Steps: N/A";
    "  Active calories: N/A";
    "  Low activity: 0m | Medium: 0m | High: 0m";
    "";
    "STRESS (Dec 27)";
    "  Day summary: N/A";
    "  Recovery time: 0m | Stress time: 0m";
    "";
    "WORKOUTS";
    "  None logged";
    ""
  ].

(** What the API sends when the ring has no score and no HRV for the
    night: the fields are there and hold null. *)
Definition null_score_payload : dict Empty_set :=
  [ ("date", PStr "2024-12-27");
    ("activity_date", PStr "2024-12-26");
    ("fetched_at", PStr "2024-12-27T10:00:00");
    ("daily_sleep",
       PDict [("data", PList [PDict [("score", PNone);
                                     ("contributors", PDict [("deep_sleep", PNone)])]])]);
    ("sleep_periods",
       PDict [("data", PList [PDict [("type", PStr "long_sleep");
                                     ("average_hrv", PNone);
                                     ("total_sleep_duration", PInt 27600)]])]);
    ("daily_activity", PDict empty_response);
    ("daily_readiness", PDict empty_response);
    ("daily_stress", PDict empty_response);
    ("workouts", PDict empty_response);
    ("sleep_time", PDict empty_response) ].

Definition null_score_report : string :=
  join nl [
    "Oura Daily Report — 2024-12-27";
    "";
    "SCORES";
    "  Sleep: None | Activity: N/A | Readiness: N/A";
    "";
    "SLEEP (Dec 27)";
    "  Bedtime: N/A → N/A (0m in bed)";
    "  Total sleep: 7h 40m";
    "  Latency: 0 min";
    "  ";
    "  Stages:";
    "    Deep: 0m (score: None)";
    "    REM: 0m (score: N/A)";
    "    Light: 0m";
    "  ";
    "  Contributors:";
    "    Timing: N/A | Efficiency: N/A | Restfulness: N/A";
    "    Latency: N/A | Total: N/A";
    "  ";
    "  Physiology:";
    "    Avg HR: N/A bpm | Lowest: N/A bpm";
    "    Avg HRV: None ms";
    "    Avg breath: N/A/min";
    "    Restless periods: N/A";
    "";
    "READINESS";
    "  Score: N/A";
    "  Temp deviation: N/A";
    "  Contributors:";
    "    HRV balance: N/A | Sleep balance: N/A";
    "    Previous night: N/A | Recovery index: N/A";
    "";
    "ACTIVITY (Dec 26)";
    "  Steps: N/A";
    "  Active calories: N/A";
    "  Low activity: 0m | Medium: 0m | High: 0m";
    "";
    "STRESS (Dec 26)";
    "  Day summary: N/A";
    "  Recovery time: 0m | Stress time: 0m";
    "";
    "WORKOUTS";
    "  None logged";
    ""
  ].

(** The same night with the "contributors" field itself null. *)
Definition null_contributors_payload : dict Empty_set :=
  [ ("date", PStr "2024-12-27");
    ("daily_sleep",
       PDict [("data", PList [PDict [("score", PInt 80); ("contributors", PNone)]])]) ].

(** ** Vocabulary of the further properties *)

(** The keys of a payload, in the order [get_todays_data] creates them. *)
Definition payload_keys : list string :=
  [ "date"; "activity_date"; "fetched_at"; "daily_sleep"; "sleep_periods";
    "daily_activity"; "daily_readiness"; "daily_stress"; "workouts"; "sleep_time" ].

(** [isinstance(e, requests.exceptions.RequestException)] *)
Definition is_RequestException (e : exn) : bool :=
  match e with
  | RequestException _ => true
  | _ => false
  end.

(** The clock of a run that starts a second before midnight. *)
Definition midnight_clock (i : nat) : datetime :=
  match i with
  | O => mkDatetime 2025 1 1 23 59 59 0
  | _ => mkDatetime 2025 1 2 0 0 0 0
  end.

Definition midnight_world : world Empty_set :=
  mkWorld midnight_clock (fun _ _ _ => Ok (PDict empty_response)) (fun _ => Ok tt) complete_env.

Definition midnight_payload : dict Empty_set :=
  [ ("date", PStr "2025-01-02");
    ("activity_date", PStr "2024-12-31");
    ("fetched_at", PStr "2025-01-02T00:00:00");
    ("daily_sleep", PDict empty_response);
    ("sleep_periods", PDict empty_response);
    ("daily_activity", PDict empty_response);
    ("daily_readiness", PDict empty_response);
    ("daily_stress", PDict empty_response);
    ("workouts", PDict empty_response);
    ("sleep_time", PDict empty_response) ].

Definition after_midnight_fetch : state :=
  mkState 4 (date_windows "2024-12-31" "2025-01-02" "2025-01-03") [] [].

(** The call of the sleep endpoint raises an exception that is not a request
    exception; the other endpoints answer. *)
Definition bad_body_api (ep start_date end_date : string) : result (pyval Empty_set) :=
  if String.eqb ep "v2/usercollection/sleep"
  then Raise (OtherException "Expecting value: line 1 column 1 (char 0)")
  else Ok (PDict empty_response).

Definition bad_body_world : world Empty_set := world_of bad_body_api complete_env.

(** The first and the last day [datetime] can represent. *)
Definition first_day_world : world Empty_set :=
  mkWorld (fun _ => mkDatetime 1 1 1 10 0 0 0) (fun _ _ _ => Ok (PDict empty_response))
          (fun _ => Ok tt) complete_env.

(** The state after printing [lines], and after the SMTP calls [ops]. *)
Definition printed (s : state) (lines : list string) : state :=
  mkState (ticks s) (requests s) (smtp_log s) (stdout s ++ lines).

Definition called (s : state) (ops : list smtp_op) : state :=
  mkState (ticks s) (requests s) (smtp_log s ++ ops) (stdout s).

(** The first, the third and the last line a run prints. *)
Definition opening_line (stamp : datetime) : string :=
  "[" ++ str_datetime stamp ++ "] Starting daily report...".

Definition sending_line (cfg : config) : string :=
  "Sending email to " ++ cfg_recipient_email cfg ++ "...".

Definition closing_line (stamp : datetime) (success : bool) : string :=
  "[" ++ str_datetime stamp ++ "] "
  ++ (if success then "Email sent successfully!" else "Failed to send email").

(** The state in which [send_daily_report] calls [get_todays_data]. *)
Definition started {pyfloat : Type} (w : world pyfloat) (s : state) : state :=
  mkState (S (ticks s)) (requests s) (smtp_log s)
          (stdout s ++ [opening_line (clock w (ticks s)); "Fetching Oura data..."]).

(** The date a payload carries, and the subject line made of it. *)
Definition payload_date {pyfloat : Type} (oura_data : dict pyfloat) : pyval pyfloat :=
  match lookup "date" oura_data with
  | Some v => v
  | None => PStr "Unknown"
  end.

Definition report_subject {pyfloat : Type} {L : PyLib pyfloat} (oura_data : dict pyfloat)
  : string :=
  "🌙 Oura Daily Report — " ++ py_str (payload_date oura_data).

(** The service [send_daily_report] builds from a configuration. *)
Definition service_of (cfg : config) : EmailService :=
  mkEmailService (cfg_smtp_server cfg) (cfg_smtp_port cfg)
                 (cfg_sender_email cfg) (cfg_sender_password cfg) true.

Definition sample_service : EmailService := service_of sample_config.

(** The server refuses the login. *)
Definition login_refused_smtp (op : smtp_op) : result unit :=
  match op with
  | SmtpLogin _ _ => Raise (OtherException "(535, b'5.7.8 Username and Password not accepted')")
  | _ => Ok tt
  end.

Definition login_refused_world : world Empty_set :=
  mkWorld new_year_clock all_down_api login_refused_smtp complete_env.

(** The API sends a sleep record whose contributors are null. *)
Definition null_contributors_api (ep start_date end_date : string)
  : result (pyval Empty_set) :=
  if String.eqb ep "v2/usercollection/daily_sleep"
  then Ok (PDict [("data", PList [PDict [("score", PInt 80); ("contributors", PNone)]])])
  else Ok (PDict empty_response).

Definition null_contributors_world : world Empty_set :=
  world_of null_contributors_api complete_env.

(** The daily sleep endpoint answers 200 with the body [null]. *)
Definition null_body_api (ep start_date end_date : string)
  : result (pyval Empty_set) :=
  if String.eqb ep "v2/usercollection/daily_sleep"
  then Ok PNone
  else Ok (PDict empty_response).

Definition null_body_world : world Empty_set := world_of null_body_api complete_env.

Definition null_body_payload : dict Empty_set :=
  [ ("date", PStr "2025-01-01");
    ("activity_date", PStr "2024-12-31");
    ("fetched_at", PStr "2025-01-01T10:00:00");
    ("daily_sleep", PNone);
    ("sleep_periods", PDict empty_response);
    ("daily_activity", PDict empty_response);
    ("daily_readiness", PDict empty_response);
    ("daily_stress", PDict empty_response);
    ("workouts", PDict empty_response);
    ("sleep_time", PDict empty_response) ].

Definition all_down_final : state :=
  snd (send_daily_report all_down_world sample_config initial_state).

(** What [main] prints for a command it does not know. *)
Definition usage_lines (command : string) : list string :=
  [ "Unknown command: " ++ command;
    "Usage: python main.py [test|now|schedule]";
    "  test     - Test Oura API connection";
    "  now      - Send email immediately";
    "  schedule - Run scheduler for daily emails" ].

(** The configuration of [complete_env]: the optional settings take their
    defaults. *)
Definition default_config : config :=
  mkConfig (Some "token") "smtp.gmail.com" 587 (Some "ring@example.org")
           (Some "secret") "cooperpenniman@gmail.com" "10:00".

(** The keys of the payload that [format_oura_report] reads. *)
Definition report_keys : list string :=
  [ "date"; "activity_date"; "daily_sleep"; "sleep_periods"; "daily_activity";
    "daily_readiness"; "daily_stress"; "workouts" ].

(** [isinstance(v, (str, list, dict))]: the values [//] is not defined on. *)
Definition is_container {pyfloat : Type} (v : pyval pyfloat) : bool :=
  match v with
  | PStr _ | PList _ | PDict _ => true
  | _ => false
  end.

(** The checks behind the way of a date through its text: the four digits
    [strftime] writes for a year, and the month and the day the pattern of
    [strptime] reads back. *)
Definition year_text_ok (y : Z) : bool :=
  match list_ascii_of_string (pad4 y) with
  | [a; b; c; e] =>
      is_digit a && is_digit b && is_digit c && is_digit e
      && (1000 * digit_value a + 100 * digit_value b + 10 * digit_value c
          + digit_value e =? y)
  | _ => false
  end.

Definition month_day_text_ok (md : nat * nat) : bool :=
  let m := Z.of_nat (fst md) in
  let d := Z.of_nat (snd md) in
  match RefLib.match_month_day (list_ascii_of_string (pad2 m ++ "-" ++ pad2 d)) with
  | Some (m', d', []) => (m' =? m) && (d' =? d)
  | _ => false
  end.

(** What [run_scheduler] prints before it hands over to the scheduler. *)
Definition banner (cfg : config) : list string :=
  [ "Oura Ring Daily Email Service";
    "==============================";
    "Scheduled time: " ++ cfg_schedule_time cfg;
    "Recipient: " ++ cfg_recipient_email cfg;
    "Press Ctrl+C to stop" ++ nl ].

(** The exit of a command whose result [main] does not look at. *)
Definition discard {A : Type} (run : result A * state) : result unit * state :=
  match run with
  | (Ok _, s) => (Ok tt, s)
  | (Raise e, s) => (Raise e, s)
  end.

Definition login_refused_final : state :=
  snd (send_daily_report login_refused_world default_config initial_state).

(** The two digits [strftime] and [isoformat] write for a month, a day, an
    hour, a minute or a second, as the parsers read them back. *)
Definition two_digit_text_ok (n : nat) : bool :=
  match list_ascii_of_string (pad2 (Z.of_nat n)) with
  | [a; b] =>
      match RefLib.num2 a b with
      | Some v => v =? Z.of_nat n
      | None => false
      end
  | _ => false
  end.

(** The UTC offset [+HH:MM] or [-HH:MM] at the end of a timestamp. *)
Definition offset_text (east : bool) (h m : Z) : string :=
  (if east then "+" else "-") ++ pad2 h ++ ":" ++ pad2 m.

(** The shape of the payloads the formatter is made for: a category slot is
    absent or a dict whose "data" is absent, null or a list of records; the
    durations of a record are numbers or null and its contributors, when it
    has them, are a dict. *)
Definition number_or_none {pyfloat : Type} (v : pyval pyfloat) : bool :=
  match v with
  | PNone | PBool _ | PInt _ | PFloat _ => true
  | _ => false
  end.

Definition field {pyfloat : Type} (check : pyval pyfloat -> bool) (k : string)
    (d : dict pyfloat) : bool :=
  match lookup k d with
  | Some v => check v
  | None => true
  end.

Definition numbers {pyfloat : Type} (keys : list string) (d : dict pyfloat) : bool :=
  forallb (fun k => field number_or_none k d) keys.

(** A temperature deviation that [format(v, '+.2f')] accepts. *)
Definition temperature_ok {pyfloat : Type} {L : PyLib pyfloat} (v : pyval pyfloat) : bool :=
  match v with
  | PInt z => match float_of_int z with Some _ => true | None => false end
  | PBool b => match float_of_int (if b then 1 else 0) with Some _ => true | None => false end
  | _ => true
  end.

Definition records {pyfloat : Type} (record_ok : dict pyfloat -> bool) (slot : string)
    (oura_data : dict pyfloat) : bool :=
  match lookup slot oura_data with
  | None => true
  | Some (PDict sd) =>
      match lookup "data" sd with
      | None | Some PNone => true
      | Some (PList l) =>
          forallb (fun r => match r with PDict d => record_ok d | _ => false end) l
      | Some _ => false
      end
  | Some _ => false
  end.

Definition sleep_record {pyfloat : Type} (d : dict pyfloat) : bool :=
  field is_dict "contributors" d.

Definition period_record {pyfloat : Type} (d : dict pyfloat) : bool :=
  numbers [ "time_in_bed"; "total_sleep_duration"; "latency"; "deep_sleep_duration";
            "rem_sleep_duration"; "light_sleep_duration" ] d.

Definition activity_record {pyfloat : Type} (d : dict pyfloat) : bool :=
  numbers ["low_activity_time"; "medium_activity_time"; "high_activity_time"] d.

Definition readiness_record {pyfloat : Type} {L : PyLib pyfloat} (d : dict pyfloat) : bool :=
  field is_dict "contributors" d && field temperature_ok "temperature_deviation" d.

Definition stress_record {pyfloat : Type} (d : dict pyfloat) : bool :=
  numbers ["recovery_high"; "stress_high"] d.

Definition workout_record {pyfloat : Type} (d : dict pyfloat) : bool :=
  numbers ["duration"] d.

Definition api_shaped {pyfloat : Type} {L : PyLib pyfloat} (oura_data : dict pyfloat) : bool :=
  records sleep_record "daily_sleep" oura_data
  && records period_record "sleep_periods" oura_data
  && records activity_record "daily_activity" oura_data
  && records readiness_record "daily_readiness" oura_data
  && records stress_record "daily_stress" oura_data
  && records workout_record "workouts" oura_data.

(** The clock of a morning of the scheduler: the service starts at 09:57;
    the loop reads 09:58, 09:59 and 10:00; every reading of the run that
    follows gives 10:00; then the loop reads 10:01 and 10:02. *)
Definition simulated_clock (i : nat) : datetime :=
  mkDatetime 2025 1 1
    (if (i <? 3)%nat then 9 else 10)
    (if (i <? 1)%nat then 57 else if (i <? 2)%nat then 58 else if (i <? 3)%nat then 59
     else if (i <? 13)%nat then 0 else if (i <? 14)%nat then 1 else 2)
    0 0.

Definition simulated_world : world Empty_set :=
  mkWorld simulated_clock (fun _ _ _ => Ok (PDict empty_response)) (fun _ => Ok tt)
          complete_env.

(** The same morning, with the sleep record whose contributors are null. *)
Definition failing_world : world Empty_set :=
  mkWorld simulated_clock null_contributors_api (fun _ => Ok tt) complete_env.

Definition ten_o_clock : at_time := mkAtTime 10 0 0.

(** The state in which the loop starts: the banner is printed and the
    clock has been read once, to schedule the job. *)
Definition loop_start : state :=
  mkState 1 [] [] (banner sample_config).

(** What the morning leaves on the standard output. *)
Definition simulated_output : list string :=
  (banner sample_config
   ++ [ "[2025-01-01 10:00:00] Starting daily report...";
        "Fetching Oura data...";
        "Sending email to reader@example.org...";
        "[2025-01-01 10:00:00] Email sent successfully!" ])%list.

(** The state in which the scheduler stops when the run raises. *)
Definition failing_final : state :=
  mkState 10 (date_windows "2024-12-31" "2025-01-01" "2025-01-02") []
    (banner sample_config
     ++ [ "[2025-01-01 10:00:00] Starting daily report...";
          "Fetching Oura data...";
          "Sending email to reader@example.org..." ])%list.

(** * Properties *)

(** C3. [format_duration] renders an integer number of seconds as
    "{hours}h {minutes}m" when the hour count is positive and as
    "{minutes}m" otherwise, where hours = seconds // 3600 and
    minutes = (seconds % 3600) // 60; zero seconds give "0m", 7 h 40 min give
    "7h 40m", and a null duration gives "N/A". *)
Theorem format_duration_spec {pyfloat : Type} {L : PyLib pyfloat} :
  (forall s : Z,
      format_duration (PInt s) =
      Ok (if 0 <? s / 3600
          then str_int (s / 3600) ++ "h " ++ str_int ((s mod 3600) / 60) ++ "m"
          else str_int ((s mod 3600) / 60) ++ "m"))
  /\ format_duration (PInt 0) = Ok "0m"
  /\ format_duration (PInt (7 * 3600 + 40 * 60)) = Ok "7h 40m"
  /\ format_duration PNone = Ok "N/A".
Proof.
  repeat split.
  intros s. unfold format_duration. simpl.
  destruct (0 <? s / 3600); reflexivity.
Qed.

Lemma yday_to_md_correct (leap : bool) (m d : Z) :
  1 <= m <= 12 -> 1 <= d ->
  d <= (if (m =? 2) && leap then 29 else days_in_month 1 m) ->
  yday_to_md leap (days_before_month_common m
                   + (if (2 <? m) && leap then 1 else 0) + d - 1) = (m, d).
Proof.
  intros Hm Hd1 Hd2.
  assert (Hmc : m = 1 \/ m = 2 \/ m = 3 \/ m = 4 \/ m = 5 \/ m = 6 \/ m = 7
                \/ m = 8 \/ m = 9 \/ m = 10 \/ m = 11 \/ m = 12) by lia.
  set (bound := if (m =? 2) && leap then 29 else days_in_month 1 m) in Hd2.
  assert (Hdc : exists k : nat, d = Z.of_nat k + 1 /\ Z.of_nat k < bound).
  { exists (Z.to_nat (d - 1)). lia. }
  destruct Hdc as (k & -> & Hk). clear Hd1 Hd2 Hm.
  destruct leap;
    repeat (destruct Hmc as [Hmc | Hmc]); subst m; vm_compute in bound; subst bound;
    do 31 (destruct k as [|k]; [first [reflexivity | exfalso; lia]|]);
    exfalso; lia.
Qed.

Lemma div_mod_known (n k q r : Z) :
  0 <= r < k -> n = k * q + r -> n / k = q /\ n mod k = r.
Proof.
  intros Hr Hn. split.
  - symmetry. apply Z.div_unique with r; [left; exact Hr | exact Hn].
  - symmetry. apply Z.mod_unique with q; [left; exact Hr | exact Hn].
Qed.

Lemma ord2ymd_cycles (a b c e t : Z) :
  0 <= b <= 3 -> 0 <= c <= 24 -> 0 <= e <= 3 -> 0 <= t ->
  let leap := (e =? 3) && (negb (c =? 24) || (b =? 3)) in
  t <= 364 + (if leap then 1 else 0) ->
  ord2ymd (146097 * a + 36524 * b + 1461 * c + 365 * e + t + 1) =
  (400 * a + 100 * b + 4 * c + e + 1, fst (yday_to_md leap t), snd (yday_to_md leap t)).
Proof.
  intros Hb Hc He Ht leap Hle.
  destruct (Z.eq_dec t 365) as [-> | Hne].
  - (* the last day of a leap year *)
    assert (Hl : leap = true) by (destruct leap; [reflexivity | lia]).
    rewrite Hl. change (yday_to_md true 365) with (12, 31). cbn [fst snd].
    unfold leap in Hl. apply andb_prop in Hl. destruct Hl as [He3 Hcb].
    apply Z.eqb_eq in He3. subst e.
    unfold ord2ymd. cbv zeta.
    replace (146097 * a + 36524 * b + 1461 * c + 365 * 3 + 365 + 1 - 1)
      with (146097 * a + (36524 * b + 1461 * c + 1460)) by lia.
    destruct (div_mod_known (146097 * a + (36524 * b + 1461 * c + 1460)) 146097 a
                (36524 * b + 1461 * c + 1460)) as [-> ->]; [| lia |].
    { apply orb_prop in Hcb. destruct Hcb as [H | H].
      - apply negb_true_iff, Z.eqb_neq in H. lia.
      - apply Z.eqb_eq in H. lia. }
    destruct (Z.eq_dec c 24) as [-> | Hc24].
    + assert (b = 3) as ->.
      { apply orb_prop in Hcb. destruct Hcb as [H | H]; [discriminate H |].
        apply Z.eqb_eq in H. exact H. }
      vm_compute (36524 * 3 + 1461 * 24 + 1460).
      change (146096 / 36524) with 4. change (146096 mod 36524) with 0.
      change (0 / 1461) with 0. change (0 mod 1461) with 0.
      change (0 / 365) with 0. change (0 mod 365) with 0.
      change ((0 =? 4) || (4 =? 4)) with true. cbv iota. f_equal. f_equal. lia.
    + destruct (div_mod_known (36524 * b + 1461 * c + 1460) 36524 b (1461 * c + 1460))
        as [-> ->]; [lia | lia |].
      destruct (div_mod_known (1461 * c + 1460) 1461 c 1460) as [-> ->]; [lia | lia |].
      change (1460 / 365) with 4. change (4 =? 4) with true. cbn [orb].
      f_equal. f_equal. lia.
  - assert (Ht364 : t <= 364) by (destruct leap; lia).
    unfold ord2ymd. cbv zeta.
    replace (146097 * a + 36524 * b + 1461 * c + 365 * e + t + 1 - 1)
      with (146097 * a + (36524 * b + 1461 * c + 365 * e + t)) by lia.
    destruct (div_mod_known (146097 * a + (36524 * b + 1461 * c + 365 * e + t)) 146097 a
                (36524 * b + 1461 * c + 365 * e + t)) as [-> ->]; [lia | lia |].
    destruct (div_mod_known (36524 * b + 1461 * c + 365 * e + t) 36524 b
                (1461 * c + 365 * e + t)) as [-> ->]; [lia | lia |].
    destruct (div_mod_known (1461 * c + 365 * e + t) 1461 c (365 * e + t))
      as [-> ->]; [lia | lia |].
    destruct (div_mod_known (365 * e + t) 365 e t) as [-> ->]; [lia | lia |].
    replace (e =? 4) with false by (symmetry; apply Z.eqb_neq; lia).
    replace (b =? 4) with false by (symmetry; apply Z.eqb_neq; lia).
    cbn [orb]. cbv iota. fold leap.
    destruct (yday_to_md leap t) as [mo da]. cbn [fst snd]. f_equal. f_equal. lia.
Qed.

Lemma is_leap_cycles (a b c e : Z) :
  0 <= b <= 3 -> 0 <= c <= 24 -> 0 <= e <= 3 ->
  is_leap (400 * a + 100 * b + 4 * c + e + 1)
  = (e =? 3) && (negb (c =? 24) || (b =? 3)).
Proof.
  intros Hb Hc He. unfold is_leap.
  set (y := 400 * a + 100 * b + 4 * c + e + 1).
  assert (H4 : y mod 4 = if e =? 3 then 0 else e + 1).
  { destruct (Z.eqb_spec e 3).
    - apply (div_mod_known y 4 (100 * a + 25 * b + c + 1) 0); unfold y; lia.
    - apply (div_mod_known y 4 (100 * a + 25 * b + c) (e + 1)); unfold y; lia. }
  assert (H100 : y mod 100 = if (e =? 3) && (c =? 24) then 0 else 4 * c + e + 1).
  { destruct (Z.eqb_spec e 3); destruct (Z.eqb_spec c 24); cbn [andb].
    - apply (div_mod_known y 100 (4 * a + b + 1) 0); unfold y; lia.
    - apply (div_mod_known y 100 (4 * a + b) (4 * c + e + 1)); unfold y; lia.
    - apply (div_mod_known y 100 (4 * a + b) (4 * c + e + 1)); unfold y; lia.
    - apply (div_mod_known y 100 (4 * a + b) (4 * c + e + 1)); unfold y; lia. }
  assert (H400 : y mod 400 = if (e =? 3) && (c =? 24) && (b =? 3) then 0
                             else 100 * b + 4 * c + e + 1).
  { destruct (Z.eqb_spec e 3); destruct (Z.eqb_spec c 24); destruct (Z.eqb_spec b 3);
      cbn [andb];
      first [ apply (div_mod_known y 400 (a + 1) 0); unfold y; lia
            | apply (div_mod_known y 400 a (100 * b + 4 * c + e + 1)); unfold y; lia ]. }
  rewrite H4, H100, H400.
  destruct (Z.eqb_spec e 3); destruct (Z.eqb_spec c 24); destruct (Z.eqb_spec b 3);
    cbn [andb negb orb];
    repeat match goal with
           | |- context [?x =? 0] => destruct (Z.eqb_spec x 0); try lia
           end; reflexivity.
Qed.

Lemma days_before_year_cycles (a b c e : Z) :
  0 <= b <= 3 -> 0 <= c <= 24 -> 0 <= e <= 3 ->
  days_before_year (400 * a + 100 * b + 4 * c + e + 1)
  = 146097 * a + 36524 * b + 1461 * c + 365 * e.
Proof.
  intros Hb Hc He. unfold days_before_year. cbv zeta.
  replace (400 * a + 100 * b + 4 * c + e + 1 - 1)
    with (400 * a + 100 * b + 4 * c + e) by lia.
  set (y1 := 400 * a + 100 * b + 4 * c + e).
  destruct (div_mod_known y1 4 (100 * a + 25 * b + c) e) as [-> _]; [lia | unfold y1; lia |].
  destruct (div_mod_known y1 100 (4 * a + b) (4 * c + e)) as [-> _];
    [lia | unfold y1; lia |].
  destruct (div_mod_known y1 400 a (100 * b + 4 * c + e)) as [-> _];
    [lia | unfold y1; lia |].
  unfold y1. lia.
Qed.

Lemma year_cycles (y : Z) :
  exists a b c e : Z,
    y = 400 * a + 100 * b + 4 * c + e + 1
    /\ 0 <= b <= 3 /\ 0 <= c <= 24 /\ 0 <= e <= 3.
Proof.
  exists ((y - 1) / 400), ((y - 1) mod 400 / 100),
         ((y - 1) mod 400 mod 100 / 4), ((y - 1) mod 400 mod 100 mod 4).
  pose proof (Z.div_mod (y - 1) 400 ltac:(lia)).
  pose proof (Z.mod_pos_bound (y - 1) 400 ltac:(lia)).
  set (r := (y - 1) mod 400) in *.
  pose proof (Z.div_mod r 100 ltac:(lia)).
  pose proof (Z.mod_pos_bound r 100 ltac:(lia)).
  set (r' := r mod 100) in *.
  pose proof (Z.div_mod r' 4 ltac:(lia)).
  pose proof (Z.mod_pos_bound r' 4 ltac:(lia)).
  lia.
Qed.

Lemma day_of_year_bound (leap : bool) (m d : Z) :
  1 <= m <= 12 -> 1 <= d ->
  d <= (if (m =? 2) && leap then 29 else days_in_month 1 m) ->
  0 <= days_before_month_common m + (if (2 <? m) && leap then 1 else 0) + d - 1
    <= 364 + (if leap then 1 else 0).
Proof.
  intros Hm Hd1 Hd2.
  assert (Hmc : m = 1 \/ m = 2 \/ m = 3 \/ m = 4 \/ m = 5 \/ m = 6 \/ m = 7
                \/ m = 8 \/ m = 9 \/ m = 10 \/ m = 11 \/ m = 12) by lia.
  set (bound := if (m =? 2) && leap then 29 else days_in_month 1 m) in Hd2.
  set (before := days_before_month_common m + (if (2 <? m) && leap then 1 else 0)).
  destruct leap; repeat (destruct Hmc as [Hmc | Hmc]); subst m;
    vm_compute in bound; vm_compute in before; subst bound before; lia.
Qed.

Lemma days_in_month_leap (y m : Z) :
  days_in_month y m = if (m =? 2) && is_leap y then 29 else days_in_month 1 m.
Proof.
  unfold days_in_month. change (is_leap 1) with false.
  destruct (m =? 2); cbn [andb]; [destruct (is_leap y) |]; reflexivity.
Qed.

(** [_ord2ymd] inverts [_ymd2ord] on every date of the calendar. *)
Lemma ord2ymd_ymd2ord (y m d : Z) :
  1 <= m <= 12 -> 1 <= d <= days_in_month y m ->
  ord2ymd (ymd2ord y m d) = (y, m, d).
Proof.
  intros Hm Hd.
  destruct (year_cycles y) as (a & b & c & e & Hy & Hb & Hc & He).
  rewrite days_in_month_leap in Hd.
  unfold ymd2ord, days_before_month.
  pose proof (is_leap_cycles a b c e Hb Hc He) as Hleap. rewrite <- Hy in Hleap.
  pose proof (days_before_year_cycles a b c e Hb Hc He) as Hdby.
  rewrite <- Hy in Hdby. rewrite Hdby.
  set (leap := is_leap y) in *.
  pose proof (day_of_year_bound leap m d Hm (proj1 Hd) (proj2 Hd)) as Ht.
  pose proof (yday_to_md_correct leap m d Hm (proj1 Hd) (proj2 Hd)) as Hmd.
  set (t := days_before_month_common m + (if (2 <? m) && leap then 1 else 0) + d - 1) in *.
  replace (146097 * a + 36524 * b + 1461 * c + 365 * e
           + (days_before_month_common m + (if (2 <? m) && leap then 1 else 0)) + d)
    with (146097 * a + 36524 * b + 1461 * c + 365 * e + t + 1) by (unfold t; lia).
  rewrite ord2ymd_cycles; try lia.
  - rewrite <- Hleap, Hmd. cbn [fst snd]. rewrite <- Hy. reflexivity.
  - rewrite <- Hleap. lia.
Qed.

Lemma valid_date_iff (y m d : Z) :
  valid_date y m d = true <->
  1 <= y <= 9999 /\ 1 <= m <= 12 /\ 1 <= d <= days_in_month y m.
Proof.
  unfold valid_date. rewrite !andb_true_iff, !Z.leb_le. lia.
Qed.

Lemma days_in_month_range (y m : Z) : 28 <= days_in_month y m <= 31.
Proof.
  unfold days_in_month.
  destruct (m =? 2); [destruct (is_leap y); lia |].
  destruct ((m =? 4) || (m =? 6) || (m =? 9) || (m =? 11)); lia.
Qed.

Lemma days_before_month_step (y m : Z) :
  2 <= m <= 12 ->
  days_before_month y m = days_before_month y (m - 1) + days_in_month y (m - 1).
Proof.
  intros Hm.
  assert (Hmc : m = 2 \/ m = 3 \/ m = 4 \/ m = 5 \/ m = 6 \/ m = 7
                \/ m = 8 \/ m = 9 \/ m = 10 \/ m = 11 \/ m = 12) by lia.
  unfold days_before_month, days_in_month.
  repeat (destruct Hmc as [Hmc | Hmc]); subst m; destruct (is_leap y); reflexivity.
Qed.

Lemma days_before_year_step (y : Z) :
  days_before_year (y + 1) = days_before_year y + 365 + (if is_leap y then 1 else 0).
Proof.
  destruct (year_cycles y) as (a & b & c & e & Hy & Hb & Hc & He).
  rewrite Hy at 2 3. rewrite is_leap_cycles, days_before_year_cycles by assumption.
  unfold days_before_year. cbv zeta.
  replace (y + 1 - 1) with (400 * a + 100 * b + 4 * c + e + 1) by lia.
  set (y1 := 400 * a + 100 * b + 4 * c + e + 1).
  assert (H4 : y1 / 4 = 100 * a + 25 * b + c + (if e =? 3 then 1 else 0)).
  { destruct (Z.eqb_spec e 3).
    - apply (div_mod_known y1 4 _ 0); unfold y1; lia.
    - apply (div_mod_known y1 4 _ (e + 1)); unfold y1; lia. }
  assert (H100 : y1 / 100 = 4 * a + b + (if (e =? 3) && (c =? 24) then 1 else 0)).
  { destruct (Z.eqb_spec e 3); destruct (Z.eqb_spec c 24); cbn [andb];
      first [ apply (div_mod_known y1 100 _ 0); unfold y1; lia
            | apply (div_mod_known y1 100 _ (4 * c + e + 1)); unfold y1; lia ]. }
  assert (H400 : y1 / 400 = a + (if (e =? 3) && (c =? 24) && (b =? 3) then 1 else 0)).
  { destruct (Z.eqb_spec e 3); destruct (Z.eqb_spec c 24); destruct (Z.eqb_spec b 3);
      cbn [andb];
      first [ apply (div_mod_known y1 400 _ 0); unfold y1; lia
            | apply (div_mod_known y1 400 _ (100 * b + 4 * c + e + 1)); unfold y1; lia ]. }
  rewrite H4, H100, H400. unfold y1.
  destruct (Z.eqb_spec e 3); destruct (Z.eqb_spec c 24); destruct (Z.eqb_spec b 3);
    cbn [andb negb orb]; lia.
Qed.

Lemma ymd2ord_bounds (y m d : Z) :
  valid_date y m d = true -> 1 <= ymd2ord y m d <= 3652059.
Proof.
  intros Hv. apply valid_date_iff in Hv. destruct Hv as (Hy & Hm & Hd).
  destruct (year_cycles y) as (a & b & c & e & Hya & Hb & Hc & He).
  rewrite days_in_month_leap in Hd.
  pose proof (day_of_year_bound (is_leap y) m d Hm (proj1 Hd) (proj2 Hd)) as Ht.
  unfold ymd2ord, days_before_month.
  pose proof (is_leap_cycles a b c e Hb Hc He) as Hleap. rewrite <- Hya in Hleap.
  pose proof (days_before_year_cycles a b c e Hb Hc He) as Hdby.
  rewrite <- Hya in Hdby. rewrite Hdby. rewrite Hleap in Ht.
  rewrite Hleap.
  destruct (Z.eqb_spec e 3); destruct (Z.eqb_spec c 24); destruct (Z.eqb_spec b 3);
    cbn [andb negb orb] in *; lia.
Qed.

Lemma ymd2ord_day_before (dt : datetime) :
  valid_datetime dt = true ->
  (dt_year dt, dt_month dt, dt_day dt) <> (1, 1, 1) ->
  valid_datetime (day_before dt) = true
  /\ ymd2ord (dt_year (day_before dt)) (dt_month (day_before dt)) (dt_day (day_before dt))
     = ymd2ord (dt_year dt) (dt_month dt) (dt_day dt) - 1.
Proof.
  destruct dt as [y m d h mi s us]. unfold valid_datetime, day_before. cbn.
  intros Hv Hne. apply valid_date_iff in Hv. destruct Hv as (Hy & Hm & Hd).
  destruct (Z.ltb_spec 1 d); cbn.
  - split; [apply valid_date_iff; lia | unfold ymd2ord; lia].
  - destruct (Z.ltb_spec 1 m); cbn.
    + split.
      * apply valid_date_iff. pose proof (days_in_month_range y (m - 1)). lia.
      * unfold ymd2ord. rewrite (days_before_month_step y m) by lia. lia.
    + assert (m = 1) by lia. assert (d = 1) by lia. subst m d.
      assert (y <> 1) by (intros ->; apply Hne; reflexivity).
      split; [apply valid_date_iff; cbn; lia |].
      pose proof (days_before_year_step (y - 1)) as Hs.
      replace (y - 1 + 1) with y in Hs by lia.
      unfold ymd2ord. rewrite Hs. unfold days_before_month.
      change (days_before_month_common 12) with 334.
      change (days_before_month_common 1) with 0.
      change (2 <? 12) with true. change (2 <? 1) with false. cbn [andb].
      destruct (is_leap (y - 1)); lia.
Qed.

Lemma ymd2ord_day_after (dt : datetime) :
  valid_datetime dt = true ->
  (dt_year dt, dt_month dt, dt_day dt) <> (9999, 12, 31) ->
  valid_datetime (day_after dt) = true
  /\ ymd2ord (dt_year (day_after dt)) (dt_month (day_after dt)) (dt_day (day_after dt))
     = ymd2ord (dt_year dt) (dt_month dt) (dt_day dt) + 1.
Proof.
  destruct dt as [y m d h mi s us]. unfold valid_datetime, day_after. cbn.
  intros Hv Hne. apply valid_date_iff in Hv. destruct Hv as (Hy & Hm & Hd).
  destruct (Z.ltb_spec d (days_in_month y m)); cbn.
  - split; [apply valid_date_iff; lia | unfold ymd2ord; lia].
  - assert (d = days_in_month y m) by lia. subst d.
    destruct (Z.ltb_spec m 12); cbn.
    + split.
      * apply valid_date_iff. pose proof (days_in_month_range y (m + 1)). lia.
      * unfold ymd2ord. rewrite (days_before_month_step y (m + 1)) by lia.
        replace (m + 1 - 1) with m by lia. lia.
    + assert (m = 12) by lia. subst m.
      assert (y <> 9999).
      { intros ->. apply Hne. reflexivity. }
      split; [apply valid_date_iff; cbn; lia |].
      unfold ymd2ord. rewrite days_before_year_step. unfold days_before_month.
      change (days_before_month_common 12) with 334.
      change (days_before_month_common 1) with 0.
      change (2 <? 12) with true. change (2 <? 1) with false. cbn [andb].
      change (days_in_month y 12) with 31.
      destruct (is_leap y); lia.
Qed.

(** [dt - timedelta(days=1)] and [dt + timedelta(days=1)] are the calendar
    neighbours of [dt]. *)
Lemma add_days_minus_one (dt : datetime) :
  valid_datetime dt = true ->
  (dt_year dt, dt_month dt, dt_day dt) <> (1, 1, 1) ->
  add_days dt (-1) = Ok (day_before dt).
Proof.
  intros Hv Hne. destruct (ymd2ord_day_before dt Hv Hne) as [Hv' Hord].
  unfold add_days. replace (_ + -1) with
    (ymd2ord (dt_year (day_before dt)) (dt_month (day_before dt)) (dt_day (day_before dt)))
    by lia.
  pose proof (ymd2ord_bounds _ _ _ Hv') as Hb.
  replace ((1 <=? _) && (_ <=? 3652059)) with true
    by (symmetry; apply andb_true_iff; split; apply Z.leb_le; lia).
  apply valid_date_iff in Hv'. rewrite ord2ymd_ymd2ord by lia.
  unfold day_before.
  destruct (1 <? dt_day dt); [| destruct (1 <? dt_month dt)]; reflexivity.
Qed.

Lemma add_days_plus_one (dt : datetime) :
  valid_datetime dt = true ->
  (dt_year dt, dt_month dt, dt_day dt) <> (9999, 12, 31) ->
  add_days dt 1 = Ok (day_after dt).
Proof.
  intros Hv Hne. destruct (ymd2ord_day_after dt Hv Hne) as [Hv' Hord].
  unfold add_days. rewrite <- Hord.
  pose proof (ymd2ord_bounds _ _ _ Hv') as Hb.
  replace ((1 <=? _) && (_ <=? 3652059)) with true
    by (symmetry; apply andb_true_iff; split; apply Z.leb_le; lia).
  apply valid_date_iff in Hv'. rewrite ord2ymd_ymd2ord by lia.
  unfold day_after.
  destruct (dt_day dt <? days_in_month (dt_year dt) (dt_month dt));
    [| destruct (dt_month dt <? 12)]; reflexivity.
Qed.

Section FetchFacts.
Context {pyfloat : Type} {L : PyLib pyfloat}.
Variable w : (world pyfloat).

Lemma fetch_slot_step (slot ep a b : string) (data : dict pyfloat) (s : state) :
  fetch_slot slot (make_request w ep a b) data s =
  run_plan w [(slot, (ep, a, b))] data s.
Proof.
  unfold fetch_slot, make_request, run_plan.
  destruct (api w ep a b) as [d | e]; [reflexivity |].
  destruct e; reflexivity.
Qed.

Lemma run_plan_app (p q : list (string * (string * string * string)))
    (data : dict pyfloat) (s : state) :
  run_plan w (p ++ q) data s =
  match run_plan w p data s with
  | (Ok data', s') => run_plan w q data' s'
  | (Raise e, s') => (Raise e, s')
  end.
Proof.
  revert data s. induction p as [| [slot [[ep a] b]] p IH]; intros data s.
  - reflexivity.
  - cbn [app run_plan].
    destruct (api w ep a b) as [d | e]; [apply IH |].
    destruct e; try reflexivity. apply IH.
Qed.

(** [get_todays_data] reads the clock four times, then runs the plan. *)
Lemma get_todays_data_run (s : state) (d1 d3 : datetime) :
  add_days (clock w (ticks s)) (-1) = Ok d1 ->
  add_days (clock w (2 + ticks s)) 1 = Ok d3 ->
  get_todays_data w s =
  run_plan w (fetch_plan (strftime_ymd d1) (strftime_ymd (clock w (1 + ticks s)))
                       (strftime_ymd d3))
           (@empty_payload pyfloat (strftime_ymd d1) (strftime_ymd (clock w (1 + ticks s)))
                          (isoformat (clock w (3 + ticks s))))
           (tick 4 s).
Proof.
  intros H1 H3.
  unfold get_todays_data, get_daily_sleep, get_sleep_periods, get_daily_readiness,
    get_daily_activity, get_daily_stress, get_workouts, get_sleep_time.
  unfold bind at 1. unfold now at 1. cbn [ticks requests smtp_log stdout].
  unfold bind at 1. unfold lift at 1. rewrite H1.
  unfold bind at 1. unfold now at 1. cbn [ticks requests smtp_log stdout].
  unfold bind at 1. unfold now at 1. cbn [ticks requests smtp_log stdout].
  unfold bind at 1. unfold lift at 1. change (S (S (ticks s))) with (2 + ticks s)%nat.
  rewrite H3.
  unfold bind at 1. unfold now at 1. cbn [ticks requests smtp_log stdout].
  change (S (ticks s)) with (1 + ticks s)%nat.
  change (S (2 + ticks s)) with (3 + ticks s)%nat.
  change (mkState (S (3 + ticks s)) (requests s) (smtp_log s) (stdout s))
    with (tick 4 s).
  set (yesterday := strftime_ymd d1).
  set (today := strftime_ymd (clock w (1 + ticks s))).
  set (tomorrow := strftime_ymd d3).
  change [("date", PStr today); ("activity_date", PStr yesterday);
          ("fetched_at", PStr (isoformat (clock w (3 + ticks s))));
          ("daily_sleep", PNone); ("sleep_periods", PNone);
          ("daily_activity", PNone); ("daily_readiness", PNone);
          ("daily_stress", PNone); ("workouts", PNone); ("sleep_time", PNone)]
    with (@empty_payload pyfloat yesterday today (isoformat (clock w (3 + ticks s)))).
  remember (@empty_payload pyfloat yesterday today (isoformat (clock w (3 + ticks s))))
    as data eqn:Hdata.
  remember (tick 4 s) as s0 eqn:Hs0. clear Hdata Hs0.
  change (fetch_plan yesterday today tomorrow)
    with ([("daily_sleep", ("v2/usercollection/daily_sleep", today, tomorrow))]
          ++ [("sleep_periods", ("v2/usercollection/sleep", today, tomorrow))]
          ++ [("daily_readiness", ("v2/usercollection/daily_readiness", today, tomorrow))]
          ++ [("daily_activity", ("v2/usercollection/daily_activity", yesterday, today))]
          ++ [("daily_stress", ("v2/usercollection/daily_stress", yesterday, today))]
          ++ [("workouts", ("v2/usercollection/workout", yesterday, today))]
          ++ [("sleep_time", ("v2/usercollection/sleep_time", yesterday, today))])%list.
  repeat (rewrite run_plan_app; unfold bind at 1; rewrite fetch_slot_step;
          destruct (run_plan w [_] data s0) as [[data' | e] s1]; [| reflexivity];
          clear data s0; rename data' into data; rename s1 into s0).
  unfold bind, ret. rewrite fetch_slot_step.
  destruct (run_plan w [_] data s0) as [[data' | e] s1]; reflexivity.
Qed.

Lemma lookup_dict_set (k k' : string) (v : pyval pyfloat) (d : dict pyfloat) :
  lookup k' (dict_set k v d) = if String.eqb k' k then Some v else lookup k' d.
Proof.
  induction d as [| [k0 v0] d IH]; cbn [dict_set lookup].
  - destruct (String.eqb_spec k' k); reflexivity.
  - destruct (String.eqb_spec k k0) as [-> | Hk]; cbn [lookup].
    + destruct (String.eqb_spec k' k0); reflexivity.
    + destruct (String.eqb_spec k' k0) as [-> | Hk'].
      * destruct (String.eqb_spec k0 k); [congruence | reflexivity].
      * exact IH.
Qed.

Lemma run_plan_state (plan : list (string * (string * string * string)))
    (data : dict pyfloat) (s : state) (r : result (dict pyfloat)) (s' : state) :
  run_plan w plan data s = (r, s') ->
  ticks s' = ticks s /\ smtp_log s' = smtp_log s /\ stdout s' = stdout s
  /\ (exists k : nat, requests s' = requests s ++ firstn k (map snd plan))%list
  /\ (forall data', r = Ok data' -> requests s' = requests s ++ map snd plan)%list.
Proof.
  revert data s. induction plan as [| [slot [[ep a] b]] plan IH]; intros data s Hrun.
  - cbn in Hrun. inversion Hrun; subst. repeat split; try reflexivity.
    + exists 0%nat. cbn. now rewrite app_nil_r.
    + intros _ _. cbn. now rewrite app_nil_r.
  - cbn [run_plan] in Hrun.
    set (s1 := with_requests s (requests s ++ [(ep, a, b)])) in Hrun.
    assert (Hstep : forall data1, run_plan w plan data1 s1 = (r, s') ->
              ticks s' = ticks s /\ smtp_log s' = smtp_log s /\ stdout s' = stdout s
              /\ (exists k : nat,
                     requests s' = requests s ++ firstn k (map snd ((slot, (ep, a, b)) :: plan)))%list
              /\ (forall data', r = Ok data' ->
                     requests s' = requests s ++ map snd ((slot, (ep, a, b)) :: plan))%list).
    { intros data1 H1. destruct (IH _ _ H1) as (Ht & Hl & Ho & [k Hk] & Hall).
      cbn in Ht, Hl, Ho, Hk, Hall. repeat split; try assumption.
      - exists (S k). cbn. rewrite Hk, <- app_assoc. reflexivity.
      - intros data' Hr. cbn. rewrite (Hall data' Hr), <- app_assoc. reflexivity. }
    destruct (api w ep a b) as [d | e]; [exact (Hstep _ Hrun) |].
    destruct e; try (inversion Hrun; subst; cbn; repeat split; try reflexivity;
                     [exists 1%nat; reflexivity | intros ? Hr; discriminate Hr]).
    exact (Hstep _ Hrun).
Qed.

(** The first request of a plan is sent whatever its outcome. *)
Lemma run_plan_first_request (slot ep a b : string)
    (rest : list (string * (string * string * string)))
    (data : dict pyfloat) (s : state) (r : result (dict pyfloat)) (s' : state) :
  run_plan w ((slot, (ep, a, b)) :: rest) data s = (r, s') ->
  exists k : nat,
    (requests s' = requests s ++ firstn (S k) (map snd ((slot, (ep, a, b)) :: rest)))%list.
Proof.
  cbn [run_plan]. intros Hrun.
  assert (Hstep : forall data1,
            run_plan w rest data1 (with_requests s (requests s ++ [(ep, a, b)])) = (r, s') ->
            exists k : nat,
              (requests s' =
               requests s ++ firstn (S k) (map snd ((slot, (ep, a, b)) :: rest)))%list).
  { intros data1 H1. destruct (run_plan_state _ _ _ _ _ H1) as (_ & _ & _ & [k Hk] & _).
    exists k. cbn in Hk |- *. rewrite Hk, <- app_assoc. reflexivity. }
  destruct (api w ep a b) as [v | e]; [exact (Hstep _ Hrun) |].
  destruct e; try (inversion Hrun; subst; exists 0%nat; reflexivity).
  exact (Hstep _ Hrun).
Qed.

Lemma run_plan_other_keys (plan : list (string * (string * string * string)))
    (data : dict pyfloat) (s : state) (data' : dict pyfloat) (s' : state) (k : string) :
  run_plan w plan data s = (Ok data', s') ->
  ~ In k (map fst plan) -> lookup k data' = lookup k data.
Proof.
  revert data s. induction plan as [| [slot [[ep a] b]] plan IH]; intros data s Hrun Hk.
  - cbn in Hrun. inversion Hrun. reflexivity.
  - cbn [run_plan] in Hrun. cbn [map fst In] in Hk.
    assert (Hne : String.eqb k slot = false).
    { apply String.eqb_neq. intros ->. apply Hk. left. reflexivity. }
    assert (Hk' : ~ In k (map fst plan)) by (intros H; apply Hk; right; exact H).
    destruct (api w ep a b) as [d | e].
    + rewrite (IH _ _ Hrun Hk'), lookup_dict_set, Hne. reflexivity.
    + destruct e; try discriminate Hrun.
      rewrite (IH _ _ Hrun Hk'), lookup_dict_set, Hne. reflexivity.
Qed.

(** After a successful run every slot of the plan holds the API response or
    the error marker of its own fetch. *)
Lemma run_plan_slots (plan : list (string * (string * string * string)))
    (data : dict pyfloat) (s : state) (data' : dict pyfloat) (s' : state) :
  NoDup (map fst plan) ->
  run_plan w plan data s = (Ok data', s') ->
  forall slot ep a b, In (slot, (ep, a, b)) plan ->
    (exists v, api w ep a b = Ok v /\ lookup slot data' = Some v)
    \/ (exists msg, api w ep a b = Raise (RequestException msg)
                    /\ lookup slot data' = Some (error_marker msg)).
Proof.
  revert data s. induction plan as [| [slot0 [[ep0 a0] b0]] plan IH];
    intros data s Hnd Hrun slot ep a b Hin.
  - destruct Hin.
  - cbn [map fst] in Hnd. inversion Hnd as [| ? ? Hnotin Hnd']; subst.
    cbn [run_plan] in Hrun. destruct Hin as [Heq | Hin].
    + inversion Heq; subst.
      destruct (api w ep a b) as [d | e] eqn:Hapi.
      * left. exists d. split; [reflexivity |].
        rewrite (run_plan_other_keys _ _ _ _ _ slot Hrun Hnotin), lookup_dict_set,
          String.eqb_refl. reflexivity.
      * destruct e; try discriminate Hrun.
        right. exists msg. split; [reflexivity |].
        rewrite (run_plan_other_keys _ _ _ _ _ slot Hrun Hnotin), lookup_dict_set,
          String.eqb_refl. reflexivity.
    + destruct (api w ep0 a0 b0) as [d | e].
      * exact (IH _ _ Hnd' Hrun slot ep a b Hin).
      * destruct e; try discriminate Hrun.
        exact (IH _ _ Hnd' Hrun slot ep a b Hin).
Qed.

(** When every failing fetch fails with a [RequestException], the run of
    the plan goes through every entry and succeeds. *)
Lemma run_plan_total (plan : list (string * (string * string * string)))
    (data : dict pyfloat) (s : state) :
  (forall slot ep a b e, In (slot, (ep, a, b)) plan ->
     api w ep a b = Raise e -> exists msg, e = RequestException msg) ->
  exists data', run_plan w plan data s =
                (Ok data', with_requests s (requests s ++ map snd plan)).
Proof.
  revert data s. induction plan as [| [slot [[ep a] b]] plan IH]; intros data s Hreq.
  - exists data. cbn. rewrite app_nil_r. destruct s; reflexivity.
  - cbn [run_plan].
    assert (Hreq' : forall slot ep a b e, In (slot, (ep, a, b)) plan ->
              api w ep a b = Raise e -> exists msg, e = RequestException msg).
    { intros. eapply Hreq; [right; eassumption | eassumption]. }
    set (s1 := with_requests s (requests s ++ [(ep, a, b)])).
    assert (Hs1 : forall data1, exists data',
               run_plan w plan data1 s1 =
               (Ok data', with_requests s (requests s ++ map snd ((slot, (ep, a, b)) :: plan)))).
    { intros data1. destruct (IH data1 s1 Hreq') as [data' Hd]. exists data'.
      rewrite Hd. unfold s1, with_requests. cbn. rewrite <- app_assoc. reflexivity. }
    destruct (api w ep a b) as [d | e] eqn:Hapi; [apply Hs1 |].
    destruct (Hreq slot ep a b e (or_introl eq_refl) Hapi) as [msg ->]. apply Hs1.
Qed.

(** A run of [get_todays_data] that returns went through both date
    computations. *)
Lemma get_todays_data_inv (s : state) (data : dict pyfloat) (s' : state) :
  get_todays_data w s = (Ok data, s') ->
  exists d1 d3,
    add_days (clock w (ticks s)) (-1) = Ok d1
    /\ add_days (clock w (2 + ticks s)) 1 = Ok d3.
Proof.
  intros Hrun.
  destruct (add_days (clock w (ticks s)) (-1)) as [d1 | e1] eqn:H1.
  - destruct (add_days (clock w (2 + ticks s)) 1) as [d3 | e3] eqn:H3.
    + exists d1, d3. split; reflexivity.
    + exfalso. revert Hrun. unfold get_todays_data.
      unfold bind at 1. unfold now at 1. cbn [ticks requests smtp_log stdout].
      unfold bind at 1. unfold lift at 1. rewrite H1.
      unfold bind at 1. unfold now at 1. cbn [ticks requests smtp_log stdout].
      unfold bind at 1. unfold now at 1. cbn [ticks requests smtp_log stdout].
      unfold bind at 1. unfold lift at 1. change (S (S (ticks s))) with (2 + ticks s)%nat.
      rewrite H3. discriminate.
  - exfalso. revert Hrun. unfold get_todays_data.
    unfold bind at 1. unfold now at 1. cbn [ticks requests smtp_log stdout].
    unfold bind at 1. unfold lift at 1. rewrite H1. discriminate.
Qed.

End FetchFacts.

Lemma inside_calendar_iff (y m d : Z) :
  inside_calendar y m d = true <->
  valid_date y m d = true /\ (y, m, d) <> (1, 1, 1) /\ (y, m, d) <> (9999, 12, 31).
Proof.
  unfold inside_calendar. rewrite !andb_true_iff, !negb_true_iff.
  split.
  - intros [[Hv H1] H2]. split; [exact Hv |]. split; intros Heq; inversion Heq; subst.
    + discriminate H1.
    + discriminate H2.
  - intros (Hv & H1 & H2). repeat split; [exact Hv | |].
    + destruct (Z.eqb_spec y 1), (Z.eqb_spec m 1), (Z.eqb_spec d 1); try reflexivity.
      subst. exfalso. apply H1. reflexivity.
    + destruct (Z.eqb_spec y 9999), (Z.eqb_spec m 12), (Z.eqb_spec d 31); try reflexivity.
      subst. exfalso. apply H2. reflexivity.
Qed.

Lemma add_days_on_date (dt : datetime) (y m d : Z) :
  inside_calendar y m d = true -> date_of dt = (y, m, d) ->
  (exists d1, add_days dt (-1) = Ok d1
              /\ strftime_ymd d1 = strftime_ymd (day_before (on_date y m d)))
  /\ (exists d3, add_days dt 1 = Ok d3
                 /\ strftime_ymd d3 = strftime_ymd (day_after (on_date y m d)))
  /\ strftime_ymd dt = strftime_ymd (on_date y m d).
Proof.
  intros Hin Hd. apply inside_calendar_iff in Hin. destruct Hin as (Hv & Hmin & Hmax).
  destruct dt as [y0 m0 d0 h mi se us]. unfold date_of in Hd. cbn in Hd.
  inversion Hd; subst y0 m0 d0.
  split; [| split].
  - eexists. split; [apply add_days_minus_one; assumption |].
    unfold day_before, on_date, strftime_ymd. cbn [dt_year dt_month dt_day].
    destruct (1 <? d); [| destruct (1 <? m)]; reflexivity.
  - eexists. split; [apply add_days_plus_one; assumption |].
    unfold day_after, on_date, strftime_ymd. cbn [dt_year dt_month dt_day].
    destruct (d <? days_in_month y m); [| destruct (m <? 12)]; reflexivity.
  - reflexivity.
Qed.

Lemma fetch_plan_windows (yesterday today tomorrow : string) :
  map snd (fetch_plan yesterday today tomorrow) = date_windows yesterday today tomorrow.
Proof. reflexivity. Qed.

Lemma fetch_plan_slots (yesterday today tomorrow : string) :
  map fst (fetch_plan yesterday today tomorrow) = category_slots.
Proof. reflexivity. Qed.

Lemma category_slots_nodup : NoDup category_slots.
Proof.
  unfold category_slots.
  repeat (constructor; [cbn; intros H; repeat (destruct H as [H | H]; [discriminate H |]);
                        exact H |]).
  constructor.
Qed.

(** C4. Taking the local date D = (y, m, d) as "now" (all four clock
    readings of the call fall on D): the request of the first category is
    always sent, and the requests that are sent are, in the order of the
    source, those of the window [D, D+1) for daily sleep, sleep periods and
    readiness and of the window [D-1, D) for activity, stress, workouts and
    sleep time; a payload that is returned has date = D and activity_date =
    the calendar day before D (the last day of the previous month or year
    when D is a first), and all seven requests have been sent.  When the
    fetches that fail do so with a request exception, the call does return
    such a payload. *)
Theorem date_selection {pyfloat : Type} {L : PyLib pyfloat} (w : world pyfloat) (s : state) (y m d : Z) :
  inside_calendar y m d = true ->
  (forall i : nat, (i < 4)%nat -> date_of (clock w (i + ticks s)) = (y, m, d)) ->
  let today := strftime_ymd (on_date y m d) in
  let yesterday := strftime_ymd (day_before (on_date y m d)) in
  let tomorrow := strftime_ymd (day_after (on_date y m d)) in
  (forall (r : result (dict pyfloat)) (s' : state),
      get_todays_data w s = (r, s') ->
      (exists k : nat,
          (1 <= k)%nat
          /\ requests s' = requests s ++ firstn k (date_windows yesterday today tomorrow))%list
      /\ (forall data : dict pyfloat, r = Ok data ->
            lookup "date" data = Some (PStr today)
            /\ lookup "activity_date" data = Some (PStr yesterday)
            /\ requests s' = requests s ++ date_windows yesterday today tomorrow)%list)
  /\ ((forall ep a b e, api w ep a b = Raise e -> exists msg, e = RequestException msg) ->
      exists (data : dict pyfloat) (s' : state),
        get_todays_data w s = (Ok data, s')
        /\ lookup "date" data = Some (PStr today)
        /\ lookup "activity_date" data = Some (PStr yesterday)
        /\ (requests s' = requests s ++ date_windows yesterday today tomorrow)%list).
Proof.
  intros Hin Hclock today yesterday tomorrow.
  destruct (add_days_on_date _ y m d Hin (Hclock 0%nat ltac:(lia)))
    as ((d1 & H1 & Hy) & _ & _).
  destruct (add_days_on_date _ y m d Hin (Hclock 1%nat ltac:(lia))) as (_ & _ & Ht).
  destruct (add_days_on_date _ y m d Hin (Hclock 2%nat ltac:(lia)))
    as (_ & (d3 & H3 & Htm) & _).
  cbn [Nat.add] in H1.
  pose proof (get_todays_data_run w s d1 d3 H1 H3) as Hplan.
  rewrite Hy, Ht, Htm in Hplan. fold today yesterday tomorrow in Hplan.
  assert (Hdates : forall data s', 
            run_plan w (fetch_plan yesterday today tomorrow)
              (@empty_payload pyfloat yesterday today (isoformat (clock w (3 + ticks s))))
              (tick 4 s) = (Ok data, s') ->
            lookup "date" data = Some (PStr today)
            /\ lookup "activity_date" data = Some (PStr yesterday)
            /\ (requests s' = requests s ++ date_windows yesterday today tomorrow)%list).
  { intros data s' Hrun.
    destruct (run_plan_state w _ _ _ _ _ Hrun) as (_ & _ & _ & _ & Hall).
    rewrite fetch_plan_windows in Hall. cbn [tick requests] in Hall.
    repeat split.
    - rewrite (run_plan_other_keys w _ _ _ _ _ "date" Hrun); [reflexivity |].
      rewrite fetch_plan_slots. cbn. intros H.
      repeat (destruct H as [H | H]; [discriminate H |]). exact H.
    - rewrite (run_plan_other_keys w _ _ _ _ _ "activity_date" Hrun); [reflexivity |].
      rewrite fetch_plan_slots. cbn. intros H.
      repeat (destruct H as [H | H]; [discriminate H |]). exact H.
    - exact (Hall data eq_refl). }
  split.
  - intros r s' Hrun. rewrite Hplan in Hrun. split.
    + destruct (run_plan_first_request w _ _ _ _ _ _ _ _ _ Hrun) as (k & Hk).
      exists (S k). split; [lia |]. rewrite <- fetch_plan_windows. exact Hk.
    + intros data ->. exact (Hdates data s' Hrun).
  - intros Hreq.
    destruct (run_plan_total w (fetch_plan yesterday today tomorrow)
                (@empty_payload pyfloat yesterday today (isoformat (clock w (3 + ticks s))))
                (tick 4 s)) as [data Hrun].
    { intros slot ep a b e _ Hapi. exact (Hreq ep a b e Hapi). }
    eexists data, _. rewrite Hplan. split; [exact Hrun |]. exact (Hdates _ _ Hrun).
Qed.

(** C5. When the fetches that fail do so with a request exception (network,
    authentication, rate limit), [get_todays_data] returns a payload and
    raises nothing: all seven categories are requested, each failing
    category's slot holds the error marker with the reason, and every other
    slot holds its API response. *)
Theorem fetch_failures_are_contained {pyfloat : Type} {L : PyLib pyfloat} (w : world pyfloat) (s : state) :
  (forall i : nat, exists y m d,
      inside_calendar y m d = true /\ date_of (clock w i) = (y, m, d)) ->
  (forall ep a b e, api w ep a b = Raise e -> exists msg, e = RequestException msg) ->
  exists (data : dict pyfloat) (s' : state) (yesterday today tomorrow : string),
    get_todays_data w s = (Ok data, s')
    /\ (requests s' = requests s ++ date_windows yesterday today tomorrow)%list
    /\ forall slot ep a b,
         In (slot, (ep, a, b)) (fetch_plan yesterday today tomorrow) ->
         (forall resp, api w ep a b = Ok resp -> lookup slot data = Some resp)
         /\ (forall msg, api w ep a b = Raise (RequestException msg) ->
               lookup slot data = Some (PDict [("error", PStr msg)])).
Proof.
  intros Hclock Hreq.
  destruct (Hclock (ticks s)) as (y1 & m1 & dd1 & Hin1 & Hd1).
  destruct (Hclock (2 + ticks s)%nat) as (y3 & m3 & dd3 & Hin3 & Hd3).
  destruct (add_days_on_date _ _ _ _ Hin1 Hd1) as ((d1 & H1 & _) & _ & _).
  destruct (add_days_on_date _ _ _ _ Hin3 Hd3) as (_ & (d3 & H3 & _) & _).
  rewrite (get_todays_data_run w s d1 d3 H1 H3).
  set (yesterday := strftime_ymd d1).
  set (today := strftime_ymd (clock w (1 + ticks s))).
  set (tomorrow := strftime_ymd d3).
  set (data0 := @empty_payload pyfloat _ _ _).
  destruct (run_plan_total w (fetch_plan yesterday today tomorrow) data0 (tick 4 s))
    as [data Hrun].
  { intros slot ep a b e _ Hapi. exact (Hreq ep a b e Hapi). }
  exists data, (with_requests (tick 4 s)
                  (requests (tick 4 s) ++ map snd (fetch_plan yesterday today tomorrow))),
    yesterday, today, tomorrow.
  split; [exact Hrun |]. split; [reflexivity |].
  intros slot ep a b Hin.
  assert (Hnd : NoDup (map fst (fetch_plan yesterday today tomorrow))).
  { rewrite fetch_plan_slots. exact category_slots_nodup. }
  destruct (run_plan_slots w _ _ _ _ _ Hnd Hrun slot ep a b Hin)
    as [(resp & Hapi & Hl) | (msg & Hapi & Hl)]; split.
  - intros resp' H'. rewrite Hapi in H'. inversion H'; subst. exact Hl.
  - intros msg' H'. rewrite Hapi in H'. discriminate H'.
  - intros resp' H'. rewrite Hapi in H'. discriminate H'.
  - intros msg' H'. rewrite Hapi in H'. inversion H'; subst. exact Hl.
Qed.

(** C10 (amended). Every payload [get_todays_data] returns has the keys
    date, activity_date and fetched_at, and each of the seven category slots
    holds what the request of its own category gave: the body of the
    response, or the error marker of the request exception it raised.  The
    body is stored as it was parsed, so a slot holds a dict when the body is
    a JSON object: provided every response body is one, all seven slots hold
    dicts and none is left at None. *)
Theorem payload_slots_are_dicts {pyfloat : Type} {L : PyLib pyfloat} (w : world pyfloat) (s : state)
    (data : dict pyfloat) (s' : state) :
  get_todays_data w s = (Ok data, s') ->
  (exists v, lookup "date" data = Some (PStr v))
  /\ (exists v, lookup "activity_date" data = Some (PStr v))
  /\ (exists v, lookup "fetched_at" data = Some (PStr v))
  /\ (exists yesterday today tomorrow : string,
         (requests s' = requests s ++ date_windows yesterday today tomorrow)%list
         /\ map fst (fetch_plan yesterday today tomorrow) = category_slots
         /\ forall slot ep a b,
              In (slot, (ep, a, b)) (fetch_plan yesterday today tomorrow) ->
              (exists v, api w ep a b = Ok v /\ lookup slot data = Some v)
              \/ (exists msg, api w ep a b = Raise (RequestException msg)
                              /\ lookup slot data = Some (PDict [("error", PStr msg)])))
  /\ ((forall ep a b v, api w ep a b = Ok v -> is_dict v = true) ->
      forall slot, In slot category_slots ->
        exists d : dict pyfloat, lookup slot data = Some (PDict d)).
Proof.
  intros Hrun.
  destruct (get_todays_data_inv w s data s' Hrun) as (d1 & d3 & H1 & H3).
  rewrite (get_todays_data_run w s d1 d3 H1 H3) in Hrun.
  set (yesterday := strftime_ymd d1) in *.
  set (today := strftime_ymd (clock w (1 + ticks s))) in *.
  set (tomorrow := strftime_ymd d3) in *.
  assert (Hother : forall k, ~ In k category_slots ->
            lookup k data = lookup k (@empty_payload pyfloat yesterday today
                                        (isoformat (clock w (3 + ticks s))))).
  { intros k Hk. apply (run_plan_other_keys w _ _ _ _ _ k Hrun).
    rewrite fetch_plan_slots. exact Hk. }
  assert (Hnot : forall k, In k ["date"; "activity_date"; "fetched_at"] ->
            ~ In k category_slots).
  { intros k Hk Hin. cbn in Hk, Hin.
    repeat (destruct Hk as [<- | Hk];
            [repeat (destruct Hin as [Hin | Hin]; [discriminate Hin |]); exact Hin |]).
    exact Hk. }
  assert (Hnd : NoDup (map fst (fetch_plan yesterday today tomorrow))).
  { rewrite fetch_plan_slots. exact category_slots_nodup. }
  pose proof (run_plan_slots w _ _ _ _ _ Hnd Hrun) as Hslots.
  destruct (run_plan_state w _ _ _ _ _ Hrun) as (_ & _ & _ & _ & Hall).
  rewrite fetch_plan_windows in Hall. cbn [tick requests] in Hall.
  refine (conj _ (conj _ (conj _ (conj _ _)))).
  - eexists. rewrite Hother by (apply Hnot; cbn; tauto). reflexivity.
  - eexists. rewrite Hother by (apply Hnot; cbn; tauto). reflexivity.
  - eexists. rewrite Hother by (apply Hnot; cbn; tauto). reflexivity.
  - exists yesterday, today, tomorrow.
    refine (conj (Hall data eq_refl) (conj (fetch_plan_slots _ _ _) _)).
    intros slot ep a b Hin. exact (Hslots slot ep a b Hin).
  - intros Hdict slot Hslot.
    rewrite <- (fetch_plan_slots yesterday today tomorrow) in Hslot.
    apply in_map_iff in Hslot. destruct Hslot as ([slot' [[ep a] b]] & Heq & Hin).
    cbn in Heq. subst slot'.
    destruct (Hslots slot ep a b Hin) as [(v & Hapi & Hl) | (msg & _ & Hl)].
    + pose proof (Hdict ep a b v Hapi) as Hv.
      destruct v as [| | | | | | dv]; try discriminate Hv. exists dv. exact Hl.
    + eexists. exact Hl.
Qed.

(** C6. The HTML rendering is the fixed wrapper around the text report:
    the wrapper's head, the text report exactly as [format_oura_report]
    returns it (no escaping), the wrapper's tail.  The head ends by opening
    the [pre] block, styled [white-space: pre-wrap] in a monospace font; the
    tail starts by closing it.  When the text formatter raises, so does the
    HTML one. *)
Theorem html_report_wraps_text {pyfloat : Type} {L : PyLib pyfloat} :
  (forall oura_data : (dict pyfloat),
      format_html_report oura_data =
      match format_oura_report oura_data with
      | Ok text_report => Ok (html_head ++ text_report ++ html_tail)
      | Raise e => Raise e
      end)
  /\ (exists before, html_head = before ++ "<pre>")
  /\ (exists after, html_tail = "</pre>" ++ after)
  /\ (exists before after,
         html_head = before ++ "pre {" ++ nl ++ "            white-space: pre-wrap;" ++ nl
                     ++ "            font-family: monospace;" ++ after).
Proof.
  split; [| split; [| split]].
  - intros oura_data. unfold format_html_report, rbind.
    destruct (format_oura_report oura_data) as [text | e]; reflexivity.
  - exists (substring 0 316 html_head). vm_compute. reflexivity.
  - exists (substring 6 17 html_tail). vm_compute. reflexivity.
  - exists (substring 0 197 html_head), (substring 273 48 html_head).
    vm_compute. reflexivity.
Qed.

Lemma string_app_assoc (a b c : string) : ((a ++ b) ++ c = a ++ (b ++ c))%string.
Proof. induction a as [| x a IH]; cbn; [reflexivity | rewrite IH; reflexivity]. Qed.

Lemma concat_app (sep : string) (a b : list string) :
  a <> [] -> b <> [] ->
  String.concat sep (a ++ b)%list = String.concat sep a ++ sep ++ String.concat sep b.
Proof.
  intros Ha Hb. induction a as [| x a IH]; [contradiction |].
  destruct a as [| y a].
  - cbn [app String.concat]. destruct b; [contradiction | reflexivity].
  - change (String.concat sep ((x :: y :: a) ++ b)%list)
      with (x ++ sep ++ String.concat sep ((y :: a) ++ b)%list).
    rewrite IH by discriminate.
    change (String.concat sep (x :: y :: a)) with (x ++ sep ++ String.concat sep (y :: a)).
    rewrite !string_app_assoc. reflexivity.
Qed.

(** A line of a text that is neither its first nor its last stands between
    two line ends. *)
Lemma join_nth_occurs (l : list string) (i : nat) (line : string) :
  nth_error l i = Some line -> (0 < i)%nat -> (S i < List.length l)%nat ->
  occurs (nl ++ line ++ nl) (join nl l).
Proof.
  intros Hnth Hpos Hlast.
  destruct (nth_error_split l i Hnth) as (l1 & l2 & -> & Hlen).
  rewrite length_app in Hlast. cbn [List.length] in Hlast.
  assert (H1 : l1 <> []) by (intros ->; cbn in Hlen; lia).
  assert (H2 : l2 <> []) by (intros ->; cbn in Hlast; lia).
  exists (String.concat nl l1), (String.concat nl l2).
  unfold join. rewrite (concat_app nl l1 (line :: l2) H1) by discriminate.
  destruct l2 as [| y l2]; [contradiction |].
  change (String.concat nl (line :: y :: l2)) with (line ++ nl ++ String.concat nl (y :: l2)).
  rewrite !string_app_assoc. reflexivity.
Qed.

Lemma occurs_app_r (piece text tail : string) :
  occurs piece text -> occurs piece (text ++ tail).
Proof.
  intros (before & after & ->). exists before, (after ++ tail).
  rewrite !string_app_assoc. reflexivity.
Qed.

Section PeriodSelection.
Context {pyfloat : Type} {L : PyLib pyfloat}.

Lemma find_long_sleep_first (before : list (pyval pyfloat)) (p : pyval pyfloat) (after : list (pyval pyfloat)) :
  forallb is_dict before = true ->
  forallb (fun q => negb (tagged_long_sleep q)) before = true ->
  tagged_long_sleep p = true ->
  find_long_sleep (before ++ p :: after) = Ok (Some p).
Proof.
  intros Hd Hn Hp. induction before as [| q before IH]; cbn [app find_long_sleep].
  - destruct p as [| | | | | | d]; try discriminate Hp.
    cbn in Hp |- *. destruct (lookup "type" d) as [t |]; [| discriminate Hp].
    rewrite Hp. reflexivity.
  - cbn [forallb] in Hd, Hn. apply andb_prop in Hd. destruct Hd as [Hq Hd].
    apply andb_prop in Hn. destruct Hn as [Hqn Hn].
    destruct q as [| | | | | | d]; try discriminate Hq.
    cbn in Hqn |- *. destruct (lookup "type" d) as [t |].
    + apply negb_true_iff in Hqn. rewrite Hqn. exact (IH Hd Hn).
    + cbn. exact (IH Hd Hn).
Qed.

Lemma find_long_sleep_none (periods : list (pyval pyfloat)) :
  forallb is_dict periods = true ->
  forallb (fun q => negb (tagged_long_sleep q)) periods = true ->
  find_long_sleep periods = Ok None.
Proof.
  intros Hd Hn. induction periods as [| q periods IH]; [reflexivity |].
  cbn [forallb] in Hd, Hn. apply andb_prop in Hd. destruct Hd as [Hq Hd].
  apply andb_prop in Hn. destruct Hn as [Hqn Hn].
  destruct q as [| | | | | | d]; try discriminate Hq.
  cbn in Hqn |- *. destruct (lookup "type" d) as [t |].
  - apply negb_true_iff in Hqn. rewrite Hqn. exact (IH Hd Hn).
  - cbn. exact (IH Hd Hn).
Qed.

Lemma tagged_is_truthy (p : pyval pyfloat) : tagged_long_sleep p = true -> truthy p = true.
Proof.
  destruct p as [| | | | | | d]; try discriminate.
  destruct d; [discriminate | reflexivity].
Qed.

Lemma select_period_of_list (sp : dict pyfloat) (periods : list (pyval pyfloat)) :
  lookup "data" sp = Some (PList periods) ->
  select_period (PDict sp) =
  match periods with
  | [] => Ok (PDict [])
  | first :: _ =>
      (found <- find_long_sleep periods ;;
       let period_data := match found with Some p => p | None => PDict [] end in
       if negb (truthy period_data) then Ok first else Ok period_data)%result
  end.
Proof.
  intros Hdata. unfold select_period. cbn [py_get py_getitem]. rewrite Hdata.
  cbn [rbind truthy]. destruct periods as [| first rest]; [reflexivity |].
  cbn [py_iter rbind truthy].
  destruct (find_long_sleep (first :: rest)) as [found | e]; [| reflexivity].
  cbn [rbind]. rewrite andb_true_r.
  destruct (negb (truthy match found with Some p => p | None => PDict [] end));
    reflexivity.
Qed.

End PeriodSelection.

Section PeriodSelectionClaim.
Context {pyfloat : Type} {L : PyLib pyfloat}.

Lemma find_long_sleep_is_dict (periods : list (pyval pyfloat)) (p : pyval pyfloat) :
  forallb is_dict periods = true ->
  find_long_sleep periods = Ok (Some p) -> is_dict p = true.
Proof.
  intros Hd. induction periods as [| q periods IH]; cbn [find_long_sleep].
  - discriminate.
  - cbn [forallb] in Hd. apply andb_prop in Hd. destruct Hd as [Hq Hd].
    destruct q as [| | | | | | d]; try discriminate Hq.
    cbn [py_get rbind].
    destruct (py_eq_str _ "long_sleep").
    + intros H. inversion H; subst. reflexivity.
    + exact (IH Hd).
Qed.

Lemma select_period_is_dict (sp : dict pyfloat) (periods : list (pyval pyfloat)) (p : pyval pyfloat) :
  lookup "data" sp = Some (PList periods) ->
  forallb is_dict periods = true ->
  select_period (PDict sp) = Ok p -> is_dict p = true.
Proof.
  intros Hdata Hd. rewrite (select_period_of_list sp periods Hdata).
  destruct periods as [| first rest]; [intros H; inversion H; reflexivity |].
  destruct (find_long_sleep (first :: rest)) as [[q |] | e] eqn:Hf; cbn [rbind].
  - pose proof (find_long_sleep_is_dict _ _ Hd Hf) as Hq.
    destruct (negb (truthy q)); intros H; inversion H; subst; [| exact Hq].
    cbn [forallb] in Hd. apply andb_prop in Hd. exact (proj1 Hd).
  - cbn. intros H. inversion H; subst.
    cbn [forallb] in Hd. apply andb_prop in Hd. exact (proj1 Hd).
  - discriminate.
Qed.

Lemma select_period_singleton (p : pyval pyfloat) :
  is_dict p = true -> select_period (PDict [("data", PList [p])]) = Ok p.
Proof.
  intros Hp.
  rewrite (select_period_of_list [("data", PList [p])] [p] eq_refl).
  destruct p as [| | | | | | d]; try discriminate Hp.
  cbn [find_long_sleep py_get rbind].
  destruct (py_eq_str _ "long_sleep"); cbn [rbind].
  - destruct (negb (truthy (PDict d))); reflexivity.
  - reflexivity.
Qed.

(** The report depends on the sleep-period slot only through the selected
    period. *)
Lemma format_oura_report_selected (oura_data sp : dict pyfloat) (p : pyval pyfloat) :
  lookup "sleep_periods" oura_data = Some (PDict sp) ->
  select_period (PDict sp) = Ok p -> is_dict p = true ->
  format_oura_report oura_data =
  format_oura_report (dict_set "sleep_periods" (PDict [("data", PList [p])]) oura_data).
Proof.
  intros Hslot Hsel Hp. unfold format_oura_report. cbv zeta. cbn [py_get rbind].
  rewrite !lookup_dict_set. cbn [String.eqb Ascii.eqb Bool.eqb].
  rewrite Hslot, Hsel, (select_period_singleton p Hp). reflexivity.
Qed.

Lemma period_details_reads_record (pd : dict pyfloat) (view : period_view pyfloat) :
  period_details (PDict pd) = Ok view -> reads_record pd view.
Proof.
  unfold period_details, duration_field, reads_record, field_or. cbn [py_get rbind].
  intros H.
  destruct (format_duration match lookup "time_in_bed" pd with
                            | Some x => x | None => PInt 0 end) as [tib | e] eqn:Etib;
    cbn [rbind] in H; [| discriminate H].
  destruct (format_duration match lookup "total_sleep_duration" pd with
                            | Some x => x | None => PInt 0 end) as [ts | e] eqn:Ets;
    cbn [rbind] in H; [| discriminate H].
  destruct (if truthy match lookup "latency" pd with Some x => x | None => PInt 0 end
            then _ else _) as [lm | e] eqn:Elm; cbn [rbind] in H; [| discriminate H].
  destruct (format_duration match lookup "deep_sleep_duration" pd with
                            | Some x => x | None => PInt 0 end) as [dd | e] eqn:Edd;
    cbn [rbind] in H; [| discriminate H].
  destruct (format_duration match lookup "rem_sleep_duration" pd with
                            | Some x => x | None => PInt 0 end) as [rd | e] eqn:Erd;
    cbn [rbind] in H; [| discriminate H].
  destruct (format_duration match lookup "light_sleep_duration" pd with
                            | Some x => x | None => PInt 0 end) as [ld | e] eqn:Eld;
    cbn [rbind] in H; [| discriminate H].
  inversion H; subst view; clear H.
  cbn [bedtime_start bedtime_end time_in_bed total_sleep latency_min deep_duration
       rem_duration light_duration avg_hr lowest_hr avg_hrv avg_breath restless].
  refine (conj eq_refl (conj eq_refl (conj eq_refl (conj eq_refl (conj _
            (conj eq_refl (conj eq_refl (conj eq_refl (conj eq_refl (conj eq_refl
            (conj eq_refl (conj eq_refl eq_refl)))))))))))).
  intros z Hz. rewrite Hz in Elm. cbn [truthy as_num rbind num_floordiv] in Elm.
  destruct (Z.eqb_spec z 0) as [Heq | Hne]; cbn [negb] in Elm; inversion Elm;
    [rewrite Heq; reflexivity | reflexivity].
Qed.

Lemma shows_period_app (view : period_view pyfloat) (text tail : string) :
  shows_period view text -> shows_period view (text ++ tail).
Proof.
  intros (Hlines & (s1 & H1) & (s2 & H2)). refine (conj _ (conj _ _)).
  - intros line Hin. apply occurs_app_r. exact (Hlines line Hin).
  - exists s1. apply occurs_app_r. exact H1.
  - exists s2. apply occurs_app_r. exact H2.
Qed.

Lemma report_body_shows_period (date ss acs rs ds ads : pyval pyfloat)
    (p : period_view pyfloat) (sc rc td : pyval pyfloat)
    (a : activity_view pyfloat) (st : stress_view pyfloat) (report : string) :
  report_body date ss acs rs ds ads p sc rc td a st = Ok report -> shows_period p report.
Proof.
  unfold report_body. intros H.
  destruct sc as [| | | | | | scd]; try discriminate H.
  destruct rc as [| | | | | | rcd]; try discriminate H.
  cbn [py_get rbind] in H.
  apply (f_equal (fun r => match r with Ok x => x | Raise _ => report end)) in H.
  cbv beta iota in H. subst report.
  refine (conj _ (conj _ _)).
  - intros line Hin. cbn [period_lines In] in Hin.
    destruct Hin as [<- | [<- | [<- | [<- | [<- | [<- | [<- | [<- | []]]]]]]]].
    + apply (join_nth_occurs _ 6); [reflexivity | lia | cbn [List.length]; lia].
    + apply (join_nth_occurs _ 7); [reflexivity | lia | cbn [List.length]; lia].
    + apply (join_nth_occurs _ 8); [reflexivity | lia | cbn [List.length]; lia].
    + apply (join_nth_occurs _ 13); [reflexivity | lia | cbn [List.length]; lia].
    + apply (join_nth_occurs _ 20); [reflexivity | lia | cbn [List.length]; lia].
    + apply (join_nth_occurs _ 21); [reflexivity | lia | cbn [List.length]; lia].
    + apply (join_nth_occurs _ 22); [reflexivity | lia | cbn [List.length]; lia].
    + apply (join_nth_occurs _ 23); [reflexivity | lia | cbn [List.length]; lia].
  - eexists. apply (join_nth_occurs _ 11); [reflexivity | lia | cbn [List.length]; lia].
  - eexists. apply (join_nth_occurs _ 12); [reflexivity | lia | cbn [List.length]; lia].
Qed.

(** The report shows the fields of the period that is selected. *)
Lemma format_oura_report_period (oura_data sp : dict pyfloat) (p : pyval pyfloat)
    (text : string) :
  lookup "sleep_periods" oura_data = Some (PDict sp) ->
  select_period (PDict sp) = Ok p ->
  format_oura_report oura_data = Ok text ->
  exists view, period_details p = Ok view /\ shows_period view text.
Proof.
  intros Hslot Hsel. unfold format_oura_report. cbv zeta. cbn [py_get rbind].
  rewrite Hslot, Hsel. cbn [rbind]. intros H.
  destruct (period_details p) as [view | e] eqn:Ev; cbn [rbind] in H.
  - exists view. split; [reflexivity |].
    repeat match type of H with
           | context [rbind ?m _] =>
               let E := fresh "E" in
               destruct m eqn:E; cbn [rbind] in H; [| discriminate H]
           end.
    inversion H; subst text; clear H.
    apply shows_period_app.
    match goal with
    | E : report_body _ _ _ _ _ _ _ _ _ _ _ _ = Ok _ |- _ =>
        exact (report_body_shows_period _ _ _ _ _ _ _ _ _ _ _ _ _ E)
    end.
  - exfalso.
    repeat match type of H with
           | context [rbind ?m _] =>
               let E := fresh "E" in
               destruct m eqn:E; cbn [rbind] in H; [| discriminate H]
           end.
    discriminate H.
Qed.

End PeriodSelectionClaim.

(** C1. For a payload whose sleep-period list holds period records: a
    period tagged "long_sleep" is selected wherever it stands in the list
    (the first one so tagged); when no period has the tag the first period
    of the list is selected; when the list is empty the empty record is
    used, whose SLEEP fields render as "N/A", "0m" and 0.  The report is the
    report of the payload that holds the selected period alone, and a report
    that is produced shows the selected period: its SLEEP lines are made of
    the fields of that record. *)
Theorem sleep_period_selection {pyfloat : Type} {L : PyLib pyfloat} (sp : dict pyfloat) (periods : list (pyval pyfloat)) :
  lookup "data" sp = Some (PList periods) ->
  forallb is_dict periods = true ->
  (forall before p after,
      periods = (before ++ p :: after)%list ->
      forallb (fun q => negb (tagged_long_sleep q)) before = true ->
      tagged_long_sleep p = true ->
      select_period (PDict sp) = Ok p)
  /\ (forall first rest,
         periods = first :: rest ->
         forallb (fun q => negb (tagged_long_sleep q)) periods = true ->
         select_period (PDict sp) = Ok first)
  /\ (periods = [] ->
      select_period (PDict sp) = Ok (PDict [])
      /\ period_details (PDict []) = Ok absent_period_view)
  /\ (forall oura_data p,
         lookup "sleep_periods" oura_data = Some (PDict sp) ->
         select_period (PDict sp) = Ok p ->
         format_oura_report oura_data =
         format_oura_report
           (dict_set "sleep_periods" (PDict [("data", PList [p])]) oura_data))
  /\ (forall oura_data p text,
         lookup "sleep_periods" oura_data = Some (PDict sp) ->
         select_period (PDict sp) = Ok p ->
         format_oura_report oura_data = Ok text ->
         exists pd view,
           p = PDict pd
           /\ period_details p = Ok view
           /\ reads_record pd view
           /\ shows_period view text).
Proof.
  intros Hdata Hd. split; [| split; [| split; [| split]]].
  - intros before p after -> Hn Hp.
    rewrite (select_period_of_list sp _ Hdata).
    rewrite forallb_app in Hd. apply andb_prop in Hd. destruct Hd as [Hb _].
    rewrite (find_long_sleep_first before p after Hb Hn Hp). cbn [rbind].
    rewrite (tagged_is_truthy p Hp). cbn [negb].
    destruct (before ++ p :: after)%list eqn:E; [destruct before; discriminate E |].
    reflexivity.
  - intros first rest -> Hn.
    rewrite (select_period_of_list sp _ Hdata).
    rewrite (find_long_sleep_none _ Hd Hn). reflexivity.
  - intros ->. split; [exact (select_period_of_list sp [] Hdata) | reflexivity].
  - intros oura_data p Hslot Hsel.
    apply (format_oura_report_selected oura_data sp p Hslot Hsel).
    exact (select_period_is_dict sp periods p Hdata Hd Hsel).
  - intros oura_data p text Hslot Hsel Htext.
    pose proof (select_period_is_dict sp periods p Hdata Hd Hsel) as Hp.
    destruct p as [| | | | | | pd]; try discriminate Hp.
    destruct (format_oura_report_period oura_data sp (PDict pd) text Hslot Hsel Htext)
      as (view & Hview & Hshows).
    exists pd, view.
    exact (conj eq_refl (conj Hview (conj (period_details_reads_record pd view Hview) Hshows))).
Qed.

Section Delivery.
Context {pyfloat : Type} {L : PyLib pyfloat}.
Variable w : (world pyfloat).

Lemma bind_ok_inv {A B : Type} (m : M A) (k : A -> M B) (s : state) (b : B) (s' : state) :
  bind m k s = (Ok b, s') ->
  exists a s1, m s = (Ok a, s1) /\ k a s1 = (Ok b, s').
Proof.
  unfold bind. destruct (m s) as [[a | e] s1]; intros H.
  - exists a, s1. split; [reflexivity | exact H].
  - discriminate H.
Qed.

Lemma smtp_calls_ok (ops : list smtp_op) (s : state) :
  (forall op, In op ops -> smtp w op = Ok tt) ->
  smtp_calls w ops s =
  (Ok tt, mkState (ticks s) (requests s) (smtp_log s ++ ops) (stdout s)).
Proof.
  revert s. induction ops as [| op ops IH]; intros s Hok.
  - cbn. rewrite app_nil_r. destruct s; reflexivity.
  - cbn [smtp_calls]. unfold bind at 1. unfold smtp_call at 1.
    rewrite (Hok op (or_introl eq_refl)).
    rewrite IH by (intros op' Hin; apply Hok; right; exact Hin).
    cbn. rewrite <- app_assoc. reflexivity.
Qed.

Lemma smtp_calls_ok_inv (ops : list smtp_op) (s : state) (u : unit) (s' : state) :
  smtp_calls w ops s = (Ok u, s') -> forall op, In op ops -> smtp w op = Ok tt.
Proof.
  revert s. induction ops as [| op ops IH]; intros s Hrun op' Hin.
  - destruct Hin.
  - cbn [smtp_calls] in Hrun. apply bind_ok_inv in Hrun.
    destruct Hrun as ([] & s1 & Hcall & Hrest).
    destruct Hin as [<- | Hin].
    + unfold smtp_call in Hcall. inversion Hcall. reflexivity.
    + exact (IH s1 Hrest op' Hin).
Qed.

(** [send_email] answers [True] exactly when every SMTP call of the session
    went through. *)
Lemma send_email_result (self : EmailService) (recipient subject body_text : string)
    (body_html : option string) (s : state) (b : bool) (s' : state) :
  send_email w self recipient subject body_text body_html s = (Ok b, s') ->
  (b = true <->
   forall op,
     In op (smtp_session self recipient
              (mime_message self recipient subject body_text body_html)) ->
     smtp w op = Ok tt).
Proof.
  unfold send_email.
  set (ops := smtp_session self recipient _).
  unfold bind at 1.
  destruct (smtp_calls w ops s) as [[u | e] s1] eqn:Hcalls.
  - unfold ret. intros H. inversion H; subst. split; [| reflexivity].
    intros _. exact (smtp_calls_ok_inv ops s u s' Hcalls).
  - destruct (is_Exception e); [| discriminate].
    unfold bind, print, ret. intros H. inversion H; subst. split; [discriminate |].
    intros Hok. rewrite (smtp_calls_ok ops s Hok) in Hcalls. discriminate Hcalls.
Qed.

Lemma send_email_accepted (self : EmailService) (recipient subject body_text : string)
    (body_html : option string) (s : state) :
  (forall op, smtp w op = Ok tt) ->
  exists s', send_email w self recipient subject body_text body_html s = (Ok true, s').
Proof.
  intros Hok. unfold send_email. unfold bind at 1.
  rewrite smtp_calls_ok by (intros op _; apply Hok).
  eexists. reflexivity.
Qed.

End Delivery.

Lemma format_unavailable_payload {pyfloat : Type} {L : PyLib pyfloat} (yesterday today fetched_at : string)
    (r1 r2 r3 r4 r5 r6 r7 : string) :
  exists text,
    format_oura_report
      (@unavailable_payload pyfloat yesterday today fetched_at r1 r2 r3 r4 r5 r6 r7) = Ok text.
Proof.
  destruct (format_oura_report _) as [text | e] eqn:E.
  - exists text. reflexivity.
  - exfalso. cbv in E. discriminate E.
Qed.

Lemma run_plan_fail_step {pyfloat : Type} {L : PyLib pyfloat} (w : world pyfloat) (slot ep a b msg : string)
    (rest : list (string * (string * string * string))) (data : dict pyfloat) (s : state) :
  api w ep a b = Raise (RequestException msg) ->
  run_plan w ((slot, (ep, a, b)) :: rest) data s =
  run_plan w rest (dict_set slot (error_marker msg) data)
           (with_requests s (requests s ++ [(ep, a, b)])).
Proof. intros Hfail. cbn [run_plan]. rewrite Hfail. reflexivity. Qed.

Lemma run_plan_all_fail {pyfloat : Type} {L : PyLib pyfloat} (w : world pyfloat) (reason : string -> string)
    (yesterday today tomorrow fetched_at : string) (s : state) :
  (forall ep a b, api w ep a b = Raise (RequestException (reason ep))) ->
  run_plan w (fetch_plan yesterday today tomorrow)
           (@empty_payload pyfloat yesterday today fetched_at) s =
  (Ok (@unavailable_payload pyfloat yesterday today fetched_at
         (reason "v2/usercollection/daily_sleep")
         (reason "v2/usercollection/sleep")
         (reason "v2/usercollection/daily_readiness")
         (reason "v2/usercollection/daily_activity")
         (reason "v2/usercollection/daily_stress")
         (reason "v2/usercollection/workout")
         (reason "v2/usercollection/sleep_time")),
   with_requests s (requests s ++ date_windows yesterday today tomorrow)).
Proof.
  intros Hfail. unfold fetch_plan.
  do 7 (rewrite (run_plan_fail_step w _ _ _ _ _ _ _ _ (Hfail _ _ _))).
  cbn [run_plan]. f_equal.
  unfold with_requests. cbn [requests ticks smtp_log stdout].
  rewrite <- !app_assoc. reflexivity.
Qed.

Ltac bind_inv H x s1 Hx :=
  apply bind_ok_inv in H; destruct H as (x & s1 & Hx & H).

Lemma lift_ok_inv {pyfloat : Type} {L : PyLib pyfloat} {A : Type} (r : result A) (s : state) (a : A) (s' : state) :
  lift r s = (Ok a, s') -> r = Ok a /\ s' = s.
Proof. unfold lift. intros H. inversion H. split; reflexivity. Qed.



(** ** The claims at concrete inputs *)

Lemma sleep_period_selection_witness :
  select_period (PDict [("data", PList [rest_period; night_period])]) = Ok night_period
  /\ format_oura_report two_period_payload = Ok two_period_report
  /\ (exists pd view,
         night_period = PDict pd
         /\ period_details night_period = Ok view
         /\ reads_record pd view
         /\ shows_period view two_period_report)
  /\ occurs (nl ++ "  Total sleep: 7h 40m" ++ nl) two_period_report
  /\ select_period (PDict [("data", PList [night_period; rest_period])]) = Ok night_period.
Proof.
  refine ((fun H => conj (proj1 H) (conj (proj1 (proj2 H)) (conj (proj1 (proj2 (proj2 H)))
            (conj (proj2 (proj2 (proj2 H)))
               (proj1 (sleep_period_selection
                         [("data", PList [night_period; rest_period])]
                         [night_period; rest_period] eq_refl eq_refl)
                      [] night_period [rest_period] eq_refl eq_refl eq_refl))))) _).
  destruct (sleep_period_selection
              [("data", PList [rest_period; night_period])]
              [rest_period; night_period] eq_refl eq_refl)
    as (Htagged & _ & _ & _ & Hshown).
  pose proof (Htagged [rest_period] night_period [] eq_refl eq_refl eq_refl) as Hsel.
  assert (Hrun : format_oura_report two_period_payload = Ok two_period_report)
    by (vm_compute; reflexivity).
  pose proof (Hshown two_period_payload night_period two_period_report eq_refl Hsel Hrun)
    as Hreport.
  refine (conj Hsel (conj Hrun (conj Hreport _))).
  destruct Hreport as (pd & view & _ & Hview & _ & Hlines & _).
  assert (Htotal : total_sleep view = "7h 40m").
  { vm_compute in Hview. inversion Hview. reflexivity. }
  rewrite <- Htotal. apply Hlines. cbn [period_lines In]. tauto.
Defined.

(** C2, at a payload the API can send.  A score, a contributor and the
    average HRV that are present and null are printed as "None", where the
    claim wants "N/A"; and a null "contributors" object makes the formatter
    raise [AttributeError].  An absent field does give "N/A". *)
Theorem null_fields_are_not_placeholders :
  format_oura_report null_score_payload = Ok null_score_report
  /\ format_oura_report null_contributors_payload = Raise AttributeError
  /\ safe_get (PDict null_score_payload) ["daily_sleep"; "data"; "score"] (PStr "N/A")
     = PStr "N/A".
Proof.
  split; [| split]; vm_compute; reflexivity.
Qed.

Lemma activity_down_run :
  get_todays_data activity_down_world initial_state = (Ok activity_down_payload, after_fetch).
Proof. vm_compute. reflexivity. Defined.

Lemma new_year_clock_inside (i : nat) :
  exists y m d, inside_calendar y m d = true /\ date_of (new_year_clock i) = (y, m, d).
Proof. exists 2025, 1, 1. split; reflexivity. Defined.

Lemma activity_down_api_raises (ep a b : string) (e : exn) :
  activity_down_api ep a b = Raise e -> exists msg, e = RequestException msg.
Proof.
  unfold activity_down_api.
  destruct (String.eqb ep "v2/usercollection/daily_activity"); intros H.
  - eexists. inversion H. reflexivity.
  - discriminate H.
Defined.

Lemma date_selection_witness :
  inside_calendar 2025 1 1 = true
  /\ exists (data : dict Empty_set) (s' : state),
       get_todays_data activity_down_world initial_state = (Ok data, s')
       /\ lookup "date" data = Some (PStr "2025-01-01")
       /\ lookup "activity_date" data = Some (PStr "2024-12-31")
       /\ requests s' = date_windows "2024-12-31" "2025-01-01" "2025-01-02".
Proof.
  split; [reflexivity |].
  exact (proj2 (date_selection activity_down_world initial_state 2025 1 1 eq_refl
                  (fun _ _ => eq_refl))
               activity_down_api_raises).
Defined.

Lemma fetch_failures_are_contained_witness :
  exists (data : dict Empty_set) (s' : state) (yesterday today tomorrow : string),
    get_todays_data activity_down_world initial_state = (Ok data, s')
    /\ (requests s' = requests initial_state ++ date_windows yesterday today tomorrow)%list
    /\ forall slot ep a b,
         In (slot, (ep, a, b)) (fetch_plan yesterday today tomorrow) ->
         (forall resp, api activity_down_world ep a b = Ok resp ->
                       lookup slot data = Some resp)
         /\ (forall msg, api activity_down_world ep a b = Raise (RequestException msg) ->
               lookup slot data = Some (PDict [("error", PStr msg)])).
Proof.
  exact (fetch_failures_are_contained activity_down_world initial_state
           new_year_clock_inside activity_down_api_raises).
Defined.

Lemma activity_down_api_dicts (ep a b : string) (v : pyval Empty_set) :
  api activity_down_world ep a b = Ok v -> is_dict v = true.
Proof.
  cbn [api activity_down_world world_of]. unfold activity_down_api.
  destruct (String.eqb ep "v2/usercollection/daily_activity"); intros H.
  - discriminate H.
  - inversion H. reflexivity.
Defined.

Lemma payload_slots_are_dicts_witness :
  get_todays_data activity_down_world initial_state = (Ok activity_down_payload, after_fetch)
  /\ (exists v, lookup "date" activity_down_payload = Some (PStr v))
  /\ (exists v, lookup "activity_date" activity_down_payload = Some (PStr v))
  /\ (exists v, lookup "fetched_at" activity_down_payload = Some (PStr v))
  /\ (exists yesterday today tomorrow : string,
         (requests after_fetch
          = requests initial_state ++ date_windows yesterday today tomorrow)%list
         /\ map fst (fetch_plan yesterday today tomorrow) = category_slots
         /\ forall slot ep a b,
              In (slot, (ep, a, b)) (fetch_plan yesterday today tomorrow) ->
              (exists v, api activity_down_world ep a b = Ok v
                         /\ lookup slot activity_down_payload = Some v)
              \/ (exists msg, api activity_down_world ep a b = Raise (RequestException msg)
                              /\ lookup slot activity_down_payload
                                 = Some (PDict [("error", PStr msg)])))
  /\ forall slot, In slot category_slots ->
       exists d : dict Empty_set, lookup slot activity_down_payload = Some (PDict d).
Proof.
  refine (conj activity_down_run _).
  destruct (payload_slots_are_dicts activity_down_world initial_state
              activity_down_payload after_fetch activity_down_run)
    as (H1 & H2 & H3 & H4 & H5).
  exact (conj H1 (conj H2 (conj H3 (conj H4 (H5 activity_down_api_dicts))))).
Defined.

(** C10 as stated fails when a response body is not a JSON object: the daily
    sleep endpoint answers with the body [null], the call returns a payload
    whose daily_sleep slot holds None, which is neither the dict of a
    response nor an error marker, and the formatter raises on it. *)
Lemma payload_slots_are_dicts_counterexample :
  get_todays_data null_body_world initial_state = (Ok null_body_payload, after_fetch)
  /\ lookup "daily_sleep" null_body_payload = Some PNone
  /\ In "daily_sleep" category_slots
  /\ (forall d : dict Empty_set, lookup "daily_sleep" null_body_payload <> Some (PDict d))
  /\ format_oura_report null_body_payload = Raise AttributeError.
Proof.
  refine (conj _ (conj _ (conj _ (conj _ _)))); try (vm_compute; reflexivity).
  - cbn. tauto.
  - intros d H. discriminate H.
Qed.




(** * Further properties of the code *)

(** ** oura_client.py: the fetch *)

Section FetchOutcomes.
Context {pyfloat : Type}.
Variable w : world pyfloat.

Lemma dict_set_keys (k : string) (v : pyval pyfloat) (d : dict pyfloat) :
  In k (map fst d) -> map fst (dict_set k v d) = map fst d.
Proof.
  induction d as [| [k0 v0] d IH]; cbn [map fst In dict_set]; [intros [] |].
  intros Hin. destruct (String.eqb_spec k k0) as [-> | Hne]; [reflexivity |].
  cbn [map fst]. f_equal. apply IH. destruct Hin as [Heq | Hin]; [congruence | exact Hin].
Qed.

Lemma run_plan_keys (plan : list (string * (string * string * string)))
    (data : dict pyfloat) (s : state) (data' : dict pyfloat) (s' : state) :
  (forall slot, In slot (map fst plan) -> In slot (map fst data)) ->
  run_plan w plan data s = (Ok data', s') -> map fst data' = map fst data.
Proof.
  revert data s. induction plan as [| [slot [[ep a] b]] plan IH]; intros data s Hin Hrun.
  - cbn in Hrun. inversion Hrun. reflexivity.
  - cbn [run_plan] in Hrun. cbn [map fst In] in Hin.
    assert (Hstep : forall v, run_plan w plan (dict_set slot v data)
                                (with_requests s (requests s ++ [(ep, a, b)])) = (Ok data', s') ->
                              map fst data' = map fst data).
    { intros v Hv. rewrite <- (dict_set_keys slot v data) by (apply Hin; left; reflexivity).
      apply (IH _ _ ltac:(intros k Hk; rewrite dict_set_keys by (apply Hin; left; reflexivity);
                          apply Hin; right; exact Hk) Hv). }
    destruct (api w ep a b) as [d | e]; [exact (Hstep _ Hrun) |].
    destruct e; try discriminate Hrun. exact (Hstep _ Hrun).
Qed.

(** A run of the plan that raises stopped at a fetch whose exception is not
    a request exception. *)
Lemma run_plan_raise (plan : list (string * (string * string * string)))
    (data : dict pyfloat) (s : state) (e : exn) (s' : state) :
  run_plan w plan data s = (Raise e, s') ->
  exists slot ep a b,
    In (slot, (ep, a, b)) plan /\ api w ep a b = Raise e /\ is_RequestException e = false.
Proof.
  revert data s. induction plan as [| [slot [[ep a] b]] plan IH]; intros data s Hrun.
  - discriminate Hrun.
  - cbn [run_plan] in Hrun.
    assert (Hstep : forall data1 s1, run_plan w plan data1 s1 = (Raise e, s') ->
              exists slot' ep' a' b',
                In (slot', (ep', a', b')) ((slot, (ep, a, b)) :: plan)
                /\ api w ep' a' b' = Raise e /\ is_RequestException e = false).
    { intros data1 s1 H1. destruct (IH _ _ H1) as (sl & ep' & a' & b' & Hin & Hapi & He).
      exists sl, ep', a', b'. split; [right; exact Hin | split; assumption]. }
    destruct (api w ep a b) as [d | e0] eqn:Hapi; [exact (Hstep _ _ Hrun) |].
    destruct e0; try (inversion Hrun; subst; exists slot, ep, a, b;
                      split; [left; reflexivity | split; [exact Hapi | reflexivity]]).
    exact (Hstep _ _ Hrun).
Qed.

(** The three ways a call of [get_todays_data] can go. *)
Lemma get_todays_data_cases (s : state) :
  get_todays_data w s =
  match add_days (clock w (ticks s)) (-1) with
  | Raise e => (Raise e, tick 1 s)
  | Ok d1 =>
      match add_days (clock w (2 + ticks s)) 1 with
      | Raise e => (Raise e, tick 3 s)
      | Ok d3 =>
          run_plan w
            (fetch_plan (strftime_ymd d1) (strftime_ymd (clock w (1 + ticks s)))
               (strftime_ymd d3))
            (empty_payload (strftime_ymd d1) (strftime_ymd (clock w (1 + ticks s)))
               (isoformat (clock w (3 + ticks s))))
            (tick 4 s)
      end
  end.
Proof.
  destruct (add_days (clock w (ticks s)) (-1)) as [d1 | e1] eqn:H1.
  - destruct (add_days (clock w (2 + ticks s)) 1) as [d3 | e3] eqn:H3.
    + exact (get_todays_data_run w s d1 d3 H1 H3).
    + unfold get_todays_data.
      unfold bind at 1. unfold now at 1. cbn [ticks requests smtp_log stdout].
      unfold bind at 1. unfold lift at 1. rewrite H1.
      unfold bind at 1. unfold now at 1. cbn [ticks requests smtp_log stdout].
      unfold bind at 1. unfold now at 1. cbn [ticks requests smtp_log stdout].
      unfold bind at 1. unfold lift at 1. change (S (S (ticks s))) with (2 + ticks s)%nat.
      rewrite H3. reflexivity.
  - unfold get_todays_data.
    unfold bind at 1. unfold now at 1. cbn [ticks requests smtp_log stdout].
    unfold bind at 1. unfold lift at 1. rewrite H1. reflexivity.
Qed.

Lemma add_days_raise (dt : datetime) (k : Z) (e : exn) :
  add_days dt k = Raise e -> e = OverflowError.
Proof.
  unfold add_days.
  destruct ((1 <=? _) && (_ <=? 3652059)).
  - destruct (ord2ymd _) as [[y m] d]. discriminate.
  - intros H. inversion H. reflexivity.
Qed.

(** What a call of [get_todays_data] leaves behind, however it ends. *)
Lemma get_todays_data_frame (s : state) (r : result (dict pyfloat)) (s' : state) :
  get_todays_data w s = (r, s') ->
  smtp_log s' = smtp_log s /\ stdout s' = stdout s
  /\ (ticks s < ticks s' <= 4 + ticks s)%nat
  /\ (exists sent, requests s' = requests s ++ sent
                   /\ (List.length sent <= 7)%nat
                   /\ (ticks s' < 4 + ticks s -> sent = [])%nat)%list
  /\ (forall data, r = Ok data ->
        ticks s' = (4 + ticks s)%nat
        /\ exists sent, requests s' = (requests s ++ sent)%list /\ List.length sent = 7%nat).
Proof.
  rewrite get_todays_data_cases.
  assert (Hstop : forall (k : nat) (e : exn), (0 < k < 4)%nat ->
            (Raise e, tick k s) = (r, s') ->
            smtp_log s' = smtp_log s /\ stdout s' = stdout s
            /\ (ticks s < ticks s' <= 4 + ticks s)%nat
            /\ (exists sent, requests s' = requests s ++ sent
                   /\ (List.length sent <= 7)%nat
                   /\ (ticks s' < 4 + ticks s -> sent = [])%nat)%list
            /\ (forall data, r = Ok data ->
                  ticks s' = (4 + ticks s)%nat
                  /\ exists sent, requests s' = (requests s ++ sent)%list
                                  /\ List.length sent = 7%nat)).
  { intros k e Hk H. inversion H; subst r s'. cbn [tick ticks requests smtp_log stdout].
    refine (conj eq_refl (conj eq_refl (conj _ (conj _ _)))).
    - lia.
    - exists []. rewrite app_nil_r. refine (conj eq_refl (conj _ _)); [cbn; lia | reflexivity].
    - intros data Hd. discriminate Hd. }
  destruct (add_days (clock w (ticks s)) (-1)) as [d1 | e1];
    [| exact (Hstop 1%nat e1 ltac:(lia))].
  destruct (add_days (clock w (2 + ticks s)) 1) as [d3 | e3];
    [| exact (Hstop 3%nat e3 ltac:(lia))].
  clear Hstop. intros Hrun.
  destruct (run_plan_state w _ _ _ _ _ Hrun) as (Ht & Hl & Ho & [k Hk] & Hall).
  cbn [tick ticks requests smtp_log stdout] in Ht, Hl, Ho, Hk, Hall.
  refine (conj Hl (conj Ho (conj _ (conj _ _)))).
  - lia.
  - exists (firstn k (map snd (fetch_plan (strftime_ymd d1)
                                 (strftime_ymd (clock w (1 + ticks s))) (strftime_ymd d3)))).
    refine (conj Hk (conj _ _)); [| lia].
    rewrite length_firstn. cbn [fetch_plan map List.length]. lia.
  - intros data Hd. split; [exact Ht |].
    eexists. split; [exact (Hall data Hd) | reflexivity].
Qed.

(** An exception [get_todays_data] lets through is the overflow of the date
    arithmetic or what a fetch raised that is not a request exception. *)
Lemma get_todays_data_raise (s : state) (e : exn) (s' : state) :
  get_todays_data w s = (Raise e, s') ->
  e = OverflowError
  \/ exists ep a b, api w ep a b = Raise e /\ is_RequestException e = false.
Proof.
  rewrite get_todays_data_cases.
  destruct (add_days (clock w (ticks s)) (-1)) as [d1 | e1] eqn:H1.
  - destruct (add_days (clock w (2 + ticks s)) 1) as [d3 | e3] eqn:H3.
    + intros Hrun. right.
      destruct (run_plan_raise _ _ _ _ _ Hrun) as (slot & ep & a & b & _ & Hapi & He).
      exists ep, a, b. split; assumption.
    + intros H. inversion H; subst. left. exact (add_days_raise _ _ _ H3).
  - intros H. inversion H; subst. left. exact (add_days_raise _ _ _ H1).
Qed.

End FetchOutcomes.

(** X1. A payload that [get_todays_data] returns has the ten keys the
    function creates, each once and in the order of creation: storing a
    category's result replaces the initial None in place and adds no key. *)
Theorem payload_keys_are_fixed {pyfloat : Type} (w : world pyfloat) (s : state)
    (data : dict pyfloat) (s' : state) :
  get_todays_data w s = (Ok data, s') -> map fst data = payload_keys.
Proof.
  rewrite get_todays_data_cases.
  destruct (add_days (clock w (ticks s)) (-1)) as [d1 | e1]; [| discriminate].
  destruct (add_days (clock w (2 + ticks s)) 1) as [d3 | e3]; [| discriminate].
  intros Hrun. apply run_plan_keys in Hrun; [exact Hrun |].
  intros slot Hin. cbn in Hin |- *.
  repeat (destruct Hin as [<- | Hin]; [tauto |]). destruct Hin.
Qed.

Lemma midnight_run :
  get_todays_data midnight_world initial_state = (Ok midnight_payload, after_midnight_fetch).
Proof. vm_compute. reflexivity. Defined.

Lemma payload_keys_are_fixed_witness : map fst midnight_payload = payload_keys.
Proof.
  exact (payload_keys_are_fixed midnight_world initial_state midnight_payload
           after_midnight_fetch midnight_run).
Defined.

(** X2. The three dates of a call come from three separate readings of the
    clock and the time stamp from a fourth: yesterday is the first reading
    less a day, today the second reading, tomorrow the third reading plus a
    day.  Nothing makes the readings agree: when midnight passes between the
    first and the second, activity_date is two days before date and the
    activity window spans two days. *)
Theorem payload_follows_the_clock_readings {pyfloat : Type} (w : world pyfloat) (s : state)
    (data : dict pyfloat) (s' : state) :
  get_todays_data w s = (Ok data, s') ->
  exists d1 d3 : datetime,
    add_days (clock w (ticks s)) (-1) = Ok d1
    /\ add_days (clock w (2 + ticks s)) 1 = Ok d3
    /\ lookup "activity_date" data = Some (PStr (strftime_ymd d1))
    /\ lookup "date" data = Some (PStr (strftime_ymd (clock w (1 + ticks s))))
    /\ lookup "fetched_at" data = Some (PStr (isoformat (clock w (3 + ticks s))))
    /\ (requests s' =
        requests s ++ date_windows (strftime_ymd d1) (strftime_ymd (clock w (1 + ticks s)))
                        (strftime_ymd d3))%list.
Proof.
  rewrite get_todays_data_cases.
  destruct (add_days (clock w (ticks s)) (-1)) as [d1 | e1]; [| discriminate].
  destruct (add_days (clock w (2 + ticks s)) 1) as [d3 | e3]; [| discriminate].
  intros Hrun. exists d1, d3.
  assert (Hkeep : forall k, In k ["date"; "activity_date"; "fetched_at"] ->
            lookup k data =
            lookup k (@empty_payload pyfloat (strftime_ymd d1)
                        (strftime_ymd (clock w (1 + ticks s)))
                        (isoformat (clock w (3 + ticks s))))).
  { intros k Hk. apply (run_plan_other_keys w _ _ _ _ _ k Hrun).
    cbn in Hk |- *. intros Hin.
    repeat (destruct Hk as [<- | Hk];
            [repeat (destruct Hin as [Hin | Hin]; [discriminate Hin |]); exact Hin |]).
    exact Hk. }
  destruct (run_plan_state w _ _ _ _ _ Hrun) as (_ & _ & _ & _ & Hall).
  refine (conj eq_refl (conj eq_refl (conj _ (conj _ (conj _ _))))).
  - rewrite Hkeep by (cbn; tauto). reflexivity.
  - rewrite Hkeep by (cbn; tauto). reflexivity.
  - rewrite Hkeep by (cbn; tauto). reflexivity.
  - exact (Hall data eq_refl).
Qed.

Lemma payload_follows_the_clock_readings_witness :
  exists d1 d3 : datetime,
    add_days (midnight_clock 0) (-1) = Ok d1
    /\ add_days (midnight_clock 2) 1 = Ok d3
    /\ lookup "activity_date" midnight_payload = Some (PStr (strftime_ymd d1))
    /\ lookup "date" midnight_payload = Some (PStr (strftime_ymd (midnight_clock 1)))
    /\ lookup "fetched_at" midnight_payload = Some (PStr (isoformat (midnight_clock 3)))
    /\ requests after_midnight_fetch =
       date_windows (strftime_ymd d1) (strftime_ymd (midnight_clock 1)) (strftime_ymd d3).
Proof.
  exact (payload_follows_the_clock_readings midnight_world initial_state midnight_payload
           after_midnight_fetch midnight_run).
Defined.

(** X3. However a call of [get_todays_data] ends, it has only read the
    clock, between one and four times, and sent at most seven requests, none
    of them before the fourth reading; it has made no SMTP call and printed
    nothing. *)
Theorem fetch_touches_only_the_clock_and_the_api {pyfloat : Type} (w : world pyfloat)
    (s : state) :
  let s' := snd (get_todays_data w s) in
  smtp_log s' = smtp_log s /\ stdout s' = stdout s
  /\ (ticks s < ticks s' <= 4 + ticks s)%nat
  /\ exists sent, (requests s' = requests s ++ sent)%list
                  /\ (List.length sent <= 7)%nat
                  /\ (ticks s' < 4 + ticks s -> sent = [])%nat.
Proof.
  destruct (get_todays_data w s) as [r s'] eqn:Hrun. cbn [snd].
  destruct (get_todays_data_frame w s r s' Hrun) as (Hl & Ho & Ht & Hs & _).
  exact (conj Hl (conj Ho (conj Ht Hs))).
Qed.

(** X4. Only request exceptions are contained.  When a fetch raises any
    other exception, [get_todays_data] raises it: the fetches after it are
    not made and no payload is returned. *)
Theorem unexpected_exception_aborts_the_fetch {pyfloat : Type} (w : world pyfloat)
    (s : state) (d1 d3 : datetime)
    (before : list (string * (string * string * string))) (slot ep a b : string)
    (after : list (string * (string * string * string))) (e : exn) :
  add_days (clock w (ticks s)) (-1) = Ok d1 ->
  add_days (clock w (2 + ticks s)) 1 = Ok d3 ->
  fetch_plan (strftime_ymd d1) (strftime_ymd (clock w (1 + ticks s))) (strftime_ymd d3)
  = (before ++ (slot, (ep, a, b)) :: after)%list ->
  (forall slot' ep' a' b' e',
      In (slot', (ep', a', b')) before ->
      api w ep' a' b' = Raise e' -> is_RequestException e' = true) ->
  api w ep a b = Raise e ->
  is_RequestException e = false ->
  get_todays_data w s =
  (Raise e, with_requests (tick 4 s) (requests s ++ map snd before ++ [(ep, a, b)])).
Proof.
  intros H1 H3 Hplan Hbefore Hapi He.
  rewrite get_todays_data_cases, H1, H3, Hplan, run_plan_app.
  destruct (run_plan_total w before
              (@empty_payload pyfloat (strftime_ymd d1) (strftime_ymd (clock w (1 + ticks s)))
                 (isoformat (clock w (3 + ticks s)))) (tick 4 s)) as [data1 Hrun].
  { intros slot' ep' a' b' e' Hin Hraise.
    pose proof (Hbefore slot' ep' a' b' e' Hin Hraise) as Hreq.
    destruct e'; try discriminate Hreq. eexists. reflexivity. }
  rewrite Hrun. cbn [run_plan]. rewrite Hapi.
  unfold with_requests. cbn [tick ticks requests smtp_log stdout].
  rewrite <- app_assoc.
  destruct e; try reflexivity. discriminate He.
Qed.

Lemma unexpected_exception_aborts_the_fetch_witness :
  get_todays_data bad_body_world initial_state =
  (Raise (OtherException "Expecting value: line 1 column 1 (char 0)"),
   mkState 4 [ ("v2/usercollection/daily_sleep", "2025-01-01", "2025-01-02");
               ("v2/usercollection/sleep", "2025-01-01", "2025-01-02") ] [] []).
Proof.
  refine (unexpected_exception_aborts_the_fetch bad_body_world initial_state
            (mkDatetime 2024 12 31 10 0 0 0) (mkDatetime 2025 1 2 10 0 0 0)
            [("daily_sleep", ("v2/usercollection/daily_sleep", "2025-01-01", "2025-01-02"))]
            "sleep_periods" "v2/usercollection/sleep" "2025-01-01" "2025-01-02"
            _ (OtherException "Expecting value: line 1 column 1 (char 0)")
            _ _ _ _ eq_refl eq_refl).
  - vm_compute. reflexivity.
  - vm_compute. reflexivity.
  - vm_compute. reflexivity.
  - intros slot' ep' a' b' e' [Hin | []] Hraise. inversion Hin; subst.
    discriminate Hraise.
Defined.

(** X5. On the first day of [datetime]'s calendar the day before does not
    exist, on the last day the day after does not: the date arithmetic
    raises [OverflowError] and [get_todays_data] raises it before any request
    is sent. *)
Theorem fetch_overflows_at_the_ends_of_the_calendar {pyfloat : Type} (w : world pyfloat)
    (s : state) :
  date_of (clock w (ticks s)) = (1, 1, 1)
  \/ (date_of (clock w (ticks s)) = (9999, 12, 31)
      /\ date_of (clock w (2 + ticks s)) = (9999, 12, 31)) ->
  fst (get_todays_data w s) = Raise OverflowError
  /\ requests (snd (get_todays_data w s)) = requests s.
Proof.
  intros Hedge. rewrite get_todays_data_cases.
  destruct Hedge as [Hfirst | [Hlast1 Hlast3]].
  - destruct (clock w (ticks s)) as [y m d h mi se us].
    unfold date_of in Hfirst. cbn in Hfirst. inversion Hfirst; subst y m d.
    unfold add_days. cbn [dt_year dt_month dt_day].
    change ((1 <=? ymd2ord 1 1 1 + -1) && (ymd2ord 1 1 1 + -1 <=? 3652059)) with false.
    split; reflexivity.
  - destruct (clock w (ticks s)) as [y m d h mi se us].
    unfold date_of in Hlast1. cbn in Hlast1. inversion Hlast1; subst y m d.
    destruct (clock w (2 + ticks s)) as [y m d h3 mi3 se3 us3].
    unfold date_of in Hlast3. cbn in Hlast3. inversion Hlast3; subst y m d.
    unfold add_days. cbn [dt_year dt_month dt_day].
    change ((1 <=? ymd2ord 9999 12 31 + -1) && (ymd2ord 9999 12 31 + -1 <=? 3652059))
      with true.
    change (ord2ymd (ymd2ord 9999 12 31 + -1)) with (9999, 12, 30).
    change ((1 <=? ymd2ord 9999 12 31 + 1) && (ymd2ord 9999 12 31 + 1 <=? 3652059))
      with false.
    split; reflexivity.
Qed.

Lemma fetch_overflows_at_the_ends_of_the_calendar_witness :
  fst (get_todays_data first_day_world initial_state) = Raise OverflowError
  /\ requests (snd (get_todays_data first_day_world initial_state)) = [].
Proof.
  exact (fetch_overflows_at_the_ends_of_the_calendar first_day_world initial_state
           (or_introl eq_refl)).
Defined.

Lemma firstn_incl {A : Type} (n : nat) (l : list A) (x : A) :
  In x (firstn n l) -> In x l.
Proof.
  revert l. induction n as [| n IH]; intros [| y l]; cbn [firstn In]; try tauto.
  intros [H | H]; [left; exact H | right; exact (IH l H)].
Qed.



(** ** email_service.py: the sender *)

Section DeliveryOutcomes.
Context {pyfloat : Type} {L : PyLib pyfloat}.
Variable w : world pyfloat.

Lemma smtp_calls_fail (pre : list smtp_op) (op : smtp_op) (post : list smtp_op)
    (e : exn) (s : state) :
  (forall o, In o pre -> smtp w o = Ok tt) ->
  smtp w op = Raise e ->
  smtp_calls w (pre ++ op :: post) s = (Raise e, called s (pre ++ [op])).
Proof.
  intros Hpre Hop. revert s. induction pre as [| o pre IH]; intros s.
  - cbn [app smtp_calls]. unfold bind, smtp_call. rewrite Hop. reflexivity.
  - cbn [app smtp_calls]. unfold bind at 1. unfold smtp_call at 1.
    rewrite (Hpre o (or_introl eq_refl)).
    rewrite IH by (intros o' Hin; apply Hpre; right; exact Hin).
    unfold called. cbn [ticks requests smtp_log stdout].
    rewrite <- app_assoc. reflexivity.
Qed.

(** Either every call of a session goes through or there is a first one that
    does not. *)
Lemma smtp_first_failure (ops : list smtp_op) :
  (forall op, In op ops -> smtp w op = Ok tt)
  \/ exists pre op post e,
       ops = (pre ++ op :: post)%list
       /\ (forall o, In o pre -> smtp w o = Ok tt)
       /\ smtp w op = Raise e.
Proof.
  induction ops as [| op ops IH].
  - left. intros op [].
  - destruct (smtp w op) as [[] | e] eqn:Hop.
    + destruct IH as [Hall | (pre & op' & post & e & -> & Hpre & Hop')].
      * left. intros o [<- | Hin]; [exact Hop | exact (Hall o Hin)].
      * right. exists (op :: pre), op', post, e.
        split; [reflexivity |]. split; [| exact Hop'].
        intros o [<- | Hin]; [exact Hop | exact (Hpre o Hin)].
    + right. exists [], op, ops, e. split; [reflexivity |]. split; [intros o [] | exact Hop].
Qed.

Lemma send_email_sent (self : EmailService) (recipient subject body_text : string)
    (body_html : option string) (s : state) :
  (forall op,
      In op (smtp_session self recipient
               (mime_message self recipient subject body_text body_html)) ->
      smtp w op = Ok tt) ->
  send_email w self recipient subject body_text body_html s =
  (Ok true, called s (smtp_session self recipient
                        (mime_message self recipient subject body_text body_html))).
Proof.
  intros Hok. unfold send_email. unfold bind at 1.
  rewrite (smtp_calls_ok w _ s Hok). reflexivity.
Qed.

Lemma send_email_failed (self : EmailService) (recipient subject body_text : string)
    (body_html : option string) (pre : list smtp_op) (op : smtp_op) (post : list smtp_op)
    (e : exn) (s : state) :
  smtp_session self recipient (mime_message self recipient subject body_text body_html)
  = (pre ++ op :: post)%list ->
  (forall o, In o pre -> smtp w o = Ok tt) ->
  smtp w op = Raise e ->
  send_email w self recipient subject body_text body_html s =
  if is_Exception e
  then (Ok false, printed (called s (pre ++ [op])) ["Failed to send email: " ++ str_exn e])
  else (Raise e, called s (pre ++ [op])).
Proof.
  intros Hsession Hpre Hop. unfold send_email. rewrite Hsession. unfold bind at 1.
  rewrite (smtp_calls_fail pre op post e s Hpre Hop).
  destruct (is_Exception e); reflexivity.
Qed.

(** What a call of [send_email] that returns has done. *)
Lemma send_email_outcome (self : EmailService) (recipient subject body_text : string)
    (body_html : option string) (s : state) (b : bool) (s' : state) :
  send_email w self recipient subject body_text body_html s = (Ok b, s') ->
  ticks s' = ticks s /\ requests s' = requests s
  /\ exists failure,
       stdout s' = (stdout s ++ failure)%list
       /\ (b = true -> failure = [])
       /\ (b = false -> exists e, failure = ["Failed to send email: " ++ str_exn e]).
Proof.
  destruct (smtp_first_failure
              (smtp_session self recipient
                 (mime_message self recipient subject body_text body_html)))
    as [Hall | (pre & op & post & e & Hsession & Hpre & Hop)].
  - rewrite (send_email_sent _ _ _ _ _ s Hall). intros H. inversion H; subst b s'.
    refine (conj eq_refl (conj eq_refl _)). exists [].
    cbn [called stdout]. rewrite app_nil_r.
    refine (conj eq_refl (conj (fun _ => eq_refl) _)). discriminate.
  - rewrite (send_email_failed _ _ _ _ _ pre op post e s Hsession Hpre Hop).
    destruct (is_Exception e); [| discriminate].
    intros H. inversion H; subst b s'.
    refine (conj eq_refl (conj eq_refl _)). eexists.
    refine (conj eq_refl (conj _ (fun _ => ex_intro _ e eq_refl))). discriminate.
Qed.

Lemma html_head_starts : exists c rest, html_head = String c rest.
Proof. vm_compute. eexists. eexists. reflexivity. Qed.

(** [send_oura_data] formats first and sends afterwards. *)
Lemma send_oura_data_cases (self : EmailService) (recipient : string)
    (oura_data : dict pyfloat) (s : state) :
  send_oura_data w self recipient oura_data s =
  match format_oura_report oura_data with
  | Raise e => (Raise e, s)
  | Ok text =>
      send_email w self recipient (report_subject oura_data) text
                 (Some (html_head ++ text ++ html_tail)) s
  end.
Proof.
  unfold send_oura_data. unfold bind at 1. unfold lift at 1. cbn [py_get].
  unfold bind at 1. unfold lift at 1.
  destruct (format_oura_report oura_data) as [text | e] eqn:Htext; [| reflexivity].
  unfold bind at 1. unfold lift at 1. unfold format_html_report. rewrite Htext.
  reflexivity.
Qed.

(** The steps of [send_daily_report]. *)
Lemma send_daily_report_cases (cfg : config) (s : state) :
  send_daily_report w cfg s =
  match get_todays_data w (started w s) with
  | (Raise e, s1) => (Raise e, s1)
  | (Ok data, s1) =>
      match send_oura_data w (service_of cfg) (cfg_recipient_email cfg) data
              (printed s1 [sending_line cfg]) with
      | (Raise e, s2) => (Raise e, s2)
      | (Ok success, s2) =>
          (Ok success, printed (tick 1 s2) [closing_line (clock w (ticks s2)) success])
      end
  end.
Proof.
  unfold send_daily_report.
  unfold bind at 1. unfold now at 1.
  unfold bind at 1. unfold print at 1.
  unfold bind at 1. unfold print at 1.
  cbn [ticks requests smtp_log stdout].
  rewrite <- app_assoc. cbn [app].
  change (mkState (S (ticks s)) (requests s) (smtp_log s) _) with (started w s).
  unfold bind at 1.
  destruct (get_todays_data w (started w s)) as [[data | e] s1]; [| reflexivity].
  unfold bind at 1. unfold print at 1.
  change (mkState (ticks s1) (requests s1) (smtp_log s1) _)
    with (printed s1 [sending_line cfg]).
  unfold bind at 1. fold (service_of cfg).
  destruct (send_oura_data w (service_of cfg) (cfg_recipient_email cfg) data _)
    as [[success | e] s2]; [| reflexivity].
  unfold bind, now, print, ret, closing_line, printed, tick.
  cbn [ticks requests smtp_log stdout].
  destruct success; reflexivity.
Qed.

End DeliveryOutcomes.

(** X7. [send_email] stops at the first SMTP call that fails: the calls
    after it are not made (no message is sent after a refused login).  An
    [Exception] is printed behind "Failed to send email: " and turned into
    the result False; an exception outside [Exception] is raised on and
    nothing is printed. *)
Theorem send_email_stops_at_the_first_failure {pyfloat : Type} (w : world pyfloat)
    (self : EmailService) (recipient subject body_text : string) (body_html : option string)
    (pre : list smtp_op) (op : smtp_op) (post : list smtp_op) (e : exn) (s : state) :
  smtp_session self recipient (mime_message self recipient subject body_text body_html)
  = (pre ++ op :: post)%list ->
  (forall o, In o pre -> smtp w o = Ok tt) ->
  smtp w op = Raise e ->
  send_email w self recipient subject body_text body_html s =
  if is_Exception e
  then (Ok false,
        mkState (ticks s) (requests s) (smtp_log s ++ pre ++ [op])
                (stdout s ++ ["Failed to send email: " ++ str_exn e]))
  else (Raise e, mkState (ticks s) (requests s) (smtp_log s ++ pre ++ [op]) (stdout s)).
Proof.
  intros Hsession Hpre Hop.
  exact (send_email_failed w self recipient subject body_text body_html pre op post e s
           Hsession Hpre Hop).
Qed.

Lemma send_email_stops_at_the_first_failure_witness :
  send_email login_refused_world sample_service "reader@example.org" "Subject" "text" None
             initial_state =
  (Ok false,
   mkState 0 []
     [ SmtpConnect "smtp.gmail.com" 587; SmtpStartTls;
       SmtpLogin (Some "ring@example.org") (Some "secret") ]
     [ "Failed to send email: (535, b'5.7.8 Username and Password not accepted')" ]).
Proof.
  refine (send_email_stops_at_the_first_failure login_refused_world sample_service
            "reader@example.org" "Subject" "text" None
            [SmtpConnect "smtp.gmail.com" 587; SmtpStartTls]
            (SmtpLogin (Some "ring@example.org") (Some "secret"))
            _ _ initial_state eq_refl _ eq_refl).
  intros o [<- | [<- | []]]; reflexivity.
Defined.

(** X8. When the formatter returns and the server accepts the session,
    [send_oura_data] makes exactly the calls of one session and its message
    has the subject with the payload's date ("Unknown" without one), the
    report as its text part and the same report inside the HTML wrapper as
    its HTML part, which is never left out. *)
Theorem send_oura_data_sends_both_parts {pyfloat : Type} {L : PyLib pyfloat}
    (w : world pyfloat) (self : EmailService) (recipient : string)
    (oura_data : dict pyfloat) (text : string) (s : state) :
  (forall op, smtp w op = Ok tt) ->
  format_oura_report oura_data = Ok text ->
  send_oura_data w self recipient oura_data s =
  (Ok true,
   called s (smtp_session self recipient
               (mkEmail ("🌙 Oura Daily Report — " ++ py_str (payload_date oura_data))
                        (sender_email self) recipient text
                        (Some (html_head ++ text ++ html_tail))))).
Proof.
  intros Hsmtp Htext. rewrite send_oura_data_cases, Htext.
  rewrite send_email_sent by (intros op _; apply Hsmtp).
  unfold mime_message, report_subject.
  destruct html_head_starts as (c & rest & ->). reflexivity.
Qed.

Lemma send_oura_data_sends_both_parts_witness :
  send_oura_data activity_down_world sample_service "reader@example.org"
                 null_score_payload initial_state =
  (Ok true,
   mkState 0 []
     (smtp_session sample_service "reader@example.org"
        (mkEmail "🌙 Oura Daily Report — 2024-12-27" (Some "ring@example.org")
                 "reader@example.org" null_score_report
                 (Some (html_head ++ null_score_report ++ html_tail))))
     []).
Proof.
  refine (send_oura_data_sends_both_parts activity_down_world sample_service
            "reader@example.org" null_score_payload null_score_report initial_state
            (fun _ => eq_refl) _).
  vm_compute. reflexivity.
Defined.

(** X9. The report is formatted before the [try] block of [send_email] is
    entered: an exception of the formatter is not turned into the result
    False.  [send_daily_report] raises it after "Sending email to ..." is
    printed, no SMTP call is made and no closing line is printed. *)
Theorem formatter_error_aborts_the_run {pyfloat : Type} {L : PyLib pyfloat}
    (w : world pyfloat) (cfg : config) (s : state) (data : dict pyfloat) (s1 : state)
    (e : exn) :
  get_todays_data w (started w s) = (Ok data, s1) ->
  format_oura_report data = Raise e ->
  send_daily_report w cfg s =
  (Raise e, printed s1 [sending_line cfg])
  /\ smtp_log s1 = smtp_log s.
Proof.
  intros Hdata Hformat.
  rewrite send_daily_report_cases, Hdata, send_oura_data_cases, Hformat.
  split; [reflexivity |].
  destruct (get_todays_data_frame w _ _ _ Hdata) as (Hl & _). exact Hl.
Qed.

Lemma formatter_error_aborts_the_run_witness :
  fst (send_daily_report null_contributors_world sample_config initial_state)
  = Raise AttributeError
  /\ smtp_log (snd (send_daily_report null_contributors_world sample_config initial_state))
     = [].
Proof.
  edestruct (formatter_error_aborts_the_run null_contributors_world sample_config
               initial_state) as [Hrun Hlog].
  - cbv. reflexivity.
  - cbv. reflexivity.
  - rewrite Hrun. split; [reflexivity | exact Hlog].
Defined.

(** X10. A run of [send_daily_report] that returns has read the clock six
    times and sent the seven requests; it has printed the opening line with
    the first reading, "Fetching Oura data...", "Sending email to ...", the
    failure line of [send_email] exactly when the result is False, and the
    closing line with the sixth reading, which says what the result is. *)
Theorem daily_run_leaves_a_trace {pyfloat : Type} {L : PyLib pyfloat}
    (w : world pyfloat) (cfg : config) (s : state) (b : bool) (s' : state) :
  send_daily_report w cfg s = (Ok b, s') ->
  ticks s' = (6 + ticks s)%nat
  /\ (exists sent, requests s' = requests s ++ sent /\ List.length sent = 7%nat)%list
  /\ exists failure,
       (stdout s' =
        stdout s
        ++ [opening_line (clock w (ticks s)); "Fetching Oura data..."; sending_line cfg]
        ++ failure
        ++ [ closing_line (clock w (5 + ticks s)) b ])%list
       /\ (b = true -> failure = [])
       /\ (b = false -> exists e, failure = ["Failed to send email: " ++ str_exn e]).
Proof.
  rewrite send_daily_report_cases.
  destruct (get_todays_data w (started w s)) as [[data | e] s1] eqn:Hdata; [| discriminate].
  destruct (get_todays_data_frame w _ _ _ Hdata) as (_ & Ho1 & _ & _ & Hok).
  destruct (Hok data eq_refl) as (Ht1 & sent & Hr1 & Hlen). clear Hok.
  rewrite send_oura_data_cases.
  destruct (format_oura_report data) as [text | e]; [| discriminate].
  destruct (send_email w _ _ _ _ _ _) as [[success | e] s2] eqn:Hsend; [| discriminate].
  destruct (send_email_outcome w _ _ _ _ _ _ _ _ Hsend)
    as (Ht2 & Hr2 & failure & Ho2 & Htrue & Hfalse).
  intros H. inversion H; subst b s'. clear H.
  cbn [printed tick started ticks requests smtp_log stdout] in *.
  refine (conj _ (conj _ _)).
  - lia.
  - exists sent. split; [congruence | exact Hlen].
  - exists failure. refine (conj _ (conj Htrue Hfalse)).
    rewrite Ho2, Ho1.
    replace (ticks s2) with (5 + ticks s)%nat by lia.
    rewrite <- !app_assoc. reflexivity.
Qed.

Lemma daily_run_leaves_a_trace_witness :
  ticks all_down_final = 6%nat
  /\ (exists sent, requests all_down_final = sent /\ List.length sent = 7%nat)
  /\ exists failure,
       (stdout all_down_final =
        [ "[2025-01-01 10:00:00] Starting daily report...";
          "Fetching Oura data...";
          "Sending email to reader@example.org..." ]
        ++ failure
        ++ [ "[2025-01-01 10:00:00] Email sent successfully!" ])%list
       /\ (true = true -> failure = [])
       /\ (true = false -> exists e, failure = ["Failed to send email: " ++ str_exn e]).
Proof.
  refine (daily_run_leaves_a_trace all_down_world sample_config initial_state true
            all_down_final _).
  vm_compute. reflexivity.
Defined.

(** ** main.py *)



(** X12. A command other than test, now and schedule makes [main] print the
    five usage lines and return: no request is sent, no SMTP call is made
    and the clock is not read.  The configuration is loaded first also
    then. *)
Theorem unknown_command_only_prints_usage {pyfloat : Type} {L : PyLib pyfloat}
    (w : world pyfloat) (json_dumps : pyval pyfloat -> string)
    (schedule_loop : string -> M bool -> M unit) (prog command : string)
    (rest : list string) (cfg : config) (s s1 : state) :
  load_config w s = (Ok cfg, s1) ->
  ~ In command ["test"; "now"; "schedule"] ->
  main w json_dumps schedule_loop (prog :: command :: rest) s =
  (Ok tt, printed s1 (usage_lines command)).
Proof.
  intros Hcfg Hcmd. unfold main. unfold bind at 1. rewrite Hcfg.
  assert (Hne : forall c, In c ["test"; "now"; "schedule"] -> String.eqb command c = false).
  { intros c Hc. apply String.eqb_neq. intros ->. exact (Hcmd Hc). }
  rewrite !Hne by (cbn; tauto).
  unfold bind, print, printed, usage_lines. cbn [ticks requests smtp_log stdout].
  rewrite <- !app_assoc. reflexivity.
Qed.

Lemma unknown_command_only_prints_usage_witness :
  main activity_down_world no_dumps no_loop ["main.py"; "help"] initial_state =
  (Ok tt, mkState 0 [] [] (usage_lines "help")).
Proof.
  refine (unknown_command_only_prints_usage activity_down_world no_dumps no_loop
            "main.py" "help" [] default_config initial_state initial_state _ _).
  - vm_compute. reflexivity.
  - cbn. intros [H | [H | [H | []]]]; discriminate H.
Defined.

(** X13. A configuration that [load_config] returns has a token, a sender
    address and a sender password that are set and not empty; a setting that
    is not in the environment has its default (smtp.gmail.com, 587, the
    built-in recipient, 10:00), one that is set keeps its value, also an
    empty one.  Nothing is printed. *)
Theorem load_config_result {pyfloat : Type} (w : world pyfloat) (s : state)
    (cfg : config) (s' : state) :
  load_config w s = (Ok cfg, s') ->
  s' = s
  /\ (forall v, In v [cfg_oura_token cfg; cfg_sender_email cfg; cfg_sender_password cfg] ->
        exists t, v = Some t /\ t <> "")
  /\ (environ w "SMTP_SERVER" = None -> cfg_smtp_server cfg = "smtp.gmail.com")
  /\ (environ w "SMTP_PORT" = None -> cfg_smtp_port cfg = 587)
  /\ (environ w "RECIPIENT_EMAIL" = None ->
      cfg_recipient_email cfg = "cooperpenniman@gmail.com")
  /\ (environ w "SCHEDULE_TIME" = None -> cfg_schedule_time cfg = "10:00")
  /\ (forall v, environ w "SMTP_SERVER" = Some v -> cfg_smtp_server cfg = v)
  /\ (forall v, environ w "RECIPIENT_EMAIL" = Some v -> cfg_recipient_email cfg = v)
  /\ (forall v, environ w "SCHEDULE_TIME" = Some v -> cfg_schedule_time cfg = v).
Proof.
  unfold load_config. unfold bind at 1. unfold lift at 1.
  destruct (int_of_string (getenv_default (environ w) "SMTP_PORT" "587")) as [port | e]
    eqn:Hport; [| discriminate].
  unfold missing_variables.
  cbn [cfg_oura_token cfg_sender_email cfg_sender_password].
  destruct (unset_or_empty (environ w "OURA_ACCESS_TOKEN")) eqn:Htoken;
    destruct (unset_or_empty (environ w "SENDER_EMAIL")) eqn:Hsender;
    destruct (unset_or_empty (environ w "SENDER_PASSWORD")) eqn:Hpassword;
    cbn [app]; unfold bind, print, raise, ret; try discriminate.
  intros H. inversion H; subst cfg s'. clear H.
  cbn [cfg_oura_token cfg_sender_email cfg_sender_password cfg_smtp_server cfg_smtp_port
       cfg_recipient_email cfg_schedule_time].
  assert (Hset : forall name, unset_or_empty (environ w name) = false ->
                   exists t, environ w name = Some t /\ t <> "").
  { intros name Hn. destruct (environ w name) as [t |]; [| discriminate Hn].
    exists t. split; [reflexivity |]. cbn in Hn. apply String.eqb_neq. exact Hn. }
  unfold getenv_default in *.
  refine (conj eq_refl (conj _ (conj _ (conj _ (conj _ (conj _ (conj _ (conj _ _)))))))).
  - intros v [<- | [<- | [<- | []]]]; apply Hset; assumption.
  - intros ->. reflexivity.
  - intros Hnone. rewrite Hnone in Hport. vm_compute in Hport. inversion Hport. reflexivity.
  - intros ->. reflexivity.
  - intros ->. reflexivity.
  - intros v ->. reflexivity.
  - intros v ->. reflexivity.
  - intros v ->. reflexivity.
Qed.

Lemma load_config_result_witness :
  initial_state = initial_state
  /\ (forall v, In v [cfg_oura_token default_config; cfg_sender_email default_config;
                      cfg_sender_password default_config] ->
        exists t, v = Some t /\ t <> "")
  /\ (complete_env "SMTP_SERVER" = None -> cfg_smtp_server default_config = "smtp.gmail.com")
  /\ (complete_env "SMTP_PORT" = None -> cfg_smtp_port default_config = 587)
  /\ (complete_env "RECIPIENT_EMAIL" = None ->
      cfg_recipient_email default_config = "cooperpenniman@gmail.com")
  /\ (complete_env "SCHEDULE_TIME" = None -> cfg_schedule_time default_config = "10:00")
  /\ (forall v, complete_env "SMTP_SERVER" = Some v -> cfg_smtp_server default_config = v)
  /\ (forall v, complete_env "RECIPIENT_EMAIL" = Some v ->
        cfg_recipient_email default_config = v)
  /\ (forall v, complete_env "SCHEDULE_TIME" = Some v -> cfg_schedule_time default_config = v).
Proof.
  refine (load_config_result activity_down_world initial_state default_config
            initial_state _).
  vm_compute. reflexivity.
Defined.

(** ** email_service.py: the formatter *)

(** X14. The report does not tell a failed fetch from a day without
    records: a category whose slot holds the error marker is rendered as the
    same category with an empty record list, and as the empty dict; the
    reason of the failure does not appear in the report. *)
Theorem failed_category_renders_as_empty {pyfloat : Type} {L : PyLib pyfloat}
    (slot msg : string) (oura_data : dict pyfloat) :
  In slot category_slots ->
  format_oura_report (dict_set slot (error_marker msg) oura_data)
  = format_oura_report (dict_set slot (PDict [("data", PList [])]) oura_data)
  /\ format_oura_report (dict_set slot (error_marker msg) oura_data)
     = format_oura_report (dict_set slot (PDict []) oura_data).
Proof.
  intros Hslot. cbn in Hslot.
  repeat (destruct Hslot as [<- | Hslot];
          [split; unfold format_oura_report; cbv zeta; cbn [py_get rbind];
           rewrite !lookup_dict_set; cbn [String.eqb Ascii.eqb Bool.eqb]; reflexivity |]).
  destruct Hslot.
Qed.

Lemma failed_category_renders_as_empty_witness :
  format_oura_report (dict_set "daily_activity" (error_marker "429 Client Error")
                        null_score_payload)
  = format_oura_report (dict_set "daily_activity" (PDict [("data", PList [])])
                          null_score_payload)
  /\ format_oura_report (dict_set "daily_activity" (error_marker "429 Client Error")
                           null_score_payload)
     = format_oura_report (dict_set "daily_activity" (PDict []) null_score_payload).
Proof.
  refine (failed_category_renders_as_empty "daily_activity" "429 Client Error"
            null_score_payload _).
  cbn. tauto.
Defined.

(** X15. The report depends on eight keys of the payload only: the value
    stored under any other key, sleep_time and fetched_at among them, does
    not change it. *)
Theorem report_reads_eight_keys {pyfloat : Type} {L : PyLib pyfloat}
    (k : string) (v : pyval pyfloat) (oura_data : dict pyfloat) :
  ~ In k report_keys ->
  format_oura_report (dict_set k v oura_data) = format_oura_report oura_data.
Proof.
  intros Hk.
  assert (Hne : forall key, In key report_keys -> String.eqb key k = false).
  { intros key Hin. apply String.eqb_neq. intros ->. exact (Hk Hin). }
  unfold format_oura_report. cbv zeta. cbn [py_get rbind].
  rewrite !lookup_dict_set. rewrite !Hne by (cbn; tauto). reflexivity.
Qed.

Lemma report_reads_eight_keys_witness :
  format_oura_report (dict_set "sleep_time" (error_marker "timeout") null_score_payload)
  = format_oura_report null_score_payload.
Proof.
  refine (report_reads_eight_keys "sleep_time" (error_marker "timeout")
            null_score_payload _).
  cbn. intros H. repeat (destruct H as [H | H]; [discriminate H |]). exact H.
Defined.

(** X16. A payload without activity_date is reported with its date in the
    place of the activity date: the ACTIVITY and STRESS headers then show the
    date of the sleep. *)
Theorem activity_date_defaults_to_date {pyfloat : Type} {L : PyLib pyfloat}
    (oura_data : dict pyfloat) :
  lookup "activity_date" oura_data = None ->
  format_oura_report oura_data
  = format_oura_report (dict_set "activity_date" (payload_date oura_data) oura_data).
Proof.
  intros Hnone. unfold format_oura_report, payload_date. cbv zeta. cbn [py_get rbind].
  rewrite !lookup_dict_set. cbn [String.eqb Ascii.eqb Bool.eqb]. rewrite Hnone.
  reflexivity.
Qed.

Lemma activity_date_defaults_to_date_witness :
  lookup "activity_date" two_period_payload = None
  /\ format_oura_report two_period_payload = Ok two_period_report
  /\ format_oura_report (dict_set "activity_date" (PStr "2024-12-27") two_period_payload)
     = Ok two_period_report
  /\ occurs (nl ++ "ACTIVITY (Dec 27)" ++ nl) two_period_report
  /\ occurs (nl ++ "STRESS (Dec 27)" ++ nl) two_period_report.
Proof.
  assert (Hrun : format_oura_report two_period_payload = Ok two_period_report)
    by (vm_compute; reflexivity).
  refine (conj eq_refl (conj Hrun (conj _ (conj _ _)))).
  - rewrite <- Hrun. symmetry.
    exact (activity_date_defaults_to_date two_period_payload eq_refl).
  - apply (join_nth_occurs _ 32); [reflexivity | lia | cbn [List.length]; lia].
  - apply (join_nth_occurs _ 37); [reflexivity | lia | cbn [List.length]; lia].
Defined.

(** X17. [safe_get] never returns None for a path of at least one key when
    its default is not None; where the plain [get] with a default returns the
    None stored under a key, [safe_get] returns the default. *)
Theorem safe_get_replaces_none {pyfloat : Type} (default : pyval pyfloat)
    (keys : list string) (data : pyval pyfloat) :
  default <> PNone -> keys <> [] ->
  safe_get data keys default <> PNone
  /\ forall d k, lookup k d = Some PNone ->
       py_get (PDict d) k default = Ok PNone /\ safe_get (PDict d) [k] default = default.
Proof.
  intros Hdefault Hkeys. split.
  - revert data Hkeys. induction keys as [| k ks IH]; intros data Hkeys;
      [contradiction |].
    cbn [safe_get].
    destruct (match data with
              | PDict d => Some (match lookup k d with Some x => x | None => PNone end)
              | PList (PDict d0 :: _) =>
                  Some (match lookup k d0 with Some x => x | None => PNone end)
              | PList (_ :: _) => Some PNone
              | _ => None
              end) as [r |]; [| exact Hdefault].
    destruct r; try exact Hdefault;
      (destruct ks as [| k' ks']; [cbn [safe_get]; discriminate | apply IH; discriminate]).
  - intros d k Hnull. cbn [py_get safe_get]. rewrite Hnull. split; reflexivity.
Qed.

Lemma safe_get_replaces_none_witness :
  safe_get (PDict null_score_payload) ["daily_sleep"; "data"; "score"] (PStr "N/A")
  <> PNone
  /\ forall (d : dict Empty_set) k, lookup k d = Some PNone ->
       py_get (PDict d) k (PStr "N/A") = Ok PNone
       /\ safe_get (PDict d) [k] (PStr "N/A") = PStr "N/A".
Proof.
  refine (safe_get_replaces_none (PStr "N/A") ["daily_sleep"; "data"; "score"]
            (PDict null_score_payload) _ _); discriminate.
Defined.

(** X18. [format_duration] rounds an integer number of seconds down to the
    minute: the minutes it prints are between 0 and 59 and, with the hours,
    they are the whole minutes of the input.  Below one hour, and so for
    every negative input, the hours are left out: -60 seconds print as
    "59m". *)
Theorem format_duration_rounds_down {pyfloat : Type} {L : PyLib pyfloat} (s : Z) :
  exists h m : Z,
    0 <= m < 60
    /\ 3600 * h + 60 * m <= s < 3600 * h + 60 * m + 60
    /\ format_duration (PInt s) =
       Ok (if 0 <? h then str_int h ++ "h " ++ str_int m ++ "m" else str_int m ++ "m")
    /\ (s < 3600 -> format_duration (PInt s) = Ok (str_int m ++ "m"))
    /\ format_duration (PInt (-60)) = Ok "59m".
Proof.
  exists (s / 3600), ((s mod 3600) / 60).
  pose proof (Z.mod_pos_bound s 3600 ltac:(lia)) as Hmod.
  pose proof (Z.div_mod s 3600 ltac:(lia)) as Hs.
  pose proof (Z.div_mod (s mod 3600) 60 ltac:(lia)) as Hm.
  pose proof (Z.mod_pos_bound (s mod 3600) 60 ltac:(lia)) as Hm'.
  assert (Hrange : 0 <= s mod 3600 / 60 < 60).
  { split; [apply Z.div_pos; lia | apply Z.div_lt_upper_bound; lia]. }
  assert (Hrun : format_duration (PInt s) =
                 Ok (if 0 <? s / 3600
                     then str_int (s / 3600) ++ "h " ++ str_int (s mod 3600 / 60) ++ "m"
                     else str_int (s mod 3600 / 60) ++ "m")).
  { unfold format_duration. cbn [as_num rbind num_floordiv num_mod num_gt0 num_str].
    destruct (0 <? s / 3600); reflexivity. }
  refine (conj Hrange (conj _ (conj Hrun (conj _ _)))).
  - lia.
  - intros Hlt. rewrite Hrun.
    assert (Hh : s / 3600 <= 0).
    { enough (s / 3600 < 1) by lia. apply Z.div_lt_upper_bound; lia. }
    destruct (Z.ltb_spec 0 (s / 3600)); [lia | reflexivity].
  - vm_compute. reflexivity.
Qed.

(** X19. [format_duration] raises [TypeError] on a string, a list and a
    dict, and on nothing else: None gives "N/A" and a number, a boolean
    included, gives a duration. *)
Theorem format_duration_type_error {pyfloat : Type} {L : PyLib pyfloat}
    (seconds : pyval pyfloat) :
  if is_container seconds
  then format_duration seconds = Raise TypeError
  else exists text, format_duration seconds = Ok text.
Proof.
  destruct seconds as [| b | z | f | s | l | d]; cbn [is_container];
    try reflexivity; unfold format_duration;
    cbn [as_num rbind num_floordiv num_mod num_gt0 num_str].
  - eexists. reflexivity.
  - destruct (0 <? (if b then 1 else 0) / 3600); eexists; reflexivity.
  - destruct (0 <? z / 3600); eexists; reflexivity.
  - destruct (float_gt0 (float_floordiv f 3600)); eexists; reflexivity.
Qed.

Lemma year_text_ok_all (y : Z) : 1000 <= y <= 9999 -> year_text_ok y = true.
Proof.
  intros Hy.
  assert (Hall : forallb (fun n => year_text_ok (1000 + Z.of_nat n))
                         (seq 0 (Z.to_nat 9000)) = true)
    by (vm_compute; reflexivity).
  rewrite forallb_forall in Hall.
  replace y with (1000 + Z.of_nat (Z.to_nat (y - 1000))) by lia.
  apply Hall. apply in_seq. lia.
Qed.

Lemma month_day_text_ok_all (m d : Z) :
  1 <= m <= 12 -> 1 <= d <= 31 ->
  RefLib.match_month_day (list_ascii_of_string (pad2 m ++ "-" ++ pad2 d))
  = Some (m, d, []).
Proof.
  intros Hm Hd.
  assert (Hall : forallb month_day_text_ok (list_prod (seq 1 12) (seq 1 31)) = true)
    by (vm_compute; reflexivity).
  rewrite forallb_forall in Hall.
  specialize (Hall (Z.to_nat m, Z.to_nat d)).
  unfold month_day_text_ok in Hall. cbn [fst snd] in Hall.
  rewrite !Z2Nat.id in Hall by lia.
  assert (Hin : In (Z.to_nat m, Z.to_nat d) (list_prod (seq 1 12) (seq 1 31))).
  { apply in_prod; apply in_seq; lia. }
  specialize (Hall Hin).
  destruct (RefLib.match_month_day _) as [[[m' d'] [| c r]] |]; try discriminate Hall.
  apply andb_prop in Hall. destruct Hall as [Hm' Hd'].
  apply Z.eqb_eq in Hm', Hd'. subst. reflexivity.
Qed.

(** X20. The date [get_todays_data] writes with [strftime('%Y-%m-%d')] is
    read back by [format_date_short]: for every date of a year of four
    digits the header of the report shows the month's abbreviation and the
    day without a leading zero, never the raw text. *)
Theorem report_header_reads_the_client_date (y m d : Z) :
  1000 <= y -> valid_date y m d = true ->
  format_date_short (L := ref_lib) (PStr (strftime_ymd (on_date y m d)))
  = PStr (month_abbr m ++ " " ++ str_int d).
Proof.
  intros Hy Hv. pose proof Hv as Hrange. apply valid_date_iff in Hrange.
  destruct Hrange as (Hy' & Hm & Hd).
  pose proof (days_in_month_range y m) as Hdim.
  pose proof (year_text_ok_all y ltac:(lia)) as Hyear.
  pose proof (month_day_text_ok_all m d Hm ltac:(lia)) as Hmd.
  unfold year_text_ok in Hyear.
  destruct (list_ascii_of_string (pad4 y)) as [| a [| b [| c [| e [| x r]]]]] eqn:Hpad;
    try discriminate Hyear.
  apply (f_equal string_of_list_ascii) in Hpad.
  rewrite string_of_list_ascii_of_string in Hpad. cbn [string_of_list_ascii] in Hpad.
  apply andb_prop in Hyear. destruct Hyear as [Hdigits Hvalue].
  apply Z.eqb_eq in Hvalue.
  unfold format_date_short, strftime_ymd, on_date. cbn [dt_year dt_month dt_day].
  rewrite Hpad. cbn [append truthy String.eqb negb].
  change (@strptime_ymd Empty_set ref_lib) with RefLib.strptime_ymd.
  unfold RefLib.strptime_ymd. cbn [list_ascii_of_string].
  rewrite Hdigits, Hvalue.
  change (Ascii.eqb "-" "-") with true. cbn [andb].
  cbn [append] in Hmd. rewrite Hmd, Hv. reflexivity.
Qed.

Lemma report_header_reads_the_client_date_witness :
  format_date_short (L := ref_lib) (PStr "2024-02-29") = PStr "Feb 29".
Proof.
  exact (report_header_reads_the_client_date 2024 2 29 ltac:(lia) eq_refl).
Defined.

Lemma workouts_section_starts {pyfloat : Type} {L : PyLib pyfloat}
    (workout_list : pyval pyfloat) (section : string) :
  workouts_section workout_list = Ok section ->
  exists lines, section = nl ++ "WORKOUTS" ++ nl ++ lines.
Proof.
  unfold workouts_section. destruct (truthy workout_list).
  - destruct (py_iter workout_list) as [ws | e]; [| discriminate]. cbn [rbind].
    destruct (workout_lines ws) as [body | e]; [| discriminate]. cbn [rbind].
    intros H. inversion H. exists body. reflexivity.
  - intros H. inversion H. eexists. reflexivity.
Qed.

(** X21. Every report begins with the title line that carries the payload's
    date ("Unknown" without one), and the WORKOUTS header follows the body
    on a line of its own. *)
Theorem report_begins_with_the_date {pyfloat : Type} {L : PyLib pyfloat}
    (oura_data : dict pyfloat) (text : string) :
  format_oura_report oura_data = Ok text ->
  exists body workouts,
    text = "Oura Daily Report — " ++ py_str (payload_date oura_data) ++ nl
           ++ body ++ nl ++ "WORKOUTS" ++ nl ++ workouts.
Proof.
  unfold format_oura_report, payload_date. cbv zeta. cbn [py_get rbind].
  set (date := match lookup "date" oura_data with
               | Some x => x
               | None => PStr "Unknown"
               end).
  intros H.
  repeat match type of H with
         | context [rbind ?m _] =>
             let E := fresh "E" in
             destruct m eqn:E; cbn [rbind] in H; [| discriminate H]
         end.
  match goal with
  | E : workouts_section _ = Ok _ |- _ =>
      destruct (workouts_section_starts _ _ E) as [lines ->]
  end.
  match goal with
  | E : report_body _ _ _ _ _ _ _ _ _ _ _ _ = Ok _ |- _ =>
      unfold report_body in E;
      repeat match type of E with
             | context [rbind ?m _] =>
                 let E' := fresh "E" in
                 destruct m eqn:E'; cbn [rbind] in E; [| discriminate E]
             end;
      inversion E; subst; clear E
  end.
  inversion H; subst. clear H.
  unfold join. cbn [String.concat].
  rewrite !string_app_assoc.
  eexists. exists lines. reflexivity.
Qed.

Lemma report_begins_with_the_date_witness :
  exists body workouts,
    null_score_report =
    "Oura Daily Report — " ++ py_str (payload_date null_score_payload) ++ nl
    ++ body ++ nl ++ "WORKOUTS" ++ nl ++ workouts.
Proof.
  refine (report_begins_with_the_date null_score_payload null_score_report _).
  vm_compute. reflexivity.
Defined.

Lemma two_digit_text (n : Z) :
  0 <= n < 60 ->
  exists a b, pad2 n = String a (String b "") /\ RefLib.num2 a b = Some n.
Proof.
  intros Hn.
  assert (Hall : forallb two_digit_text_ok (seq 0 60) = true) by (vm_compute; reflexivity).
  rewrite forallb_forall in Hall.
  specialize (Hall (Z.to_nat n) ltac:(apply in_seq; lia)).
  unfold two_digit_text_ok in Hall. rewrite Z2Nat.id in Hall by lia.
  destruct (list_ascii_of_string (pad2 n)) as [| a [| b [| c r]]] eqn:Hpad;
    try discriminate Hall.
  apply (f_equal string_of_list_ascii) in Hpad.
  rewrite string_of_list_ascii_of_string in Hpad. cbn [string_of_list_ascii] in Hpad.
  exists a, b. split; [exact Hpad |].
  destruct (RefLib.num2 a b) as [v |]; [| discriminate Hall].
  apply Z.eqb_eq in Hall. subst v. reflexivity.
Qed.

Lemma num2_digits (a b : ascii) (n : Z) :
  RefLib.num2 a b = Some n -> is_digit a = true /\ is_digit b = true.
Proof.
  unfold RefLib.num2. destruct (is_digit a); destruct (is_digit b); cbn; intros H;
    try discriminate H. split; reflexivity.
Qed.

Lemma digit_is_not_Z (c : ascii) : is_digit c = true -> Ascii.eqb c "Z" = false.
Proof.
  destruct c as [[] [] [] [] [] [] [] []]; vm_compute; intros H;
    try reflexivity; discriminate H.
Qed.

Lemma replace_Z_other (c : ascii) (s : string) :
  Ascii.eqb c "Z" = false -> replace_Z (String c s) = String c (replace_Z s).
Proof. intros Hc. cbn [replace_Z]. rewrite Hc. reflexivity. Qed.

(** X22. [format_time] shows the wall-clock time a timestamp carries: for
    every date of a four-digit year and every time of day without a fraction
    of a second, the ISO text followed by "Z" or by an offset [+HH:MM] or
    [-HH:MM] is rendered on the 12-hour clock of its own hour and minute; the
    offset does not move the time. *)
Theorem format_time_shows_the_wall_clock (dt : datetime) :
  1000 <= dt_year dt -> valid_datetime dt = true ->
  0 <= dt_hour dt < 24 -> 0 <= dt_minute dt < 60 -> 0 <= dt_second dt < 60 ->
  dt_microsecond dt = 0 ->
  format_time (L := ref_lib) (PStr (isoformat dt ++ "Z")) = PStr (strftime_clock dt)
  /\ forall east h m, 0 <= h < 24 -> 0 <= m < 60 ->
       format_time (L := ref_lib) (PStr (isoformat dt ++ offset_text east h m))
       = PStr (strftime_clock dt).
Proof.
  intros Hy Hv Hh Hmi Hse Hus.
  destruct dt as [y m d h mi se us]. cbn [dt_year dt_hour dt_minute dt_second dt_microsecond] in *.
  subst us. unfold valid_datetime in Hv. cbn [dt_year dt_month dt_day] in Hv.
  pose proof Hv as Hrange. apply valid_date_iff in Hrange. destruct Hrange as (Hy' & Hm & Hd).
  pose proof (days_in_month_range y m) as Hdim.
  pose proof (year_text_ok_all y ltac:(lia)) as Hyear. unfold year_text_ok in Hyear.
  destruct (list_ascii_of_string (pad4 y)) as [| a [| b [| c [| e [| x r]]]]] eqn:Hpad;
    try discriminate Hyear.
  apply (f_equal string_of_list_ascii) in Hpad.
  rewrite string_of_list_ascii_of_string in Hpad. cbn [string_of_list_ascii] in Hpad.
  apply andb_prop in Hyear. destruct Hyear as [Hdigits Hvalue]. apply Z.eqb_eq in Hvalue.
  destruct (two_digit_text m ltac:(lia)) as (m1 & m2 & Hpm & Hnm).
  destruct (two_digit_text d ltac:(lia)) as (d1 & d2 & Hpd & Hnd).
  destruct (two_digit_text h ltac:(lia)) as (h1 & h2 & Hph & Hnh).
  destruct (two_digit_text mi ltac:(lia)) as (i1 & i2 & Hpi & Hni).
  destruct (two_digit_text se ltac:(lia)) as (s1 & s2 & Hps & Hns).
  assert (Hcore : forall east oh om, 0 <= oh < 24 -> 0 <= om < 60 ->
            RefLib.fromisoformat
              (isoformat (mkDatetime y m d h mi se 0) ++ offset_text east oh om)
            = Some (mkDatetime y m d h mi se 0)
            /\ replace_Z (isoformat (mkDatetime y m d h mi se 0) ++ offset_text east oh om)
               = isoformat (mkDatetime y m d h mi se 0) ++ offset_text east oh om
            /\ replace_Z (isoformat (mkDatetime y m d h mi se 0) ++ "Z")
               = isoformat (mkDatetime y m d h mi se 0) ++ offset_text true 0 0
            /\ exists ch rest, isoformat (mkDatetime y m d h mi se 0) = String ch rest).
  { intros east oh om Hoh Hom.
    destruct (two_digit_text oh ltac:(lia)) as (o1 & o2 & Hpo & Hno).
    destruct (two_digit_text om ltac:(lia)) as (p1 & p2 & Hpp & Hnp).
    unfold isoformat, datetime_str, strftime_ymd, offset_text.
    cbn [dt_year dt_month dt_day dt_hour dt_minute dt_second dt_microsecond].
    rewrite Hpad, Hpm, Hpd, Hph, Hpi, Hps, Hpo, Hpp.
    change (pad2 0) with "00". change (0 =? 0) with true. cbv iota.
    assert (Hda : is_digit a = true /\ is_digit b = true /\ is_digit c = true
                  /\ is_digit e = true).
    { pose proof Hdigits as Hall. rewrite !andb_true_iff in Hall. tauto. }
    destruct Hda as (Ha & Hb & Hc & He).
    destruct (num2_digits _ _ _ Hnm) as [Hm1 Hm2].
    destruct (num2_digits _ _ _ Hnd) as [Hd1 Hd2].
    destruct (num2_digits _ _ _ Hnh) as [Hh1 Hh2].
    destruct (num2_digits _ _ _ Hni) as [Hi1 Hi2].
    destruct (num2_digits _ _ _ Hns) as [Hs1 Hs2].
    destruct (num2_digits _ _ _ Hno) as [Ho1 Ho2].
    destruct (num2_digits _ _ _ Hnp) as [Hp1 Hp2].
    assert (Hbounds : (h <? 24) && (mi <? 60) && (se <? 60) = true
                      /\ (oh <? 24) && (om <? 60) = true).
    { rewrite !andb_true_iff, !Z.ltb_lt. lia. }
    destruct Hbounds as [Hb1 Hb2].
    split; [| split; [| split]].
    - destruct east; cbn [append]; unfold RefLib.fromisoformat;
        cbn [list_ascii_of_string]; rewrite Hdigits;
        change (Ascii.eqb "-" "-") with true; cbn [andb];
        rewrite Hnm, Hnd, Hvalue, Hv;
        unfold RefLib.parse_time; rewrite Hnh;
        change (Ascii.eqb ":" ":") with true; cbv iota; rewrite Hni; cbv iota;
        rewrite Hns;
        [ change (Ascii.eqb "+" ".") with false | change (Ascii.eqb "-" ".") with false ];
        cbv iota; rewrite Hb1; unfold RefLib.valid_offset;
        [ change (Ascii.eqb "+" "+") with true | change (Ascii.eqb "-" "-") with true;
                                                 change (Ascii.eqb "-" "+") with false ];
        change (Ascii.eqb ":" ":") with true; rewrite Hno, Hnp, Hb2; reflexivity.
    - destruct east; cbn [append];
        repeat (rewrite replace_Z_other
                  by first [apply digit_is_not_Z; assumption | reflexivity]);
        reflexivity.
    - cbn [append].
      repeat (rewrite replace_Z_other
                by first [apply digit_is_not_Z; assumption | reflexivity]).
      reflexivity.
    - eexists. eexists. reflexivity. }
  set (iso := isoformat (mkDatetime y m d h mi se 0)) in *.
  assert (Hshow : forall east oh om, 0 <= oh < 24 -> 0 <= om < 60 ->
            format_time (L := ref_lib) (PStr (iso ++ offset_text east oh om))
            = PStr (strftime_clock (mkDatetime y m d h mi se 0))).
  { intros east oh om Hoh Hom.
    destruct (Hcore east oh om Hoh Hom) as (Hparse & Hrep & _ & ch & rest & Hiso).
    unfold format_time.
    replace (truthy (PStr (iso ++ offset_text east oh om))) with true
      by (rewrite Hiso; reflexivity).
    cbn [negb]. change (@fromisoformat Empty_set ref_lib) with RefLib.fromisoformat.
    rewrite Hrep, Hparse. reflexivity. }
  split; [| exact Hshow].
  destruct (Hcore true 0 0 ltac:(lia) ltac:(lia)) as (Hparse & _ & HrepZ & ch & rest & Hiso).
  unfold format_time.
  replace (truthy (PStr (iso ++ "Z"))) with true by (rewrite Hiso; reflexivity).
  cbn [negb]. change (@fromisoformat Empty_set ref_lib) with RefLib.fromisoformat.
  rewrite HrepZ, Hparse. reflexivity.
Qed.

Lemma format_time_shows_the_wall_clock_witness :
  format_time (L := ref_lib) (PStr "2024-12-27T02:01:30Z") = PStr "2:01 AM"
  /\ forall east h m, 0 <= h < 24 -> 0 <= m < 60 ->
       format_time (L := ref_lib) (PStr ("2024-12-27T02:01:30" ++ offset_text east h m))
       = PStr "2:01 AM".
Proof.
  refine (format_time_shows_the_wall_clock (mkDatetime 2024 12 27 2 1 30 0) _ eq_refl
            _ _ _ eq_refl); cbn; lia.
Defined.

Section ShapedPayloads.
Context {pyfloat : Type} {L : PyLib pyfloat}.

Lemma format_duration_number (v : pyval pyfloat) :
  number_or_none v = true -> exists text, format_duration v = Ok text.
Proof.
  destruct v as [| b | z | f | s | l | d]; try discriminate; intros _;
    unfold format_duration; cbn [as_num rbind num_floordiv num_mod num_gt0 num_str].
  - eexists. reflexivity.
  - destruct (0 <? (if b then 1 else 0) / 3600); eexists; reflexivity.
  - destruct (0 <? z / 3600); eexists; reflexivity.
  - destruct (float_gt0 (float_floordiv f 3600)); eexists; reflexivity.
Qed.

Lemma numbers_field (keys : list string) (d : dict pyfloat) (k : string) :
  numbers keys d = true -> In k keys -> field number_or_none k d = true.
Proof.
  unfold numbers. rewrite forallb_forall. intros Hall Hin. exact (Hall k Hin).
Qed.

Lemma duration_field_number (d : dict pyfloat) (k : string) :
  field number_or_none k d = true -> exists text, duration_field (PDict d) k = Ok text.
Proof.
  unfold field, duration_field. cbn [py_get rbind].
  destruct (lookup k d) as [v |]; [apply format_duration_number |].
  intros _. eexists. reflexivity.
Qed.

(** The first record of a slot of the shape, with the record's check. *)
Lemma first_record_shaped (record_ok : dict pyfloat -> bool) (slot : string)
    (oura_data : dict pyfloat) :
  record_ok [] = true ->
  records record_ok slot oura_data = true ->
  exists r,
    first_record (match lookup slot oura_data with Some x => x | None => PDict [] end)
    = Ok (PDict r)
    /\ record_ok r = true.
Proof.
  intros Hempty. unfold records.
  destruct (lookup slot oura_data) as [[| | | | | | sd] |]; try discriminate.
  - unfold first_record. cbn [py_get rbind].
    destruct (lookup "data" sd) as [[| | | | | l |] |]; try discriminate.
    + intros _. exists []. split; [reflexivity | exact Hempty].
    + destruct l as [| [| | | | | | r] l]; cbn [forallb truthy rbind py_index0];
        try discriminate.
      * intros _. exists []. split; [reflexivity | exact Hempty].
      * intros H. apply andb_prop in H. exists r. split; [reflexivity | exact (proj1 H)].
    + intros _. exists []. split; [reflexivity | exact Hempty].
  - intros _. exists []. split; [reflexivity | exact Hempty].
Qed.

Lemma find_long_sleep_shaped (record_ok : dict pyfloat -> bool) (l : list (pyval pyfloat)) :
  forallb (fun r => match r with PDict d => record_ok d | _ => false end) l = true ->
  find_long_sleep l = Ok None
  \/ exists p, find_long_sleep l = Ok (Some (PDict p)) /\ record_ok p = true.
Proof.
  induction l as [| [| | | | | | r] l IH]; cbn [forallb find_long_sleep]; try discriminate.
  - intros _. left. reflexivity.
  - intros H. apply andb_prop in H. destruct H as [Hr Hl].
    cbn [py_get rbind]. destruct (py_eq_str _ "long_sleep").
    + right. exists r. split; [reflexivity | exact Hr].
    + exact (IH Hl).
Qed.

Lemma select_period_shaped (oura_data : dict pyfloat) :
  records period_record "sleep_periods" oura_data = true ->
  exists p,
    select_period (match lookup "sleep_periods" oura_data with
                   | Some x => x
                   | None => PDict []
                   end) = Ok (PDict p)
    /\ period_record p = true.
Proof.
  unfold records.
  destruct (lookup "sleep_periods" oura_data) as [[| | | | | | sd] |]; try discriminate.
  - destruct (lookup "data" sd) as [[| | | | | l |] |] eqn:Hdata; try discriminate.
    + intros _. exists []. unfold select_period. cbn [py_get rbind]. rewrite Hdata.
      split; reflexivity.
    + intros Hl. rewrite (select_period_of_list sd l Hdata).
      destruct l as [| first rest]; [exists []; split; reflexivity |].
      destruct (find_long_sleep_shaped period_record _ Hl)
        as [-> | (p & -> & Hp)]; cbn [rbind truthy negb].
      * cbn [forallb] in Hl. apply andb_prop in Hl. destruct Hl as [Hfirst _].
        destruct first as [| | | | | | r]; try discriminate Hfirst.
        exists r. split; [reflexivity | exact Hfirst].
      * destruct p as [| kv p'].
        -- cbn [forallb] in Hl. apply andb_prop in Hl. destruct Hl as [Hfirst _].
           destruct first as [| | | | | | r]; try discriminate Hfirst.
           exists r. split; [reflexivity | exact Hfirst].
        -- exists (kv :: p'). split; [reflexivity | exact Hp].
    + intros _. exists []. unfold select_period. cbn [py_get rbind]. rewrite Hdata.
      split; reflexivity.
  - intros _. exists []. split; reflexivity.
Qed.

Lemma period_details_shaped (p : dict pyfloat) :
  period_record p = true -> exists view, period_details (PDict p) = Ok view.
Proof.
  intros Hp. unfold period_record in Hp.
  destruct (duration_field_number p "time_in_bed"
              (numbers_field _ _ "time_in_bed" Hp ltac:(cbn; tauto))) as [t1 H1].
  destruct (duration_field_number p "total_sleep_duration"
              (numbers_field _ _ "total_sleep_duration" Hp ltac:(cbn; tauto))) as [t2 H2].
  destruct (duration_field_number p "deep_sleep_duration"
              (numbers_field _ _ "deep_sleep_duration" Hp ltac:(cbn; tauto))) as [t3 H3].
  destruct (duration_field_number p "rem_sleep_duration"
              (numbers_field _ _ "rem_sleep_duration" Hp ltac:(cbn; tauto))) as [t4 H4].
  destruct (duration_field_number p "light_sleep_duration"
              (numbers_field _ _ "light_sleep_duration" Hp ltac:(cbn; tauto))) as [t5 H5].
  pose proof (numbers_field _ _ "latency" Hp ltac:(cbn; tauto)) as Hlat.
  unfold period_details. rewrite H1, H2, H3, H4, H5. cbn [py_get rbind].
  unfold field in Hlat.
  destruct (lookup "latency" p) as [[| b | z | f | s | l | d] |]; try discriminate Hlat;
    cbn [truthy as_num rbind].
  - eexists. reflexivity.
  - destruct b; eexists; reflexivity.
  - destruct (negb (z =? 0)); eexists; reflexivity.
  - destruct (float_nonzero f); eexists; reflexivity.
  - eexists. reflexivity.
Qed.

Lemma temp_deviation_shaped (r : dict pyfloat) :
  field temperature_ok "temperature_deviation" r = true ->
  exists v, temp_deviation (PDict r) = Ok v.
Proof.
  unfold field, temp_deviation. cbn [py_get rbind].
  destruct (lookup "temperature_deviation" r) as [[| b | z | f | s | l | d] |];
    cbn [temperature_ok as_num rbind fmt_plus_2f]; try (intros _; eexists; reflexivity).
  - destruct (float_of_int (if b then 1 else 0)); [| discriminate].
    intros _. eexists. reflexivity.
  - destruct (float_of_int z); [| discriminate]. intros _. eexists. reflexivity.
Qed.

Lemma activity_details_shaped (r : dict pyfloat) :
  activity_record r = true -> exists view, activity_details (PDict r) = Ok view.
Proof.
  intros Hr. unfold activity_record in Hr.
  destruct (duration_field_number r "low_activity_time"
              (numbers_field _ _ "low_activity_time" Hr ltac:(cbn; tauto))) as [t1 H1].
  destruct (duration_field_number r "medium_activity_time"
              (numbers_field _ _ "medium_activity_time" Hr ltac:(cbn; tauto))) as [t2 H2].
  destruct (duration_field_number r "high_activity_time"
              (numbers_field _ _ "high_activity_time" Hr ltac:(cbn; tauto))) as [t3 H3].
  unfold activity_details. cbn [py_get rbind]. rewrite H1, H2, H3.
  eexists. reflexivity.
Qed.

Lemma guarded_duration_number (v : pyval pyfloat) :
  number_or_none v = true ->
  exists text, (if truthy v then format_duration v else Ok "0m") = Ok text.
Proof.
  intros Hv. destruct (truthy v); [exact (format_duration_number v Hv) |].
  eexists. reflexivity.
Qed.

Lemma stress_details_shaped (r : dict pyfloat) :
  stress_record r = true -> exists view, stress_details (PDict r) = Ok view.
Proof.
  intros Hr. unfold stress_record in Hr.
  pose proof (numbers_field _ _ "recovery_high" Hr ltac:(cbn; tauto)) as H1.
  pose proof (numbers_field _ _ "stress_high" Hr ltac:(cbn; tauto)) as H2.
  unfold field in H1, H2. unfold stress_details. cbn [py_get rbind].
  assert (Hrec : number_or_none (match lookup "recovery_high" r with
                                 | Some x => x
                                 | None => PInt 0
                                 end) = true)
    by (destruct (lookup "recovery_high" r); [exact H1 | reflexivity]).
  assert (Hstr : number_or_none (match lookup "stress_high" r with
                                 | Some x => x
                                 | None => PInt 0
                                 end) = true)
    by (destruct (lookup "stress_high" r); [exact H2 | reflexivity]).
  destruct (guarded_duration_number _ Hrec) as [t1 ->].
  destruct (guarded_duration_number _ Hstr) as [t2 ->].
  eexists. reflexivity.
Qed.

Lemma contributors_shaped (r : dict pyfloat) :
  field is_dict "contributors" r = true ->
  exists c, match lookup "contributors" r with
            | Some x => x
            | None => PDict []
            end = PDict c.
Proof.
  unfold field. destruct (lookup "contributors" r) as [[| | | | | | c] |];
    try discriminate; intros _; eexists; reflexivity.
Qed.

Lemma workout_lines_shaped (ws : list (pyval pyfloat)) :
  forallb (fun r => match r with PDict d => workout_record d | _ => false end) ws = true ->
  exists text, workout_lines ws = Ok text.
Proof.
  induction ws as [| [| | | | | | d] ws IH]; cbn [forallb workout_lines]; try discriminate.
  - intros _. eexists. reflexivity.
  - intros H. apply andb_prop in H. destruct H as [Hd Hws].
    destruct (IH Hws) as [more Hmore].
    destruct (duration_field_number d "duration"
              (numbers_field _ _ "duration" Hd ltac:(cbn; tauto))) as [t Ht].
    cbn [py_get rbind]. rewrite Ht, Hmore. eexists. reflexivity.
Qed.

Lemma workouts_shaped (oura_data : dict pyfloat) :
  records workout_record "workouts" oura_data = true ->
  exists workout_list section,
    (let workouts := match lookup "workouts" oura_data with
                     | Some x => x
                     | None => PDict []
                     end in
     if truthy workouts then py_get workouts "data" (PList []) else Ok (PList []))
    = Ok workout_list
    /\ workouts_section workout_list = Ok section.
Proof.
  unfold records. cbv zeta.
  destruct (lookup "workouts" oura_data) as [[| | | | | | sd] |]; try discriminate.
  - cbn [py_get].
    assert (Hlist : forall l : list (pyval pyfloat),
              forallb (fun r => match r with PDict d => workout_record d | _ => false end) l
              = true ->
              exists section, workouts_section (PList l) = Ok section).
    { intros l Hl. unfold workouts_section. destruct (truthy (PList l)).
      - cbn [py_iter rbind]. destruct (workout_lines_shaped l Hl) as [body ->].
        eexists. reflexivity.
      - eexists. reflexivity. }
    destruct (lookup "data" sd) as [[| | | | | l |] |]; try discriminate; intros Hl.
    + destruct (truthy (PDict sd)).
      * exists PNone. eexists. split; reflexivity.
      * exists (PList []). eexists. split; reflexivity.
    + destruct (Hlist l Hl) as [section Hsection].
      destruct (truthy (PDict sd)).
      * exists (PList l), section. split; [reflexivity | exact Hsection].
      * exists (PList []). eexists. split; reflexivity.
    + exists (PList []). eexists. destruct (truthy (PDict sd)); split; reflexivity.
  - intros _. exists (PList []). eexists. split; reflexivity.
Qed.

End ShapedPayloads.

(** X23. The formatter returns a report, and raises nothing, for every
    payload of the shape it is made for: each category slot absent, or a dict
    whose "data" is absent, null or a list of records, the durations of the
    records numbers or null, their contributors a dict when present, an
    integer temperature deviation within the range of float.  The slots of a
    failed fetch have this shape; fields that are absent or hold text or null
    do not matter. *)
Theorem shaped_payload_is_reported {pyfloat : Type} {L : PyLib pyfloat}
    (oura_data : dict pyfloat) :
  api_shaped oura_data = true -> exists text, format_oura_report oura_data = Ok text.
Proof.
  unfold api_shaped. rewrite !andb_true_iff.
  intros (((((Hsleep & Hperiods) & Hactivity) & Hreadiness) & Hstress) & Hworkouts).
  destruct (first_record_shaped sleep_record "daily_sleep" oura_data eq_refl Hsleep)
    as (sleep & Esleep & Hsleep').
  destruct (select_period_shaped oura_data Hperiods) as (period & Eperiod & Hperiod').
  destruct (first_record_shaped activity_record "daily_activity" oura_data eq_refl Hactivity)
    as (activity & Eactivity & Hactivity').
  destruct (first_record_shaped readiness_record "daily_readiness" oura_data eq_refl
              Hreadiness) as (readiness & Ereadiness & Hreadiness').
  destruct (first_record_shaped stress_record "daily_stress" oura_data eq_refl Hstress)
    as (stress & Estress & Hstress').
  destruct (workouts_shaped oura_data Hworkouts) as (workout_list & section & Elist & Esection).
  cbv zeta in Elist.
  unfold readiness_record in Hreadiness'. apply andb_prop in Hreadiness'.
  destruct Hreadiness' as [Hcontrib Htemp].
  destruct (contributors_shaped sleep Hsleep') as [sc Esc].
  destruct (contributors_shaped readiness Hcontrib) as [rc Erc].
  destruct (period_details_shaped period Hperiod') as [pv Epv].
  destruct (temp_deviation_shaped readiness Htemp) as [tv Etv].
  destruct (activity_details_shaped activity Hactivity') as [av Eav].
  destruct (stress_details_shaped stress Hstress') as [sv Esv].
  unfold format_oura_report. cbv zeta. cbn [py_get rbind].
  rewrite Esleep. cbn [rbind]. rewrite Eperiod. cbn [rbind].
  rewrite Eactivity. cbn [rbind]. rewrite Ereadiness. cbn [rbind].
  rewrite Estress. cbn [rbind]. rewrite Elist. cbn [py_get rbind].
  rewrite Esc, Erc, Epv. cbn [rbind]. rewrite Etv. cbn [rbind].
  rewrite Eav. cbn [rbind]. rewrite Esv. cbn [rbind].
  unfold report_body. cbn [py_get rbind]. rewrite Esection. cbn [rbind].
  eexists. reflexivity.
Qed.

Lemma shaped_payload_is_reported_witness :
  exists text, format_oura_report null_score_payload = Ok text.
Proof.
  exact (shaped_payload_is_reported null_score_payload eq_refl).
Defined.

(** ** main.py: the commands *)

(** X24. Without a command, and with the command schedule, [main] prints
    the banner and hands the scheduler the configured time of day and the
    job [send_daily_report] of the loaded configuration: before the loop
    starts no request is sent and no mail goes out. *)
Theorem scheduler_is_handed_the_daily_report {pyfloat : Type} {L : PyLib pyfloat}
    (w : world pyfloat) (json_dumps : pyval pyfloat -> string)
    (schedule_loop : string -> M bool -> M unit) (prog : string) (rest : list string)
    (cfg : config) (s s1 : state) :
  load_config w s = (Ok cfg, s1) ->
  main w json_dumps schedule_loop [prog] s
  = schedule_loop (cfg_schedule_time cfg) (send_daily_report w cfg) (printed s1 (banner cfg))
  /\ main w json_dumps schedule_loop (prog :: "schedule" :: rest) s
     = schedule_loop (cfg_schedule_time cfg) (send_daily_report w cfg)
         (printed s1 (banner cfg)).
Proof.
  intros Hcfg.
  assert (Hrun : run_scheduler w schedule_loop cfg s1
                 = schedule_loop (cfg_schedule_time cfg) (send_daily_report w cfg)
                     (printed s1 (banner cfg))).
  { unfold run_scheduler, bind, print, printed, banner.
    cbn [ticks requests smtp_log stdout]. rewrite <- !app_assoc. reflexivity. }
  split; unfold main; unfold bind at 1; rewrite Hcfg; exact Hrun.
Qed.

Lemma scheduler_is_handed_the_daily_report_witness :
  main activity_down_world no_dumps no_loop ["main.py"] initial_state
  = (Ok tt, mkState 0 [] [] (banner default_config))
  /\ main activity_down_world no_dumps no_loop ["main.py"; "schedule"] initial_state
     = (Ok tt, mkState 0 [] [] (banner default_config)).
Proof.
  refine (scheduler_is_handed_the_daily_report activity_down_world no_dumps no_loop
            "main.py" [] default_config initial_state initial_state _).
  vm_compute. reflexivity.
Defined.

(** X25. [main] does not look at what the command returns: after now and
    after test it ends normally whether the report was delivered, or the
    connection made, or not; only an exception the command raises ends it
    otherwise. *)
Theorem command_result_is_discarded {pyfloat : Type} {L : PyLib pyfloat}
    (w : world pyfloat) (json_dumps : pyval pyfloat -> string)
    (schedule_loop : string -> M bool -> M unit) (prog : string) (rest : list string)
    (cfg : config) (s s1 : state) :
  load_config w s = (Ok cfg, s1) ->
  main w json_dumps schedule_loop (prog :: "now" :: rest) s
  = discard (send_daily_report w cfg s1)
  /\ main w json_dumps schedule_loop (prog :: "test" :: rest) s
     = discard (test_oura_connection w json_dumps cfg s1).
Proof.
  intros Hcfg.
  split; unfold main; unfold bind at 1; rewrite Hcfg;
    cbn [String.eqb Ascii.eqb Bool.eqb]; unfold bind, run_once, ret, discard.
  - destruct (send_daily_report w cfg s1) as [[b | e] s2]; reflexivity.
  - destruct (test_oura_connection w json_dumps cfg s1) as [[b | e] s2]; reflexivity.
Qed.

Lemma command_result_is_discarded_witness :
  send_daily_report login_refused_world default_config initial_state
  = (Ok false, login_refused_final)
  /\ main login_refused_world no_dumps no_loop ["main.py"; "now"] initial_state
     = (Ok tt, login_refused_final).
Proof.
  assert (Hrun : send_daily_report login_refused_world default_config initial_state
                 = (Ok false, login_refused_final)) by (vm_compute; reflexivity).
  split; [exact Hrun |].
  rewrite (proj1 (command_result_is_discarded login_refused_world no_dumps no_loop
                    "main.py" [] default_config initial_state initial_state
                    ltac:(vm_compute; reflexivity))).
  rewrite Hrun. reflexivity.
Defined.

(** * The scheduler *)

Section SchedulerFacts.
Context {pyfloat : Type} {L : PyLib pyfloat}.
Variable w : world pyfloat.

Lemma is_digit_value (c : ascii) : is_digit c = true -> 0 <= digit_value c <= 9.
Proof.
  unfold is_digit, digit_value. intros H. apply andb_prop in H. destruct H as [H1 H2].
  apply Nat.leb_le in H1, H2. lia.
Qed.

Lemma at_fields_range (h1 h2 m1 m2 s1 s2 : ascii) (t : at_time) :
  at_fields h1 h2 m1 m2 s1 s2 = Ok t ->
  0 <= at_hour t < 24 /\ 0 <= at_minute t < 60 /\ 0 <= at_second t < 60.
Proof.
  unfold at_fields.
  destruct (is_digit h1 && (digit_value h1 <=? 2) && is_digit h2
            && is_digit m1 && (digit_value m1 <=? 5) && is_digit m2
            && is_digit s1 && (digit_value s1 <=? 5) && is_digit s2) eqn:Hd;
    [| discriminate].
  rewrite !andb_true_iff in Hd.
  destruct Hd as [[[[[[[[H1 H1'] H2] H3] H3'] H4] H5] H5'] H6].
  apply is_digit_value in H1, H2, H3, H4, H5, H6.
  apply Z.leb_le in H1', H3', H5'.
  destruct (Z.leb_spec (10 * digit_value h1 + digit_value h2) 23) as [Hh | Hh];
    [| discriminate].
  intros H. apply (f_equal (fun r => match r with Ok x => x | Raise _ => t end)) in H.
  cbv beta iota in H. subst t. cbn [at_hour at_minute at_second]. lia.
Qed.

Lemma parse_at_range (time_str : string) (t : at_time) :
  parse_at time_str = Ok t ->
  0 <= at_hour t < 24 /\ 0 <= at_minute t < 60 /\ 0 <= at_second t < 60.
Proof.
  unfold parse_at.
  destruct (without_final_newline (list_ascii_of_string time_str))
    as [| h1 [| h2 [| c1 [| m1 [| m2 [| c2 [| s1 [| s2 [| x r]]]]]]]]];
    try discriminate.
  - destruct (Ascii.eqb c1 ":"); [apply at_fields_range | discriminate].
  - destruct (Ascii.eqb c1 ":" && Ascii.eqb c2 ":"); [apply at_fields_range | discriminate].
Qed.

Lemma at_us_range (t : at_time) :
  0 <= at_hour t < 24 /\ 0 <= at_minute t < 60 /\ 0 <= at_second t < 60 ->
  0 <= at_us t < day_us.
Proof. unfold at_us, time_us, day_us. lia. Qed.

Lemma time_of_range (dt : datetime) : valid_time dt = true -> 0 <= time_of dt < day_us.
Proof.
  unfold valid_time, time_of, time_us, day_us. rewrite !andb_true_iff.
  rewrite !Z.leb_le, !Z.ltb_lt. lia.
Qed.

Lemma timestamp_day_after (dt : datetime) :
  valid_datetime dt = true -> date_of dt <> (9999, 12, 31) ->
  add_days dt 1 = Ok (day_after dt)
  /\ timestamp (day_after dt) = timestamp dt + day_us
  /\ time_of (day_after dt) = time_of dt.
Proof.
  intros Hv Hlast. unfold date_of in Hlast.
  destruct (ymd2ord_day_after dt Hv Hlast) as [_ Hord].
  assert (Htime : time_of (day_after dt) = time_of dt).
  { unfold day_after, time_of.
    destruct (dt_day dt <? days_in_month (dt_year dt) (dt_month dt));
      [| destruct (dt_month dt <? 12)]; reflexivity. }
  refine (conj (add_days_plus_one dt Hv Hlast) (conj _ Htime)).
  unfold timestamp, toordinal. rewrite Hord, Htime. unfold day_us. lia.
Qed.

(** The next run is the next moment the time of day comes. *)
Lemma schedule_next_run_next (t : at_time) (s : state) :
  0 <= at_us t < day_us ->
  valid_datetime (clock w (ticks s)) = true ->
  valid_time (clock w (ticks s)) = true ->
  date_of (clock w (ticks s)) <> (9999, 12, 31) ->
  exists next : datetime,
    schedule_next_run w t s = (Ok next, tick 1 s)
    /\ time_of next = at_us t
    /\ timestamp (clock w (ticks s)) < timestamp next <= timestamp (clock w (ticks s)) + day_us.
Proof.
  intros Ht Hv Hvt Hlast.
  pose proof (time_of_range _ Hvt) as Hn.
  set (n := clock w (ticks s)) in *.
  assert (Hm : timestamp (move_to_at_time t n) = toordinal n * day_us + at_us t)
    by reflexivity.
  unfold schedule_next_run, bind, now. fold n.
  change (mkState (S (ticks s)) (requests s) (smtp_log s) (stdout s)) with (tick 1 s).
  destruct (Z.leb_spec (timestamp (move_to_at_time t n)) (timestamp n)) as [Hle | Hgt].
  - destruct (timestamp_day_after (move_to_at_time t n) Hv Hlast) as (Hadd & Hts & Htime).
    exists (day_after (move_to_at_time t n)). unfold lift. rewrite Hadd.
    split; [reflexivity |]. split; [rewrite Htime; reflexivity |].
    rewrite Hts. unfold timestamp in *. lia.
  - exists (move_to_at_time t n). split; [reflexivity |]. split; [reflexivity |].
    rewrite Hm in *. unfold timestamp in *. lia.
Qed.

Lemma tick_tick (n m : nat) (s : state) : tick n (tick m s) = tick (n + m) s.
Proof. unfold tick. cbn [ticks requests smtp_log stdout]. f_equal. lia. Qed.

Lemma send_daily_report_ticks (cfg : config) (s : state) (b : bool) (s1 : state) :
  send_daily_report w cfg s = (Ok b, s1) -> ticks s1 = (6 + ticks s)%nat.
Proof.
  rewrite send_daily_report_cases.
  destruct (get_todays_data w (started w s)) as [[data | e] s2] eqn:Hfetch; [| discriminate].
  destruct (get_todays_data_frame w _ _ _ Hfetch) as (_ & _ & _ & _ & Hok).
  destruct (Hok data eq_refl) as [Hticks _].
  rewrite send_oura_data_cases.
  destruct (format_oura_report data) as [text | e]; [| discriminate].
  destruct (send_email w _ _ _ _ _ _) as [[b' | e] s3] eqn:Hsend; [| discriminate].
  destruct (send_email_outcome w _ _ _ _ _ _ _ _ Hsend) as [Ht _].
  intros H. inversion H; subst.
  cbn [printed tick ticks] in *. rewrite Ht, Hticks. cbn [started ticks]. lia.
Qed.

Lemma run_scheduler_banner (schedule_loop : string -> M bool -> M unit) (cfg : config)
    (s : state) :
  run_scheduler w schedule_loop cfg s
  = schedule_loop (cfg_schedule_time cfg) (send_daily_report w cfg) (printed s (banner cfg)).
Proof.
  unfold run_scheduler, bind, print, printed, banner.
  cbn [ticks requests smtp_log stdout]. rewrite <- !app_assoc. reflexivity.
Qed.

Lemma run_pending_loop_idle_step (fuel : nat) (t : at_time) (trigger : datetime)
    (job : M bool) (s : state) :
  timestamp (clock w (ticks s)) < timestamp trigger ->
  run_pending_loop w (S fuel) t trigger job s
  = run_pending_loop w fuel t trigger job (tick 1 s).
Proof.
  intros H. cbn [run_pending_loop]. unfold bind at 1. unfold now at 1.
  destruct (Z.leb_spec (timestamp trigger) (timestamp (clock w (ticks s)))); [lia |].
  reflexivity.
Qed.

Lemma run_pending_loop_fire_step (fuel : nat) (t : at_time) (trigger : datetime)
    (job : M bool) (s : state) :
  timestamp trigger <= timestamp (clock w (ticks s)) ->
  run_pending_loop w (S fuel) t trigger job s =
  match job (tick 2 s) with
  | (Raise e, s1) => (Raise e, s1)
  | (Ok _, s1) =>
      match schedule_next_run w t (tick 1 s1) with
      | (Ok next, s2) => run_pending_loop w fuel t next job s2
      | (Raise e, s2) => (Raise e, s2)
      end
  end.
Proof.
  intros H. cbn [run_pending_loop]. unfold bind at 1. unfold now at 1.
  destruct (Z.leb_spec (timestamp trigger) (timestamp (clock w (ticks s)))); [| lia].
  unfold bind at 1. unfold now at 1. unfold bind at 1.
  change (mkState (S (ticks (mkState (S (ticks s)) (requests s) (smtp_log s) (stdout s))))
            (requests (mkState (S (ticks s)) (requests s) (smtp_log s) (stdout s)))
            (smtp_log (mkState (S (ticks s)) (requests s) (smtp_log s) (stdout s)))
            (stdout (mkState (S (ticks s)) (requests s) (smtp_log s) (stdout s))))
    with (tick 2 s).
  destruct (job (tick 2 s)) as [[b | e] s1]; [| reflexivity].
  unfold bind at 1. unfold now at 1. unfold bind at 1.
  change (mkState (S (ticks s1)) (requests s1) (smtp_log s1) (stdout s1)) with (tick 1 s1).
  destruct (schedule_next_run w t (tick 1 s1)) as [[next | e] s2]; reflexivity.
Qed.

Lemma run_pending_loop_idle (fuel : nat) (t : at_time) (trigger : datetime)
    (job : M bool) (s : state) :
  (forall j, (j < fuel)%nat -> timestamp (clock w (j + ticks s)) < timestamp trigger) ->
  run_pending_loop w fuel t trigger job s = (Ok tt, tick fuel s).
Proof.
  revert s. induction fuel as [| fuel IH]; intros s Hidle.
  - destruct s; reflexivity.
  - rewrite run_pending_loop_idle_step by exact (Hidle 0%nat ltac:(lia)).
    rewrite IH.
    + rewrite tick_tick. f_equal. f_equal. lia.
    + intros j Hj. cbn [tick ticks].
      replace (j + (1 + ticks s))%nat with (S j + ticks s)%nat by lia.
      apply Hidle. lia.
Qed.

Section Fire.
Variable cfg : config.
Variable t : at_time.
Hypothesis Ht : 0 <= at_us t < day_us.
Hypothesis Hclock : forall i, valid_datetime (clock w i) = true
                              /\ valid_time (clock w i) = true
                              /\ date_of (clock w i) <> (9999, 12, 31).
Hypothesis Hmono : forall i j, (i <= j)%nat -> timestamp (clock w i) <= timestamp (clock w j).

Lemma run_pending_loop_fire (fuel k : nat) (trigger : datetime) (s : state)
    (r : result bool) (s1 : state) :
  (k < fuel)%nat ->
  time_of trigger = at_us t ->
  (forall j, (j < k)%nat -> timestamp (clock w (j + ticks s)) < timestamp trigger) ->
  timestamp trigger <= timestamp (clock w (k + ticks s)) ->
  send_daily_report w cfg (tick (k + 2) s) = (r, s1) ->
  match r with
  | Raise e =>
      run_pending_loop w fuel t trigger (send_daily_report w cfg) s = (Raise e, s1)
  | Ok delivered =>
      exists next : datetime,
        run_pending_loop w fuel t trigger (send_daily_report w cfg) s
        = run_pending_loop w (fuel - S k) t next (send_daily_report w cfg) (tick 2 s1)
        /\ time_of next = at_us t
        /\ timestamp (clock w (S (ticks s1))) < timestamp next
        /\ (timestamp (clock w (S (ticks s1))) < timestamp trigger + day_us ->
            timestamp next = timestamp trigger + day_us)
  end.
Proof.
  revert fuel s. induction k as [| k IH]; intros fuel s Hk Htime Hidle Hdue Hjob.
  - destruct fuel as [| fuel]; [lia |].
    cbn [Nat.add] in Hdue, Hjob.
    rewrite (run_pending_loop_fire_step fuel t trigger _ s Hdue), Hjob.
    destruct r as [delivered | e]; [| reflexivity].
    pose proof (send_daily_report_ticks cfg _ _ _ Hjob) as Hticks.
    cbn [tick ticks] in Hticks.
    destruct (Hclock (ticks (tick 1 s1))) as (Hv & Hvt & Hlast).
    destruct (schedule_next_run_next t (tick 1 s1) Ht Hv Hvt Hlast)
      as (next & Hnext & Hat & Hlo & Hhi).
    rewrite Hnext. exists next. cbn [tick ticks Nat.add] in Hlo, Hhi.
    rewrite tick_tick. cbn [Nat.add Nat.sub].
    replace (fuel - 0)%nat with fuel by lia.
    refine (conj eq_refl (conj Hat (conj Hlo _))).
    intros Hwindow.
    pose proof (Hmono (ticks s) (S (ticks s1)) ltac:(lia)) as Hafter.
    unfold timestamp in *. rewrite Hat, Htime in *. unfold day_us in *. lia.
  - destruct fuel as [| fuel]; [lia |].
    rewrite run_pending_loop_idle_step by exact (Hidle 0%nat ltac:(lia)).
    assert (Hjob' : send_daily_report w cfg (tick (k + 2) (tick 1 s)) = (r, s1)).
    { rewrite tick_tick. replace (k + 2 + 1)%nat with (S k + 2)%nat by lia. exact Hjob. }
    assert (Hidle' : forall j, (j < k)%nat ->
              timestamp (clock w (j + ticks (tick 1 s))) < timestamp trigger).
    { intros j Hj. cbn [tick ticks].
      replace (j + (1 + ticks s))%nat with (S j + ticks s)%nat by lia. apply Hidle. lia. }
    assert (Hdue' : timestamp trigger <= timestamp (clock w (k + ticks (tick 1 s)))).
    { cbn [tick ticks].
      replace (k + (1 + ticks s))%nat with (S k + ticks s)%nat by lia. exact Hdue. }
    pose proof (IH fuel (tick 1 s) ltac:(lia) Htime Hidle' Hdue' Hjob') as Hrec.
    replace (S fuel - S (S k))%nat with (fuel - S k)%nat by lia.
    exact Hrec.
Qed.

End Fire.

End SchedulerFacts.


Lemma simulated_clock_valid (i : nat) :
  valid_datetime (simulated_clock i) = true
  /\ valid_time (simulated_clock i) = true
  /\ date_of (simulated_clock i) <> (9999, 12, 31).
Proof.
  unfold simulated_clock.
  destruct (i <? 1)%nat, (i <? 2)%nat, (i <? 3)%nat, (i <? 13)%nat, (i <? 14)%nat;
    (split; [reflexivity | split; [reflexivity | discriminate]]).
Qed.

Lemma simulated_clock_monotone (i j : nat) :
  (i <= j)%nat -> timestamp (simulated_clock i) <= timestamp (simulated_clock j).
Proof.
  intros Hij. unfold simulated_clock.
  destruct (Nat.ltb_spec i 1), (Nat.ltb_spec i 2), (Nat.ltb_spec i 3),
           (Nat.ltb_spec i 13), (Nat.ltb_spec i 14); try lia;
    destruct (Nat.ltb_spec j 1), (Nat.ltb_spec j 2), (Nat.ltb_spec j 3),
             (Nat.ltb_spec j 13), (Nat.ltb_spec j 14); try lia;
    vm_compute; discriminate.
Qed.

Lemma simulated_clock_morning (i : nat) :
  timestamp (simulated_clock i) < timestamp (mkDatetime 2025 1 1 10 0 0 0) + day_us.
Proof.
  unfold simulated_clock.
  destruct (i <? 1)%nat, (i <? 2)%nat, (i <? 3)%nat, (i <? 13)%nat, (i <? 14)%nat;
    vm_compute; reflexivity.
Qed.



